(** * instantpick-backend: geospatial discovery and dashboard aggregation

    A shallow embedding of [routes/location.js] and [routes/dashboard.js].

    JavaScript numbers are modelled by the real numbers: arithmetic is
    exact, and [NaN], which [parseFloat] gives on a query string that
    holds no number, is a separate constructor; the page arithmetic of the
    paginated lists has the infinities as well.  [Binary64] has
    [calculateDistance] in the rounded arithmetic of doubles, where its
    result can be [NaN] too.
    The document store is reached through explicit calls that are logged
    in the order they are issued; its spatial metric and its failures are
    parameters of the model. *)

From Stdlib Require Import Reals Lra Lia List String Ascii ZArith Bool.
From Stdlib Require Import Sorting.Sorted Sorting.Permutation.
From Stdlib Require Import Structures.OrderedTypeEx.
Import ListNotations.

Open Scope R_scope.

(** ** Numbers *)

Module Js.

(** A JavaScript number: a real, or [NaN]. *)
Inductive number : Type :=
| NaN
| Num (x : R).

Definition Rleb (x y : R) : bool := if Rle_dec x y then true else false.
Definition Rltb (x y : R) : bool := if Rlt_dec x y then true else false.
Definition Reqb (x y : R) : bool := if Req_dec_T x y then true else false.

(** A value read from a parsed JSON body where the API expects a number:
    the field is absent ([undefined]), [null], or a JSON number.  JSON has
    no literal for [NaN] or the infinities. *)
Inductive value : Type :=
| undefined
| null
| JNumber (x : R).

(** [!v] is [negb (truthy v)]: a number is falsy exactly when it is 0. *)
Definition truthy (v : value) : bool :=
  match v with
  | undefined | null => false
  | JNumber x => negb (Reqb x 0)
  end.

(** [ToNumber]: [undefined] is [NaN], [null] is 0. *)
Definition ToNumber (v : value) : number :=
  match v with
  | undefined => NaN
  | null => Num 0
  | JNumber x => Num x
  end.

(** [a < b] and [a > b] on values: [false] as soon as one side is [NaN]. *)
Definition lt (a : value) (b : R) : bool :=
  match ToNumber a with NaN => false | Num x => Rltb x b end.
Definition gt (a : value) (b : R) : bool :=
  match ToNumber a with NaN => false | Num x => Rltb b x end.

(** A string is falsy exactly when it is empty; a missing query parameter
    or route parameter is [None]. *)
Definition truthy_string (s : option string) : bool :=
  match s with
  | None | Some EmptyString => false
  | Some (String _ _) => true
  end.

(** [n || d] for a number [n]: [d] when [n] is [NaN] or 0. *)
Definition number_or (n : number) (d : R) : R :=
  match n with
  | NaN => d
  | Num x => if Reqb x 0 then d else x
  end.

(** [v || d] for a body value [v]: [d] when [v] is falsy. *)
Definition value_or (v : value) (d : R) : R :=
  match v with
  | undefined | null => d
  | JNumber x => if Reqb x 0 then d else x
  end.

(** [a <= b] on numbers: [false] as soon as one side is [NaN]. *)
Definition number_leb (a b : number) : bool :=
  match a, b with
  | Num x, Num y => Rleb x y
  | _, _ => false
  end.

(** [n <= r] for a number [n]: [false] on [NaN]. *)
Definition number_le (n : number) (r : R) : bool :=
  match n with NaN => false | Num x => Rleb x r end.

(** *** [Number.prototype.toFixed(2)] followed by [parseFloat]

    [toFixed(2)] picks the integer [n] for which [n / 100 - x] is closest
    to zero, the larger [n] on a tie, after taking the sign off a negative
    [x]; [parseFloat] reads the decimal string back, so the composition
    is the number [n / 100] with the sign put back. *)
Definition toFixed2 (x : R) : R :=
  if Rlt_dec x 0
  then - (IZR (Zfloor (- x * 100 + / 2)) / 100)
  else IZR (Zfloor (x * 100 + / 2)) / 100.

(** *** [parseFloat] on a string

    Leading white space is skipped, then the longest prefix that is a
    decimal literal is read: an optional sign, digits with an optional
    fraction (or a fraction alone), and an exponent when digits follow the
    [e].  A string with no such prefix gives [NaN].  The literal
    [Infinity] denotes no real number and is not a prefix here, and a
    literal beyond the range of the doubles, which the language reads as
    an infinity or as zero, has its exact value here. *)
Definition is_white_space (c : ascii) : bool :=
  let n := nat_of_ascii c in
  (Nat.eqb n 32 || (Nat.leb 9 n && Nat.leb n 13))%bool.

Fixpoint skip_white_space (s : string) : string :=
  match s with
  | String c rest => if is_white_space c then skip_white_space rest else s
  | EmptyString => s
  end.

Definition digit_of (c : ascii) : option Z :=
  let n := nat_of_ascii c in
  if (Nat.leb 48 n && Nat.leb n 57)%bool then Some (Z.of_nat (n - 48)) else None.

(** Reads a run of decimal digits: the value accumulated so far, the
    number of digits read, and what follows. *)
Fixpoint read_digits (acc : Z) (count : nat) (s : string) : Z * nat * string :=
  match s with
  | String c rest =>
      match digit_of c with
      | Some d => read_digits (acc * 10 + d)%Z (S count) rest
      | None => (acc, count, s)
      end
  | EmptyString => (acc, count, s)
  end.

Definition read_sign (s : string) : bool * string :=
  match s with
  | String "-"%char rest => (true, rest)
  | String "+"%char rest => (false, rest)
  | _ => (false, s)
  end.

(** The exponent part [e[+-]ddd], 0 when it is absent or has no digit. *)
Definition read_exponent (s : string) : Z :=
  match s with
  | String c rest =>
      if (Ascii.eqb c "e" || Ascii.eqb c "E")%bool then
        let '(negative, rest') := read_sign rest in
        let '(e, count, _) := read_digits 0 0 rest' in
        match count with
        | O => 0%Z
        | S _ => if negative then (- e)%Z else e
        end
      else 0%Z
  | EmptyString => 0%Z
  end.

Definition parseFloat (input : string) : number :=
  let '(negative, s) := read_sign (skip_white_space input) in
  let '(int_part, int_count, s1) := read_digits 0 0 s in
  let '(mantissa, frac_count, s2) :=
    match s1 with
    | String "."%char rest => read_digits int_part 0 rest
    | _ => (int_part, O, s1)
    end in
  match (int_count + frac_count)%nat with
  | O => NaN
  | S _ =>
      let e := (read_exponent s2 - Z.of_nat frac_count)%Z in
      let magnitude := IZR mantissa * powerRZ 10 e in
      Num (if negative then - magnitude else magnitude)
  end.

(** [parseFloat] applied to a body value goes through [ToString]: a
    number reads back as itself, [undefined] and [null] give [NaN]. *)
Definition parseFloat_value (v : value) : number :=
  match v with
  | undefined | null => NaN
  | JNumber x => Num x
  end.

(** *** [parseInt] on a string, with no radix given

    Leading white space and a sign are read, then the digits: in base 16
    after a [0x] prefix, in base 10 otherwise.  [None] stands for [NaN],
    the result when there is no digit. *)
Definition hex_digit_of (c : ascii) : option Z :=
  let n := nat_of_ascii c in
  if (Nat.leb 48 n && Nat.leb n 57)%bool then Some (Z.of_nat (n - 48))
  else if (Nat.leb 97 n && Nat.leb n 102)%bool then Some (Z.of_nat (n - 87))
  else if (Nat.leb 65 n && Nat.leb n 70)%bool then Some (Z.of_nat (n - 55))
  else None.

Fixpoint read_hex_digits (acc : Z) (count : nat) (s : string) : Z * nat :=
  match s with
  | String c rest =>
      match hex_digit_of c with
      | Some d => read_hex_digits (acc * 16 + d)%Z (S count) rest
      | None => (acc, count)
      end
  | EmptyString => (acc, count)
  end.

Definition parseInt (input : string) : option Z :=
  let '(negative, s) := read_sign (skip_white_space input) in
  let '(magnitude, count) :=
    match s with
    | String "0"%char (String c rest) =>
        if (Ascii.eqb c "x" || Ascii.eqb c "X")%bool
        then read_hex_digits 0 0 rest
        else let '(v, n, _) := read_digits 0 0 s in (v, n)
    | _ => let '(v, n, _) := read_digits 0 0 s in (v, n)
    end in
  match count with
  | O => None
  | S _ => Some (if negative then (- magnitude)%Z else magnitude)
  end.

(** [parseFloat] of a query parameter; [parseFloat(undefined)] is [NaN]. *)
Definition parseFloat_param (p : option string) : number :=
  match p with
  | None => NaN
  | Some s => parseFloat s
  end.

(** [parseFloat(n.toFixed(2))]; [NaN.toFixed(2)] is the string [NaN]. *)
Definition parseFloat_toFixed2 (n : number) : number :=
  match n with
  | NaN => NaN
  | Num x => Num (toFixed2 x)
  end.

(** *** [Math.atan2] on the reals. *)
Definition Math_atan2 (y x : R) : R :=
  if Rlt_dec 0 x then atan (y / x)
  else if Rlt_dec x 0 then
         (if Rle_dec 0 y then atan (y / x) + PI else atan (y / x) - PI)
  else if Rlt_dec 0 y then PI / 2
  else if Rlt_dec y 0 then - (PI / 2)
  else 0.

End Js.

(** ** GeoMath: [toRad] and [calculateDistance] of [routes/location.js] *)

Module GeoMath.

Definition toRad (degrees : R) : R := degrees * (PI / 180).

(** The haversine term [a] of [calculateDistance]. *)
Definition haversine_a (lat1 lon1 lat2 lon2 : R) : R :=
  let dLat := toRad (lat2 - lat1) in
  let dLon := toRad (lon2 - lon1) in
  sin (dLat / 2) * sin (dLat / 2) +
  cos (toRad lat1) * cos (toRad lat2) *
  sin (dLon / 2) * sin (dLon / 2).

(** The formula in exact arithmetic, where [a] and [1 - a] are never
    negative (lemma [haversine_a_bounds]) and [sqrt] stands for
    [Math.sqrt].  The doubles of the source, where [1 - a] can round
    below zero, are in [Binary64]. *)
Definition calculateDistance (lat1 lon1 lat2 lon2 : R) : R :=
  let R := 6371 in
  let a := haversine_a lat1 lon1 lat2 lon2 in
  let c := 2 * Js.Math_atan2 (sqrt a) (sqrt (1 - a)) in
  R * c.

(** [calculateDistance] called with body values for [lat1] and [lon1]:
    the arithmetic converts them with [ToNumber], and every operation on
    [NaN] gives [NaN]. *)
Definition calculateDistance_js (lat1 lon1 : Js.value) (lat2 lon2 : R)
  : Js.number :=
  match Js.ToNumber lat1, Js.ToNumber lon1 with
  | Js.Num lat, Js.Num lon => Js.Num (calculateDistance lat lon lat2 lon2)
  | _, _ => Js.NaN
  end.

End GeoMath.

(** ** The [await]ed store calls of a handler

    A handler is a function of the world it runs in.  An awaited call
    either resolves to a value or rejects with an error message; a
    rejection skips the rest of the [try] block until [try_catch]. *)

Module Async.

Inductive outcome (A : Type) : Type :=
| Resolved (a : A)
| Rejected (message : string).
Arguments Resolved {A} a.
Arguments Rejected {A} message.

Definition t (W A : Type) : Type := W -> outcome A * W.

Definition ret {W A} (a : A) : t W A := fun w => (Resolved a, w).

Definition bind {W A B} (m : t W A) (k : A -> t W B) : t W B :=
  fun w =>
    match m w with
    | (Resolved a, w') => k a w'
    | (Rejected e, w') => (Rejected e, w')
    end.

(** [try { m } catch (error) { handler error.message }], for a handler
    that always answers. *)
Definition try_catch {W A} (m : t W A) (handler : string -> A) : W -> A * W :=
  fun w =>
    match m w with
    | (Resolved a, w') => (a, w')
    | (Rejected e, w') => (handler e, w')
    end.

(** [Promise.all([m1, m2])]: both calls are issued, and the result is
    there when both have resolved.  When one rejects, the whole rejects;
    when both do, the rejection of the one that settles first wins, which
    the model takes to be the first of the array. *)
Definition both {W A B} (m1 : t W A) (m2 : t W B) : t W (A * B) :=
  fun w =>
    let (r1, w1) := m1 w in
    let (r2, w2) := m2 w1 in
    match r1, r2 with
    | Resolved a, Resolved b => (Resolved (a, b), w2)
    | Rejected e, _ => (Rejected e, w2)
    | Resolved _, Rejected e => (Rejected e, w2)
    end.

End Async.

Notation "x <- m ;; k" := (Async.bind m (fun x => k))
  (at level 61, m at next level, right associativity).

(** ** Stable ascending sort ([$sort: { k: 1 }]) for an order given as a
    boolean [leb] *)

Fixpoint insert_by {A : Type} (leb : A -> A -> bool) (x : A) (l : list A)
  : list A :=
  match l with
  | [] => [x]
  | y :: l' => if leb x y then x :: l else y :: insert_by leb x l'
  end.

Definition sort_by {A : Type} (leb : A -> A -> bool) (l : list A) : list A :=
  fold_right (insert_by leb) [] l.

(** The order of a real key. *)
Definition by_key {A : Type} (key : A -> R) (x y : A) : bool :=
  Js.Rleb (key x) (key y).

(** ** [routes/location.js] *)

Module Location.

Import Js.

(** *** The [Shop] collection

    The fields are those that the handlers of [routes/location.js]
    select, read and write; the schema itself ([models/Shop]) is outside
    this development. *)

Record Shop : Type := {
  _id : string;
  name : string;
  description : string;
  category : string;
  address : string;
  phone : string;
  imageUrl : string;
  rating : R;
  totalOrders : nat;
  (** [location.coordinates]: [[longitude, latitude]] *)
  coordinates : R * R;
  deliveryRadius : R;
  locationSet : bool;
  isActive : bool;
  isApproved : bool
}.

(** A document of an aggregation pipeline, after [$geoNear] has set its
    [distance]; [withinDeliveryRadius] is there once [$addFields] has
    set it.  The field projection of [$project] is not tracked: a result
    carries the shop document it was made from. *)
Record Doc : Type := {
  doc_shop : Shop;
  doc_distance : R;
  doc_withinDeliveryRadius : option bool
}.

(** The stages used by the pipelines of this file. *)
Inductive Stage : Type :=
| geoNear (near : number * number) (distanceMultiplier : R)
          (maxDistance : option R)
  (** with [spherical: true] and [query: { isActive: true, isApproved: true }] *)
| addFields_withinDeliveryRadius
  (** [withinDeliveryRadius: { $lte: ['$distance', '$deliveryRadius'] }] *)
| match_withinDeliveryRadius
  (** [$match: { withinDeliveryRadius: true }] *)
| project_round_distance
  (** the display fields and [distance: { $round: ['$distance', 2] }] *)
| sort_distance
  (** [$sort: { distance: 1 }] *).

(** The calls that the handlers issue to the store. *)
Inductive Call : Type :=
| findByIdAndUpdate (id : option string) (coordinates : value * value)
                    (deliveryRadius : value)
| find_near (coordinates : value * value) (maxDistance : R)
| aggregate (pipeline : list Stage).

(** What the model takes from the store as given: the distance in metres
    that its spherical index computes between two [[longitude, latitude]]
    points, and the calls that it rejects (index missing, timeout, a point
    that it refuses, a schema validator), with the error message. *)
Record Env : Type := {
  geoDistance : R * R -> R * R -> R;
  rejects : Call -> option string
}.

Record World : Type := {
  shops : list Shop;
  calls : list Call
}.

Definition visible (s : Shop) : bool := (isActive s && isApproved s)%bool.

(** [$round] to two places: to the nearest multiple of 0.01, and to the
    even one of the two when the value is half way. *)
Definition round_half_even (y : R) : Z :=
  let f := Zfloor y in
  if Rlt_dec (y - IZR f) (/ 2) then f
  else if Rlt_dec (/ 2) (y - IZR f) then (f + 1)%Z
  else if Z.even f then f else (f + 1)%Z.

Definition round2 (x : R) : R := IZR (round_half_even (x * 100)) / 100.

(** The spherical query shared by [$near] and [$geoNear]: the visible
    shops (the filter [isActive: true, isApproved: true]) whose distance
    from [near] is at most [maxDistance] metres when there is such a
    bound, nearest first. *)
Definition near_query (env : Env) (near : R * R) (maxDistance : option R)
    (collection : list Shop) : list Shop :=
  sort_by (by_key (fun s => geoDistance env near (coordinates s)))
    (filter (fun s =>
               visible s &&
               match maxDistance with
               | Some m => Rleb (geoDistance env near (coordinates s)) m
               | None => true
               end)%bool
            collection).

(** [$geoNear] writes into [distance] the distance times
    [distanceMultiplier]. *)
Definition geoNear_stage (env : Env) (near : R * R) (distanceMultiplier : R)
    (maxDistance : option R) (collection : list Shop) : list Doc :=
  map (fun s => {| doc_shop := s;
                   doc_distance :=
                     geoDistance env near (coordinates s) * distanceMultiplier;
                   doc_withinDeliveryRadius := None |})
      (near_query env near maxDistance collection).

Definition run_stage (stage : Stage) (docs : list Doc)
  : Async.outcome (list Doc) :=
  match stage with
  | geoNear _ _ _ =>
      Async.Rejected "$geoNear is only valid as the first stage in a pipeline"
  | addFields_withinDeliveryRadius =>
      Async.Resolved
        (map (fun d =>
                {| doc_shop := doc_shop d;
                   doc_distance := doc_distance d;
                   doc_withinDeliveryRadius :=
                     Some (Rleb (doc_distance d)
                                (deliveryRadius (doc_shop d))) |})
             docs)
  | match_withinDeliveryRadius =>
      Async.Resolved
        (filter (fun d =>
                   match doc_withinDeliveryRadius d with
                   | Some true => true
                   | _ => false
                   end)
                docs)
  | project_round_distance =>
      Async.Resolved
        (map (fun d =>
                {| doc_shop := doc_shop d;
                   doc_distance := round2 (doc_distance d);
                   doc_withinDeliveryRadius := None |})
             docs)
  | sort_distance => Async.Resolved (sort_by (by_key doc_distance) docs)
  end.

Fixpoint run_stages (stages : list Stage) (docs : list Doc)
  : Async.outcome (list Doc) :=
  match stages with
  | [] => Async.Resolved docs
  | stage :: rest =>
      match run_stage stage docs with
      | Async.Resolved docs' => run_stages rest docs'
      | Async.Rejected e => Async.Rejected e
      end
  end.

(** [$geoNear] has to be the first stage, and every pipeline of the source
    starts with it; the store refuses a point with a [NaN] coordinate. *)
Definition run_pipeline (env : Env) (pipeline : list Stage)
    (collection : list Shop) : Async.outcome (list Doc) :=
  match pipeline with
  | geoNear (Num lon, Num lat) multiplier maxDistance :: rest =>
      run_stages rest
        (geoNear_stage env (lon, lat) multiplier maxDistance collection)
  | geoNear _ _ _ :: _ =>
      Async.Rejected "$geoNear requires a point of two numbers"
  | _ => Async.Rejected "no $geoNear stage"
  end.

Definition issue (c : Call) (w : World) : World :=
  {| shops := shops w; calls := calls w ++ [c] |}.

(** [Shop.find({ location: { $near: ... }, isActive: true, isApproved: true })];
    the field selection of [select] is not tracked.  The query casts the
    coordinates to numbers. *)
Definition Shop_find (env : Env) (coordinates : value * value)
    (maxDistance : R) : Async.t World (list Shop) :=
  fun w =>
    let call := find_near coordinates maxDistance in
    let w' := issue call w in
    match rejects env call with
    | Some e => (Async.Rejected e, w')
    | None =>
        match coordinates with
        | (JNumber lon, JNumber lat) =>
            (Async.Resolved
               (near_query env (lon, lat) (Some maxDistance) (shops w)), w')
        | _ => (Async.Rejected "Cast to Number failed", w')
        end
    end.

(** [Shop.aggregate(pipeline)] *)
Definition Shop_aggregate (env : Env) (pipeline : list Stage)
  : Async.t World (list Doc) :=
  fun w =>
    let call := aggregate pipeline in
    let w' := issue call w in
    match rejects env call with
    | Some e => (Async.Rejected e, w')
    | None => (run_pipeline env pipeline (shops w), w')
    end.

(** The update of [findByIdAndUpdate]: the first shop with this [_id]
    gets the new location and radius and [locationSet: true]; the result
    is the updated document ([new: true]), or [None] for [null]. *)
Definition set_location (lon lat radius : R) (s : Shop) : Shop :=
  {| _id := _id s; name := name s; description := description s;
     category := category s; address := address s; phone := phone s;
     imageUrl := imageUrl s; rating := rating s;
     totalOrders := totalOrders s;
     coordinates := (lon, lat);
     deliveryRadius := radius;
     locationSet := true;
     isActive := isActive s; isApproved := isApproved s |}.

Fixpoint update_by_id (id : string) (f : Shop -> Shop) (l : list Shop)
  : option Shop * list Shop :=
  match l with
  | [] => (None, [])
  | s :: rest =>
      if String.eqb (_id s) id then (Some (f s), f s :: rest)
      else let (found, rest') := update_by_id id f rest in (found, s :: rest')
  end.

Definition Shop_findByIdAndUpdate (env : Env) (id : option string)
    (coordinates : value * value) (radius : value)
  : Async.t World (option Shop) :=
  fun w =>
    let call := findByIdAndUpdate id coordinates radius in
    let w' := issue call w in
    match rejects env call with
    | Some e => (Async.Rejected e, w')
    | None =>
        match id, coordinates, radius with
        | Some id, (JNumber lon, JNumber lat), JNumber r =>
            let (found, shops') :=
              update_by_id id (set_location lon lat r) (shops w) in
            (Async.Resolved found, {| shops := shops'; calls := calls w' |})
        | None, _, _ => (Async.Resolved None, w')
        | _, _, _ => (Async.Rejected "Cast to Number failed", w')
        end
    end.

(** *** Requests and responses *)

(** [req.body] of the POST routes: the fields that the handlers read. *)
Module Body.
Record t : Type := {
  shopId : option string;
  latitude : value;
  longitude : value;
  deliveryRadius : value;
  maxDistance : value
}.
End Body.

(** [req.query] of the GET route: every parameter is a string or absent. *)
Module Query.
Record t : Type := {
  latitude : option string;
  longitude : option string;
  radius : option string
}.
End Query.

(** One shop of the answer of [/shops/nearby]. *)
Record NearbyShop : Type := {
  shop : Shop;
  distance : number;
  withinDeliveryRadius : bool
}.

(** [res.status(...).json(...)]. *)
Inductive Response : Type :=
| failure (status : nat) (message : string) (error : option string)
  (** [{ success: false, message, error }] *)
| location_saved (shopId : string) (location : R * R) (radius : R)
  (** 200, [{ success: true, message: 'Location saved successfully', data }] *)
| nearby_shops (count : nat) (data : list NearbyShop)
  (** 200, [{ success: true, count, data }] *)
| aggregated_shops (count : nat) (searchRadius : option R) (data : list Doc)
  (** 200, [{ success: true, count, searchRadius?, data }] *).

Definition success (r : Response) : bool :=
  match r with
  | failure _ _ _ => false
  | _ => true
  end.

Definition server_error (e : string) : Response :=
  failure 500 "Server error" (Some e).

(** *** The handlers *)

(** [router.post('/shop/location', ...)] *)
Definition post_shop_location (env : Env) (body : Body.t)
  : World -> Response * World :=
  let shopId := Body.shopId body in
  let latitude := Body.latitude body in
  let longitude := Body.longitude body in
  let deliveryRadius := Body.deliveryRadius body in
  Async.try_catch
    (if (negb (truthy_string shopId) || negb (truthy latitude) ||
         negb (truthy longitude) || negb (truthy deliveryRadius))%bool
     then Async.ret (failure 400 "Missing required fields" None)
     else if (lt latitude (-90) || gt latitude 90 ||
              lt longitude (-180) || gt longitude 180)%bool
     then Async.ret (failure 400 "Invalid coordinates" None)
     else if (lt deliveryRadius 0 || gt deliveryRadius 50)%bool
     then Async.ret
            (failure 400 "Delivery radius must be between 0 and 50 km" None)
     else
       found <- Shop_findByIdAndUpdate env shopId (longitude, latitude)
                                       deliveryRadius ;;
       match found with
       | None => Async.ret (failure 404 "Shop not found" None)
       | Some shop =>
           Async.ret (location_saved (_id shop) (coordinates shop)
                                     (Location.deliveryRadius shop))
       end)
    server_error.

(** The callback of [shops.map] in [/shops/nearby]. *)
Definition withDistance (latitude longitude : value) (shop : Shop)
  : NearbyShop :=
  let distance :=
    GeoMath.calculateDistance_js
      latitude longitude
      (snd (coordinates shop)) (fst (coordinates shop)) in
  {| shop := shop;
     distance := parseFloat_toFixed2 distance;
     withinDeliveryRadius :=
       number_le distance (Location.deliveryRadius shop) |}.

(** [router.post('/shops/nearby', ...)] *)
Definition post_shops_nearby (env : Env) (body : Body.t)
  : World -> Response * World :=
  let latitude := Body.latitude body in
  let longitude := Body.longitude body in
  let maxDistance := Body.maxDistance body in
  Async.try_catch
    (if (negb (truthy latitude) || negb (truthy longitude))%bool
     then Async.ret (failure 400 "Latitude and longitude are required" None)
     else
       let maxDistanceKm := value_or maxDistance 10 in
       shops <- Shop_find env (longitude, latitude) (maxDistanceKm * 1000) ;;
       let shopsWithDistance := map (withDistance latitude longitude) shops in
       Async.ret (nearby_shops (List.length shopsWithDistance) shopsWithDistance))
    server_error.

(** [router.post('/shops/deliverable', ...)] *)
Definition post_shops_deliverable (env : Env) (body : Body.t)
  : World -> Response * World :=
  let latitude := Body.latitude body in
  let longitude := Body.longitude body in
  Async.try_catch
    (if (negb (truthy latitude) || negb (truthy longitude))%bool
     then Async.ret (failure 400 "Latitude and longitude are required" None)
     else
       shops <- Shop_aggregate env
                  [ geoNear (parseFloat_value longitude,
                             parseFloat_value latitude) 0.001 None;
                    addFields_withinDeliveryRadius;
                    match_withinDeliveryRadius;
                    project_round_distance;
                    sort_distance ] ;;
       Async.ret (aggregated_shops (List.length shops) None shops))
    server_error.

(** [router.get('/shops/radius', ...)] *)
Definition get_shops_radius (env : Env) (query : Query.t)
  : World -> Response * World :=
  let latitude := Query.latitude query in
  let longitude := Query.longitude query in
  let radius := Query.radius query in
  Async.try_catch
    (if (negb (truthy_string latitude) || negb (truthy_string longitude))%bool
     then Async.ret (failure 400 "Latitude and longitude are required" None)
     else
       let searchRadius := number_or (parseFloat_param radius) 5 in
       shops <- Shop_aggregate env
                  [ geoNear (parseFloat_param longitude,
                             parseFloat_param latitude) 0.001
                            (Some (searchRadius * 1000));
                    project_round_distance;
                    sort_distance ] ;;
       Async.ret (aggregated_shops (List.length shops) (Some searchRadius) shops))
    server_error.

(** The pipelines as the two handlers send them. *)
Definition deliverable_pipeline (lon lat : number) : list Stage :=
  [ geoNear (lon, lat) 0.001 None;
    addFields_withinDeliveryRadius;
    match_withinDeliveryRadius;
    project_round_distance;
    sort_distance ].

Definition radius_pipeline (lon lat : number) (searchRadius : R)
  : list Stage :=
  [ geoNear (lon, lat) 0.001 (Some (searchRadius * 1000));
    project_round_distance;
    sort_distance ].

(** *** Distances of a shop from an origin *)

(** The distance that [$geoNear] writes with [distanceMultiplier: 0.001]:
    the store's distance in kilometres. *)
Definition distanceKm (env : Env) (origin : R * R) (s : Shop) : R :=
  geoDistance env origin (coordinates s) * 0.001.

(** The distance that [/shops/nearby] computes with [calculateDistance]. *)
Definition haversineKm (lat lon : R) (s : Shop) : R :=
  GeoMath.calculateDistance lat lon (snd (coordinates s)) (fst (coordinates s)).

End Location.

(** ** [routes/dashboard.js]: the summary and the statistics *)

Module Dashboard.

(** *** The collections

    The fields are those that the two handlers read; the schemas
    themselves ([models/Shop], [models/Product], [models/Order]) are
    outside this development. *)

Module Shop.
Record t : Type := {
  _id : string;
  ownerId : string;
  name : string;
  isOpen : bool;
  isActive : bool;
  totalRevenue : Js.value
}.
End Shop.

Module Product.
Record t : Type := {
  shopId : string;
  category : string;
  isAvailable : bool
}.
End Product.

(** [createdAt] is a time in milliseconds since the epoch. *)
Module Order.
Record t : Type := {
  shopId : string;
  status : string;
  totalAmount : R;
  createdAt : Z
}.
End Order.

(** *** Query objects *)

(** [{ shopId, isAvailable? }] *)
Record ProductFilter : Type := {
  product_shopId : string;
  product_isAvailable : option bool
}.

(** [{ shopId, status?, createdAt: { $gte }? }]; the bound is a [Date],
    [None] when it is an Invalid Date. *)
Record OrderFilter : Type := {
  order_shopId : string;
  order_status : option string;
  order_createdAt_gte : option (option Z)
}.

Definition matches_product (f : ProductFilter) (p : Product.t) : bool :=
  (String.eqb (Product.shopId p) (product_shopId f) &&
   match product_isAvailable f with
   | Some b => Bool.eqb (Product.isAvailable p) b
   | None => true
   end)%bool.

Definition matches_order (f : OrderFilter) (o : Order.t) : bool :=
  (String.eqb (Order.shopId o) (order_shopId f) &&
   match order_status f with
   | Some s => String.eqb (Order.status o) s
   | None => true
   end &&
   match order_createdAt_gte f with
   | Some (Some t) => Z.leb t (Order.createdAt o)
   | Some None => false
   | None => true
   end)%bool.

(** One group of a [$group] stage: its [_id] ([None] for [null]), the
    number of documents in it ([$sum: 1]: the fields [orders] and [count]
    of the source) and the sum of their amounts ([$sum: '$totalAmount']:
    the fields [revenue] and [total]). *)
Record Group : Type := {
  _id : option string;
  count : nat;
  sum : R
}.

(** The [$group] stages of the source. *)
Inductive OrderGroup : Type :=
| group_all
  (** [{ _id: null, total: { $sum: '$totalAmount' } }] *)
| group_by_day
  (** [{ _id: { $dateToString: { format: '%Y-%m-%d', date: '$createdAt' } },
         orders: { $sum: 1 }, revenue: { $sum: '$totalAmount' } }] *).

(** [[ { $match }, { $group }, { $sort: { _id: 1 } }? ]] *)
Record OrderPipeline : Type := {
  order_match : OrderFilter;
  order_group : OrderGroup;
  order_sort_id : bool
}.

Inductive Call : Type :=
| Shop_findOne_call (ownerId : string)
| Product_countDocuments_call (f : ProductFilter)
| Order_countDocuments_call (f : OrderFilter)
| Order_aggregate_call (p : OrderPipeline)
| Product_aggregate_call (shopId : string).

(** The clock of the server and what the model takes from the store as
    given: [now] is [new Date()], [setHours0 t] is the local midnight
    before [t] ([setHours(0, 0, 0, 0)]), [dateToString] is the store's
    [$dateToString] with the format [%Y-%m-%d], and [rejects] gives the
    calls that the store fails, with the error message. *)
Record Env : Type := {
  now : Z;
  setHours0 : Z -> Z;
  dateToString : Z -> string;
  rejects : Call -> option string
}.

Record World : Type := {
  shops : list Shop.t;
  products : list Product.t;
  orders : list Order.t;
  calls : list Call
}.

Definition issue (c : Call) (w : World) : World :=
  {| shops := shops w; products := products w; orders := orders w;
     calls := calls w ++ [c] |}.

(** A read of the store: the call is logged, and answered unless the
    store rejects it. *)
Definition read {A : Type} (env : Env) (c : Call)
    (answer : World -> Async.outcome A) : Async.t World A :=
  fun w =>
    let w' := issue c w in
    match rejects env c with
    | Some e => (Async.Rejected e, w')
    | None => (answer w, w')
    end.

(** *** [$group] and [$sort] *)

Definition key_eqb (a b : option string) : bool :=
  match a, b with
  | None, None => true
  | Some x, Some y => String.eqb x y
  | _, _ => false
  end.

(** The order of [_id] for [$sort: { _id: 1 }]: [null] first, then the
    strings in binary order. *)
Definition key_leb (a b : option string) : bool :=
  match a, b with
  | None, _ => true
  | Some _, None => false
  | Some x, Some y => String.leb x y
  end.

(** A document joins the group of its key, or opens a new group after
    the groups there are.  The store does not say in which order [$group]
    returns its groups; here it is the order in which the keys first
    occur. *)
Fixpoint add_to_group (k : option string) (amount : R) (groups : list Group)
  : list Group :=
  match groups with
  | [] => [ {| _id := k; count := 1; sum := amount |} ]
  | g :: rest =>
      if key_eqb (_id g) k
      then {| _id := k; count := S (count g); sum := sum g + amount |} :: rest
      else g :: add_to_group k amount rest
  end.

Definition group_by {A : Type} (key : A -> option string) (amount : A -> R)
    (docs : list A) : list Group :=
  fold_left (fun groups d => add_to_group (key d) (amount d) groups) docs [].

Definition sort_id (groups : list Group) : list Group :=
  sort_by (fun g h => key_leb (_id g) (_id h)) groups.

Definition run_order_pipeline (env : Env) (p : OrderPipeline)
    (collection : list Order.t) : list Group :=
  let matched := filter (matches_order (order_match p)) collection in
  let grouped :=
    match order_group p with
    | group_all => group_by (fun _ => None) Order.totalAmount matched
    | group_by_day =>
        group_by (fun o => Some (dateToString env (Order.createdAt o)))
                 Order.totalAmount matched
    end in
  if order_sort_id p then sort_id grouped else grouped.

(** *** The calls *)

(** [Shop.findOne({ ownerId }).select(...).lean()] *)
Definition Shop_findOne (env : Env) (ownerId : string)
  : Async.t World (option Shop.t) :=
  read env (Shop_findOne_call ownerId)
       (fun w => Async.Resolved
                   (find (fun s => String.eqb (Shop.ownerId s) ownerId)
                         (shops w))).

(** [Product.countDocuments(f)] *)
Definition Product_countDocuments (env : Env) (f : ProductFilter)
  : Async.t World nat :=
  read env (Product_countDocuments_call f)
       (fun w => Async.Resolved
                   (List.length (filter (matches_product f) (products w)))).

(** [Order.countDocuments(f)] *)
Definition Order_countDocuments (env : Env) (f : OrderFilter)
  : Async.t World nat :=
  read env (Order_countDocuments_call f)
       (fun w => Async.Resolved
                   (List.length (filter (matches_order f) (orders w)))).

(** [Order.aggregate(p)]; a pipeline whose date bound is an Invalid Date
    is taken to fail. *)
Definition Order_aggregate (env : Env) (p : OrderPipeline)
  : Async.t World (list Group) :=
  read env (Order_aggregate_call p)
       (fun w =>
          match order_createdAt_gte (order_match p) with
          | Some None => Async.Rejected "Invalid Date"
          | _ => Async.Resolved (run_order_pipeline env p (orders w))
          end).

(** [Product.aggregate([{ $match: { shopId } },
                        { $group: { _id: '$category', count: { $sum: 1 } } }])] *)
Definition Product_aggregate (env : Env) (shopId : string)
  : Async.t World (list Group) :=
  read env (Product_aggregate_call shopId)
       (fun w =>
          Async.Resolved
            (group_by (fun p => Some (Product.category p)) (fun _ => 0)
               (filter (matches_product
                          {| product_shopId := shopId;
                             product_isAvailable := None |})
                       (products w)))).

(** *** Responses *)

(** [data] of the summary; the response time is left out. *)
Record Summary : Type := {
  shop_id : string;
  shop_name : string;
  shop_isOpen : bool;
  shop_isActive : bool;
  products_total : nat;
  products_available : nat;
  products_unavailable : Z;
  orders_total : nat;
  orders_pending : nat;
  orders_accepted : nat;
  orders_completed : nat;
  revenue_total : R;
  revenue_today : R;
  today_orders : nat;
  today_revenue : R
}.

Inductive Response : Type :=
| failure (status : nat) (message : string) (error : option string)
  (** [{ success: false, message, error }] *)
| summary (data : Summary)
  (** 200, [{ success: true, responseTime, data }] *)
| stats (daily : list Group) (categories : list Group)
  (** 200, [{ success: true, responseTime, data: { daily, categories } }] *).

Definition success (r : Response) : bool :=
  match r with
  | failure _ _ _ => false
  | _ => true
  end.

(** [todayRevenue[0]?.total || 0] *)
Definition first_total_or_0 (todayRevenue : list Group) : R :=
  match todayRevenue with
  | [] => 0
  | g :: _ => Js.number_or (Js.Num (sum g)) 0
  end.

(** *** The handlers *)

(** [router.get('/summary/:ownerId', ...)] *)
Definition get_summary (env : Env) (ownerId : option string)
  : World -> Response * World :=
  Async.try_catch
    (match ownerId with
     | None | Some EmptyString =>
         Async.ret (failure 400 "ownerId is required" None)
     | Some ownerId =>
         found <- Shop_findOne env ownerId ;;
         match found with
         | None => Async.ret (failure 404 "Shop not found for this owner" None)
         | Some shop =>
             let shopId := Shop._id shop in
             let today := Some (Some (setHours0 env (now env))) in
             let filter_orders status since :=
               {| order_shopId := shopId; order_status := status;
                  order_createdAt_gte := since |} in
             results <-
               Async.both
                 (Product_countDocuments env
                    {| product_shopId := shopId;
                       product_isAvailable := None |})
              (Async.both
                 (Product_countDocuments env
                    {| product_shopId := shopId;
                       product_isAvailable := Some true |})
              (Async.both
                 (Order_countDocuments env (filter_orders None None))
              (Async.both
                 (Order_countDocuments env
                    (filter_orders (Some "Pending"%string) None))
              (Async.both
                 (Order_countDocuments env
                    (filter_orders (Some "Accepted"%string) None))
              (Async.both
                 (Order_countDocuments env
                    (filter_orders (Some "Completed"%string) None))
              (Async.both
                 (Order_aggregate env
                    {| order_match :=
                         filter_orders (Some "Completed"%string) today;
                       order_group := group_all;
                       order_sort_id := false |})
                 (Order_countDocuments env (filter_orders None today)))))))) ;;
             let '(totalProducts, (availableProducts, (totalOrders,
                  (pendingOrders, (acceptedOrders, (completedOrders,
                  (todayRevenue, todayOrders))))))) := results in
             Async.ret
               (summary
                  {| shop_id := Shop._id shop;
                     shop_name := Shop.name shop;
                     shop_isOpen := Shop.isOpen shop;
                     shop_isActive := Shop.isActive shop;
                     products_total := totalProducts;
                     products_available := availableProducts;
                     products_unavailable :=
                       (Z.of_nat totalProducts - Z.of_nat availableProducts)%Z;
                     orders_total := totalOrders;
                     orders_pending := pendingOrders;
                     orders_accepted := acceptedOrders;
                     orders_completed := completedOrders;
                     revenue_total := Js.value_or (Shop.totalRevenue shop) 0;
                     revenue_today := first_total_or_0 todayRevenue;
                     today_orders := todayOrders;
                     today_revenue := first_total_or_0 todayRevenue |})
         end
     end)
    (fun e => failure 500 "Failed to load dashboard summary" (Some e)).

(** One day in milliseconds. *)
Definition day_ms : Z := 86400000.

(** [daysAgo.setDate(daysAgo.getDate() - n)] on the date [t], for a server
    whose local time has no clock change within the [n] days; with [n]
    [NaN] the date becomes an Invalid Date. *)
Definition setDate_minus (t : Z) (n : option Z) : option Z :=
  match n with
  | Some n => Some (t - n * day_ms)%Z
  | None => None
  end.

(** [router.get('/stats/:shopId', ...)]; [days] is the query parameter,
    7 when it is absent. *)
Definition get_stats (env : Env) (shopId : string) (days : option string)
  : World -> Response * World :=
  Async.try_catch
    (let days := match days with
                 | Some d => Js.parseInt d
                 | None => Some 7%Z
                 end in
     let daysAgo := setDate_minus (now env) days in
     results <-
       Async.both
         (Order_aggregate env
            {| order_match :=
                 {| order_shopId := shopId;
                    order_status := Some "Completed"%string;
                    order_createdAt_gte := Some daysAgo |};
               order_group := group_by_day;
               order_sort_id := true |})
         (Product_aggregate env shopId) ;;
     let '(dailyStats, categoryStats) := results in
     Async.ret (stats dailyStats categoryStats))
    (fun e => failure 500 "Failed to load stats" (Some e)).

(** *** What the handlers send, and what a group holds *)

(** The eight queries of the [Promise.all] of the summary, in the order
    of the array. *)
Definition summary_queries (env : Env) (shopId : string) : list Call :=
  let today := Some (Some (setHours0 env (now env))) in
  let filter_orders status since :=
    {| order_shopId := shopId; order_status := status;
       order_createdAt_gte := since |} in
  [ Product_countDocuments_call
      {| product_shopId := shopId; product_isAvailable := None |};
    Product_countDocuments_call
      {| product_shopId := shopId; product_isAvailable := Some true |};
    Order_countDocuments_call (filter_orders None None);
    Order_countDocuments_call (filter_orders (Some "Pending"%string) None);
    Order_countDocuments_call (filter_orders (Some "Accepted"%string) None);
    Order_countDocuments_call (filter_orders (Some "Completed"%string) None);
    Order_aggregate_call
      {| order_match := filter_orders (Some "Completed"%string) today;
         order_group := group_all;
         order_sort_id := false |};
    Order_countDocuments_call (filter_orders None today) ].

(** The summary of a shop when every query is answered. *)
Definition summary_of (env : Env) (shop : Shop.t) (w : World) : Summary :=
  let shopId := Shop._id shop in
  let today := Some (Some (setHours0 env (now env))) in
  let orders_with status since :=
    List.length
      (filter (matches_order
                 {| order_shopId := shopId; order_status := status;
                    order_createdAt_gte := since |})
              (orders w)) in
  let products_with isAvailable :=
    List.length
      (filter (matches_product
                 {| product_shopId := shopId;
                    product_isAvailable := isAvailable |})
              (products w)) in
  let todayRevenue :=
    first_total_or_0
      (run_order_pipeline env
         {| order_match :=
              {| order_shopId := shopId;
                 order_status := Some "Completed"%string;
                 order_createdAt_gte := today |};
            order_group := group_all;
            order_sort_id := false |}
         (orders w)) in
  {| shop_id := Shop._id shop;
     shop_name := Shop.name shop;
     shop_isOpen := Shop.isOpen shop;
     shop_isActive := Shop.isActive shop;
     products_total := products_with None;
     products_available := products_with (Some true);
     products_unavailable :=
       (Z.of_nat (products_with None)
        - Z.of_nat (products_with (Some true)))%Z;
     orders_total := orders_with None None;
     orders_pending := orders_with (Some "Pending"%string) None;
     orders_accepted := orders_with (Some "Accepted"%string) None;
     orders_completed := orders_with (Some "Completed"%string) None;
     revenue_total := Js.value_or (Shop.totalRevenue shop) 0;
     revenue_today := todayRevenue;
     today_orders := orders_with None today;
     today_revenue := todayRevenue |}.

(** The pipeline of the daily statistics for the orders since [daysAgo]. *)
Definition daily_pipeline (shopId : string) (daysAgo : option Z)
  : OrderPipeline :=
  {| order_match :=
       {| order_shopId := shopId;
          order_status := Some "Completed"%string;
          order_createdAt_gte := Some daysAgo |};
     order_group := group_by_day;
     order_sort_id := true |}.

(** The sum of a list of amounts. *)
Definition total (amounts : list R) : R := fold_right Rplus 0 amounts.

(** The error of the first of the [queries] that the store rejects. *)
Fixpoint first_rejection (env : Env) (queries : list Call) : option string :=
  match queries with
  | [] => None
  | c :: rest =>
      match rejects env c with
      | Some e => Some e
      | None => first_rejection env rest
      end
  end.

(** The group with the key [k], if there is one. *)
Definition lookup (k : option string) (groups : list Group) : option Group :=
  find (fun g => key_eqb (_id g) k) groups.

(** The documents with the key [k]. *)
Definition has_key {A : Type} (key : A -> option string) (k : option string)
    (d : A) : bool :=
  key_eqb (key d) k.

(** What the groups of [$group] hold once the documents [seen] are in:
    one group for each key that occurs, with the number and the sum of the
    documents of this key. *)
Definition groups_of {A : Type} (key : A -> option string) (amount : A -> R)
    (groups : list Group) (seen : list A) : Prop :=
  NoDup (map _id groups) /\
  forall k,
    match lookup k groups with
    | Some g =>
        (0 < count g)%nat /\
        count g = List.length (filter (has_key key k) seen) /\
        sum g = total (map amount (filter (has_key key k) seen))
    | None => filter (has_key key k) seen = []
    end.

End Dashboard.

(** ** The scenarios of the specification

    The origin is (12.9716, 77.5946).  The shops lie due north of it, so
    that their haversine distance is the number of kilometres given; the
    store measures that same distance, in metres, and fails no call. *)

Module Scenario.

Import Location.

Definition origin_lat : R := 12.9716.
Definition origin_lon : R := 77.5946.

Definition env : Env :=
  {| geoDistance := fun p q =>
       GeoMath.calculateDistance (snd p) (fst p) (snd q) (fst q) * 1000;
     rejects := fun _ => None |}.

Definition shop_at (id : string) (km radius : R) : Shop :=
  {| _id := id; name := id; description := ""; category := "grocery";
     address := ""; phone := ""; imageUrl := ""; rating := 4;
     totalOrders := 0;
     coordinates := (origin_lon, origin_lat + km * 180 / (6371 * PI));
     deliveryRadius := radius;
     locationSet := true; isActive := true; isApproved := true |}.

Definition A : Shop := shop_at "A" 3.2 5.
Definition B : Shop := shop_at "B" 8 10.
Definition C : Shop := shop_at "C" 12 10.

Definition world (l : list Shop) : World := {| shops := l; calls := [] |}.

Definition body (maxDistance : Js.value) : Body.t :=
  {| Body.shopId := None;
     Body.latitude := Js.JNumber origin_lat;
     Body.longitude := Js.JNumber origin_lon;
     Body.deliveryRadius := Js.undefined;
     Body.maxDistance := maxDistance |}.

Definition body_of (shopId : option string)
    (latitude longitude deliveryRadius maxDistance : Js.value) : Body.t :=
  {| Body.shopId := shopId; Body.latitude := latitude;
     Body.longitude := longitude; Body.deliveryRadius := deliveryRadius;
     Body.maxDistance := maxDistance |}.

End Scenario.

(** A shop of the dashboard with its products and orders.  Times are in
    milliseconds; the store names a day by its number since the epoch. *)

Module DashboardScenario.

Import Dashboard.

Definition day_name (t : Z) : string :=
  match (t / day_ms)%Z with
  | 20000%Z => "2024-10-04"
  | 20001%Z => "2024-10-05"
  | 20002%Z => "2024-10-06"
  | _ => "1970-01-01"
  end.

Definition clock (rejects : Call -> option string) : Env :=
  {| now := 20002 * day_ms + 3600000;
     setHours0 := fun t => (t / day_ms * day_ms)%Z;
     dateToString := day_name;
     rejects := rejects |}.

Definition env : Env := clock (fun _ => None).

Definition timed_out : string :=
  "Operation `orders.countDocuments()` buffering timed out after 10000ms".

(** The store fails the count of the orders of one status. *)
Definition env_failing (status : string) : Env :=
  clock (fun c =>
           match c with
           | Order_countDocuments_call f =>
               match order_status f with
               | Some s => if String.eqb s status then Some timed_out else None
               | None => None
               end
           | _ => None
           end).

Definition the_shop : Shop.t :=
  {| Shop._id := "shop1"; Shop.ownerId := "owner1"; Shop.name := "Corner";
     Shop.isOpen := true; Shop.isActive := true;
     Shop.totalRevenue := Js.undefined |}.

Definition order (status : string) (amount : R) (at_ : Z) : Order.t :=
  {| Order.shopId := "shop1"; Order.status := status;
     Order.totalAmount := amount; Order.createdAt := at_ |}.

Definition product (category : string) : Product.t :=
  {| Product.shopId := "shop1"; Product.category := category;
     Product.isAvailable := true |}.

Definition world_without_orders : World :=
  {| shops := [the_shop]; products := [product "fruit"]; orders := [];
     calls := [] |}.

Definition world : World :=
  {| shops := [the_shop];
     products := [product "fruit"; product "dairy"; product "fruit"];
     orders := [ order "Completed" 120 (20001 * day_ms + 5);
                 order "Pending" 80 (20001 * day_ms + 9);
                 order "Completed" 40 (20000 * day_ms + 7);
                 order "Completed" 60 (20001 * day_ms + 11) ];
     calls := [] |}.

End DashboardScenario.

(** ** [routes/location.js]: the status of a shop *)

Module LocationStatus.

Import Js Location.

(** [data] of the status. *)
Record Status : Type := {
  status_locationSet : bool;
  hasCoordinates : bool;
  status_deliveryRadius : R
}.

Inductive Response : Type :=
| failure (status : nat) (message : string) (error : option string)
  (** [{ success: false, message, error }] *)
| shop_status (data : Status)
  (** 200, [{ success: true, data }] *).

(** [Shop.findById(id).select(...)].  The call reads the store and is not
    among the logged ones; [rejected] is the error with which the store
    fails it, if it does. *)
Definition Shop_findById (rejected : option string) (id : string)
  : Async.t World (option Shop) :=
  fun w =>
    match rejected with
    | Some e => (Async.Rejected e, w)
    | None =>
        (Async.Resolved (find (fun s => String.eqb (_id s) id) (shops w)), w)
    end.

(** [router.get('/shop/:shopId/status', ...)].  Every shop of the model
    has a location, with the coordinates (0, 0) until one is saved, so
    [shop.location && shop.location.coordinates] is truthy. *)
Definition get_shop_status (rejected : option string) (shopId : string)
  : World -> Response * World :=
  Async.try_catch
    (found <- Shop_findById rejected shopId ;;
     match found with
     | None => Async.ret (failure 404 "Shop not found" None)
     | Some shop =>
         Async.ret
           (shop_status
              {| status_locationSet := (locationSet shop || false)%bool;
                 hasCoordinates :=
                   (negb (Reqb (fst (coordinates shop)) 0) ||
                    negb (Reqb (snd (coordinates shop)) 0))%bool;
                 status_deliveryRadius := deliveryRadius shop |})
     end)
    (fun e => failure 500 "Server error" (Some e)).

End LocationStatus.

(** The shop with an identifier, and the update that [/shop/location]
    issues for a body of numbers. *)

Module LocationCalls.

Import Js Location.

Definition has_id (id : string) (s : Shop) : bool := String.eqb (_id s) id.

Definition save_call (id : string) (lat lon km : R) : Call :=
  findByIdAndUpdate (Some id) (JNumber lon, JNumber lat) (JNumber km).

End LocationCalls.

(** A store that fails every call, and a query string with both
    coordinates. *)

Module MoreScenarios.

Import Location.

Definition unreachable : string := "connection timed out".

Definition env_down : Env :=
  {| geoDistance := geoDistance Scenario.env;
     rejects := fun _ => Some unreachable |}.

Definition query (latitude longitude : string) (radius : option string)
  : Query.t :=
  {| Query.latitude := Some latitude; Query.longitude := Some longitude;
     Query.radius := radius |}.

(** A store that measures its distances on a sphere of radius 6378.1 km,
    where [calculateDistance] has 6371 km. *)
Definition env_6378 : Env :=
  {| geoDistance := fun p q =>
       GeoMath.calculateDistance (snd p) (fst p) (snd q) (fst q)
       * (6378.1 / 6371) * 1000;
     rejects := fun _ => None |}.

(** A shop just within its delivery radius by [calculateDistance], and a
    shop whose distance rounds up to the next hundredth. *)
Definition E : Shop := Scenario.shop_at "E" 9.995 10.
Definition F : Shop := Scenario.shop_at "F" 4.996 5.

End MoreScenarios.

(** ** [routes/dashboard.js]: the documents that a summary counts *)

Module DashboardCounts.

Import Dashboard.

(** The product of a shop that is not available. *)
Definition unavailable_in (shopId : string) (p : Product.t) : bool :=
  (String.eqb (Product.shopId p) shopId && negb (Product.isAvailable p))%bool.

(** The completed orders of a shop created at or after [since]. *)
Definition completed_since (shopId : string) (since : Z) (o : Order.t) : bool :=
  (String.eqb (Order.shopId o) shopId
   && String.eqb (Order.status o) "Completed"
   && Z.leb since (Order.createdAt o))%bool.

End DashboardCounts.

(** ** [routes/dashboard.js]: the paginated lists and the recent activity *)

Module DashboardLists.

Import Dashboard.

(** *** Numbers of the page arithmetic

    [page] and [limit] are query strings, which [ToNumber] can read as an
    infinity; [(page - 1) * limit] and [total / limit] are computed on
    these numbers. *)
Inductive number : Type :=
| NaN
| Infinity (negative : bool)
| Num (x : R).

(** [a - 1] *)
Definition minus_one (a : number) : number :=
  match a with
  | Num x => Num (x - 1)
  | _ => a
  end.

(** [a * b]; an infinity times zero is [NaN]. *)
Definition times (a b : number) : number :=
  match a, b with
  | NaN, _ | _, NaN => NaN
  | Num x, Num y => Num (x * y)
  | Infinity s, Infinity s' => Infinity (xorb s s')
  | Infinity s, Num y | Num y, Infinity s =>
      if Js.Reqb y 0 then NaN else Infinity (xorb s (Js.Rltb y 0))
  end.

(** [a + n < total] for an array length [n] and a count [total]. *)
Definition plus_less (a : number) (n total : nat) : bool :=
  match a with
  | NaN => false
  | Infinity negative => negative
  | Num x => Js.Rltb (x + IZR (Z.of_nat n)) (IZR (Z.of_nat total))
  end.

(** [Math.ceil(total / limit)] as the JSON of the response has it: [null],
    here [None], when the quotient is [NaN] or an infinity, that is when
    [limit] is [NaN] or zero. *)
Definition ceil_of_ratio (total : nat) (limit : number) : option Z :=
  match limit with
  | NaN => None
  | Infinity _ => Some 0%Z
  | Num x =>
      if Js.Reqb x 0 then None else Some (Zceil (IZR (Z.of_nat total) / x))
  end.

(** *** [ToNumber] on a string

    White space (the ASCII white space here) is taken off both ends.  The
    empty string is 0.  Otherwise the whole string is a literal or the
    result is [NaN]: an integer in base 16, 8 or 2 after [0x], [0o] or
    [0b], or an optional sign before [Infinity] or before a decimal
    literal, whose exponent needs a digit. *)
Fixpoint all_white_space (s : string) : bool :=
  match s with
  | EmptyString => true
  | String c rest => (Js.is_white_space c && all_white_space rest)%bool
  end.

Fixpoint read_radix_digits (radix acc : Z) (count : nat) (s : string)
  : Z * nat * string :=
  match s with
  | String c rest =>
      match Js.hex_digit_of c with
      | Some d =>
          if (d <? radix)%Z
          then read_radix_digits radix (acc * radix + d)%Z (S count) rest
          else (acc, count, s)
      | None => (acc, count, s)
      end
  | EmptyString => (acc, count, s)
  end.

Definition radix_of (c : ascii) : option Z :=
  if (Ascii.eqb c "x" || Ascii.eqb c "X")%bool then Some 16%Z
  else if (Ascii.eqb c "o" || Ascii.eqb c "O")%bool then Some 8%Z
  else if (Ascii.eqb c "b" || Ascii.eqb c "B")%bool then Some 2%Z
  else None.

(** What follows [prefix] in [s], when [s] starts with it. *)
Fixpoint after_prefix (prefix s : string) : option string :=
  match prefix, s with
  | EmptyString, _ => Some s
  | String p prefix', String c rest =>
      if Ascii.eqb p c then after_prefix prefix' rest else None
  | String _ _, EmptyString => None
  end.

(** The exponent part and what follows it: 0 when there is no [e], [None]
    when no digit follows the [e]. *)
Definition read_exponent_part (s : string) : option (Z * string) :=
  match s with
  | String c rest =>
      if (Ascii.eqb c "e" || Ascii.eqb c "E")%bool then
        let '(negative, rest') := Js.read_sign rest in
        let '(e, count, tail) := Js.read_digits 0 0 rest' in
        match count with
        | O => None
        | S _ => Some (if negative then (- e)%Z else e, tail)
        end
      else Some (0%Z, s)
  | EmptyString => Some (0%Z, s)
  end.

Definition StrDecimalLiteral (s : string) : number :=
  let '(negative, s0) := Js.read_sign s in
  match after_prefix "Infinity" s0 with
  | Some tail => if all_white_space tail then Infinity negative else NaN
  | None =>
      let '(int_part, int_count, s1) := Js.read_digits 0 0 s0 in
      let '(mantissa, frac_count, s2) :=
        match s1 with
        | String "."%char rest => Js.read_digits int_part 0 rest
        | _ => (int_part, O, s1)
        end in
      match (int_count + frac_count)%nat with
      | O => NaN
      | S _ =>
          match read_exponent_part s2 with
          | Some (e, tail) =>
              if all_white_space tail then
                let magnitude :=
                  IZR mantissa * powerRZ 10 (e - Z.of_nat frac_count) in
                Num (if negative then - magnitude else magnitude)
              else NaN
          | None => NaN
          end
      end
  end.

Definition StringToNumber (input : string) : number :=
  match Js.skip_white_space input with
  | EmptyString => Num 0
  | String "0"%char (String c rest) as s =>
      match radix_of c with
      | Some radix =>
          let '(v, count, tail) := read_radix_digits radix 0 0 rest in
          match count with
          | O => NaN
          | S _ => if all_white_space tail then Num (IZR v) else NaN
          end
      | None => StrDecimalLiteral s
      end
  | s => StrDecimalLiteral s
  end.

(** A query parameter with a numeric default ([{ page = 1 } = req.query]):
    the default when the parameter is absent, the string otherwise.
    [to_number] is its [ToNumber], [to_int] its [parseInt]. *)
Definition to_number (default : Z) (p : option string) : number :=
  match p with
  | None => Num (IZR default)
  | Some s => StringToNumber s
  end.

Definition to_int (default : Z) (p : option string) : option Z :=
  match p with
  | None => Some default
  | Some s => Js.parseInt s
  end.

(** *** The collections

    A product with the time at which it was created, which the list of
    products is sorted by. *)
Record Listed : Type := {
  product : Product.t;
  product_createdAt : Z
}.

Inductive Call : Type :=
| Product_find_call (f : ProductFilter) (skip : number) (limit : option Z)
  (** [Product.find(f).select(...).sort({ createdAt: -1 }).skip(skip)
       .limit(limit).lean()] *)
| Product_countDocuments_call (f : ProductFilter)
| Order_find_call (f : OrderFilter) (skip : option number) (limit : option Z)
  (** [Order.find(f).select(...).sort({ createdAt: -1 })], then
      [.skip(skip)] when there is one, then [.limit(limit).lean()] *)
| Order_countDocuments_call (f : OrderFilter).

(** The store: [rejects] gives the calls that it fails, and [odd_window]
    what it does with a [skip] that is not a count or a [limit] that is
    not a positive integer: it fails, or it skips and limits in some
    way. *)
Record Env : Type := {
  rejects : Call -> option string;
  odd_window :
    option number -> option Z -> Async.outcome (nat * option nat)
}.

Record World : Type := {
  products : list Listed;
  orders : list Order.t;
  calls : list Call
}.

Definition issue (c : Call) (w : World) : World :=
  {| products := products w; orders := orders w; calls := calls w ++ [c] |}.

Definition read {A : Type} (env : Env) (c : Call)
    (answer : World -> Async.outcome A) : Async.t World A :=
  fun w =>
    let w' := issue c w in
    match rejects env c with
    | Some e => (Async.Rejected e, w')
    | None => (answer w, w')
    end.

(** The count that a real stands for, if it is a natural number. *)
Definition count_of (x : R) : option nat :=
  if (Js.Rleb 0 x && Js.Reqb x (IZR (Zfloor x)))%bool
  then Some (Z.to_nat (Zfloor x)) else None.

(** The window of a [find]: how many documents are skipped, and how many
    are returned at most. *)
Definition window (env : Env) (skip : option number) (limit : option Z)
  : Async.outcome (nat * option nat) :=
  let drop :=
    match skip with
    | None => Some O
    | Some (Num x) => count_of x
    | Some _ => None
    end in
  match drop, limit with
  | Some k, Some n =>
      if (0 <? n)%Z then Async.Resolved (k, Some (Z.to_nat n))
      else odd_window env skip limit
  | _, _ => odd_window env skip limit
  end.

Definition take_window {A : Type} (win : nat * option nat) (l : list A)
  : list A :=
  let rest := skipn (fst win) l in
  match snd win with
  | Some n => firstn n rest
  | None => rest
  end.

(** [sort({ createdAt: -1 })].  The store does not say in which order it
    returns documents created at the same time; here they keep the order
    of the collection. *)
Definition newest_first {A : Type} (createdAt : A -> Z) (l : list A)
  : list A :=
  sort_by (fun x y => Z.leb (createdAt y) (createdAt x)) l.

(** The documents that a [find] returns; [select] keeps the fields that
    the model has. *)
Definition found {A : Type} (env : Env) (skip : option number)
    (limit : option Z) (createdAt : A -> Z) (matched : list A)
  : Async.outcome (list A) :=
  match window env skip limit with
  | Async.Resolved win =>
      Async.Resolved (take_window win (newest_first createdAt matched))
  | Async.Rejected e => Async.Rejected e
  end.

Definition matches_listed (f : ProductFilter) (d : Listed) : bool :=
  matches_product f (product d).

Definition Product_find (env : Env) (f : ProductFilter) (skip : number)
    (limit : option Z) : Async.t World (list Listed) :=
  read env (Product_find_call f skip limit)
       (fun w => found env (Some skip) limit product_createdAt
                   (filter (matches_listed f) (products w))).

Definition Product_countDocuments (env : Env) (f : ProductFilter)
  : Async.t World nat :=
  read env (Product_countDocuments_call f)
       (fun w => Async.Resolved
                   (List.length (filter (matches_listed f) (products w)))).

Definition Order_find (env : Env) (f : OrderFilter) (skip : option number)
    (limit : option Z) : Async.t World (list Order.t) :=
  read env (Order_find_call f skip limit)
       (fun w => found env skip limit Order.createdAt
                   (filter (matches_order f) (orders w))).

Definition Order_countDocuments (env : Env) (f : OrderFilter)
  : Async.t World nat :=
  read env (Order_countDocuments_call f)
       (fun w => Async.Resolved
                   (List.length (filter (matches_order f) (orders w)))).

(** *** Responses *)

(** [pagination]; [None] is the [null] that JSON has for [NaN]. *)
Record Pagination : Type := {
  page : option Z;
  limit : option Z;
  total : nat;
  pages : option Z;
  hasMore : bool
}.

Inductive Response : Type :=
| failure (status : nat) (message : string) (error : option string)
  (** [{ success: false, message, error }] *)
| products_page (data : list Listed) (pagination : Pagination)
| orders_page (data : list Order.t) (pagination : Pagination)
  (** 200, [{ success: true, responseTime, data, pagination }] *)
| recent_activity (data : list Order.t)
  (** 200, [{ success: true, responseTime, data }] *).

Definition pagination_of (page limit : option string) (skip : number)
    (returned total : nat) : Pagination :=
  {| page := to_int 1 page;
     limit := to_int 10 limit;
     total := total;
     pages := ceil_of_ratio total (to_number 10 limit);
     hasMore := plus_less skip returned total |}.

(** *** The handlers *)

(** [router.get('/products/:shopId', ...)] *)
Definition get_products (env : Env) (shopId : string)
    (page limit isAvailable : option string) : World -> Response * World :=
  Async.try_catch
    (let query :=
       {| product_shopId := shopId;
          product_isAvailable :=
            match isAvailable with
            | Some s => Some (String.eqb s "true")
            | None => None
            end |} in
     let skip := times (minus_one (to_number 1 page)) (to_number 10 limit) in
     results <-
       Async.both (Product_find env query skip (to_int 10 limit))
                  (Product_countDocuments env query) ;;
     let '(products, total) := results in
     Async.ret
       (products_page products
          (pagination_of page limit skip (List.length products) total)))
    (fun e => failure 500 "Failed to load products" (Some e)).

(** [router.get('/orders/:shopId', ...)] *)
Definition get_orders (env : Env) (shopId : string)
    (page limit status : option string) : World -> Response * World :=
  Async.try_catch
    (let query :=
       {| order_shopId := shopId;
          order_status := if Js.truthy_string status then status else None;
          order_createdAt_gte := None |} in
     let skip := times (minus_one (to_number 1 page)) (to_number 10 limit) in
     results <-
       Async.both (Order_find env query (Some skip) (to_int 10 limit))
                  (Order_countDocuments env query) ;;
     let '(orders, total) := results in
     Async.ret
       (orders_page orders
          (pagination_of page limit skip (List.length orders) total)))
    (fun e => failure 500 "Failed to load orders" (Some e)).

(** [router.get('/recent-activity/:shopId', ...)] *)
Definition get_recent_activity (env : Env) (shopId : string)
    (limit : option string) : World -> Response * World :=
  Async.try_catch
    (recentOrders <-
       Order_find env
         {| order_shopId := shopId; order_status := None;
            order_createdAt_gte := None |}
         None (to_int 5 limit) ;;
     Async.ret (recent_activity recentOrders))
    (fun e => failure 500 "Failed to load recent activity" (Some e)).

(** *** What a page is *)

(** A parameter that reads as the integer [n], as a number and through
    [parseInt]. *)
Definition reads_as (default n : Z) (p : option string) : Prop :=
  to_number default p = Num (IZR n) /\ to_int default p = Some n.

(** The page [p] of pages of [n] documents. *)
Definition page_of {A : Type} (p n : Z) (l : list A) : list A :=
  firstn (Z.to_nat n) (skipn (Z.to_nat ((p - 1) * n)) l).

(** A string of decimal digits. *)
Fixpoint all_digits (s : string) : bool :=
  match s with
  | EmptyString => true
  | String c rest =>
      match Js.digit_of c with
      | Some _ => all_digits rest
      | None => false
      end
  end.

(** [(page - 1) * limit] *)
Definition skip_of (page limit : option string) : number :=
  times (minus_one (to_number 1 page)) (to_number 10 limit).

(** The query objects of the two lists. *)
Definition orders_query (shopId : string) (status : option string)
  : OrderFilter :=
  {| order_shopId := shopId;
     order_status := if Js.truthy_string status then status else None;
     order_createdAt_gte := None |}.

Definition products_query (shopId : string) (isAvailable : option string)
  : ProductFilter :=
  {| product_shopId := shopId;
     product_isAvailable :=
       match isAvailable with
       | Some s => Some (String.eqb s "true")
       | None => None
       end |}.

End DashboardLists.

(** ** The strings that [parseFloat] reads as an infinity

    After white space and an optional sign, [parseFloat] of JavaScript
    reads the literal [Infinity] as an infinity, which is truthy in
    [parseFloat(radius) || 5]; [Js.parseFloat] has no infinity and gives
    [NaN] there.  What is proved of [/shops/radius] for a radius given as
    a string leaves these strings out. *)

Module ParseFloatRange.



End ParseFloatRange.

(** The orders and the products of a shop for the lists; the store fails
    no call and refuses a window that is not one. *)

Module ListScenario.

Import Dashboard DashboardLists.

Definition env : Env :=
  {| rejects := fun _ => None;
     odd_window := fun _ _ => Async.Rejected "Cast to Number failed" |}.

(** The store fails every [find]. *)
Definition env_down : Env :=
  {| rejects := fun c =>
       match c with
       | Product_find_call _ _ _ | Order_find_call _ _ _ =>
           Some "connection timed out"%string
       | _ => None
       end;
     odd_window := fun _ _ => Async.Rejected "Cast to Number failed" |}.

Definition listed (category : string) (isAvailable : bool) (at_ : Z)
  : Listed :=
  {| product := {| Product.shopId := "shop1"; Product.category := category;
                   Product.isAvailable := isAvailable |};
     product_createdAt := at_ |}.

Definition world : World :=
  {| products := [ listed "fruit" true 10; listed "dairy" false 30;
                   listed "fruit" false 20 ];
     orders := [ DashboardScenario.order "Completed" 120 50;
                 DashboardScenario.order "Pending" 80 90;
                 DashboardScenario.order "Completed" 40 70;
                 DashboardScenario.order "Accepted" 25 10;
                 DashboardScenario.order "Completed" 60 30 ];
     calls := [] |}.

End ListScenario.

(** ** The doubles of [calculateDistance]

    [GeoMath.calculateDistance] is the formula of the source in exact
    arithmetic.  This module has its arithmetic in doubles: a finite
    double is the real number it stands for, and every operation gives
    the double nearest its exact result, the one with the even
    significand on a tie.  [Math.sin], [Math.cos] and [Math.atan2] are
    left to the implementation by the language, so they are a parameter
    here; [Math.sqrt] is taken to round correctly, and to be [NaN] below
    zero as the language has it.

    There is no infinity: where an operation overflows the result is
    [NaN].  In [calculateDistance] that is the same in the end: of the
    operations on the coordinates only the two differences can overflow,
    their infinity goes through [toRad] and the halving into [Math.sin],
    which is [NaN] on it, and a [NaN] in the term [a] makes the result
    [NaN]; an infinite [a] itself gives a [NaN] under one of the two
    square roots or in their difference. *)

Module Binary64.

Import Js.

(** The exponent of the unit in the last place of the doubles around
    [x]: 52 below the exponent of [x], and at least that of the
    subnormal doubles. *)
Definition ulp_exponent (x : R) : Z :=
  Z.max (Zfloor (ln (Rabs x) / ln 2) - 52) (-1074).

(** The double nearest [x], before overflow. *)
Definition round (x : R) : R :=
  if Req_dec_T x 0 then 0
  else
    let e := ulp_exponent x in
    IZR (Location.round_half_even (x * powerRZ 2 (- e))) * powerRZ 2 e.

(** A rounded result beyond the largest double is an infinity, for which
    [NaN] stands. *)
Definition finite (x : R) : number :=
  if Rlt_dec (Rabs x) (powerRZ 2 1024) then Num x else NaN.

(** [a + b], [a - b], [a * b] and [a / b] on doubles.  A division by
    zero, an infinity or [NaN] in the language, is [NaN];
    [calculateDistance] divides by 180 and by 2 only. *)
Definition rounded (op : R -> R -> R) (a b : number) : number :=
  match a, b with
  | Num x, Num y => finite (round (op x y))
  | _, _ => NaN
  end.

Definition add : number -> number -> number := rounded Rplus.
Definition sub : number -> number -> number := rounded Rminus.
Definition mul : number -> number -> number := rounded Rmult.

Definition div (a b : number) : number :=
  match a, b with
  | Num x, Num y => if Req_dec_T y 0 then NaN else finite (round (x / y))
  | _, _ => NaN
  end.

(** [- a] on doubles. *)
Definition neg (a : number) : number :=
  match a with
  | Num x => Num (- x)
  | NaN => NaN
  end.

(** [Math.sqrt] *)
Definition Math_sqrt (a : number) : number :=
  match a with
  | Num x => if Rlt_dec x 0 then NaN else Num (round (sqrt x))
  | NaN => NaN
  end.

(** An implementation of [Math.sin], [Math.cos] and [Math.atan2] on
    finite doubles; on [NaN] and on an infinity they give [NaN]. *)
Record Math : Type := {
  Math_sin : R -> R;
  Math_cos : R -> R;
  Math_atan2 : R -> R -> R
}.

Definition sin_ (M : Math) (a : number) : number :=
  match a with Num x => Num (Math_sin M x) | NaN => NaN end.
Definition cos_ (M : Math) (a : number) : number :=
  match a with Num x => Num (Math_cos M x) | NaN => NaN end.
Definition atan2_ (M : Math) (y x : number) : number :=
  match y, x with
  | Num y, Num x => Num (Math_atan2 M y x)
  | _, _ => NaN
  end.

(** [Math.PI], the double nearest to pi. *)
Definition Math_PI : R := 884279719003555 / 281474976710656.

(** [toRad] and [calculateDistance] of the source; the arguments are
    doubles. *)
Definition toRad (degrees : number) : number :=
  mul degrees (div (Num Math_PI) (Num 180)).

Definition calculateDistance (M : Math) (lat1 lon1 lat2 lon2 : R) : number :=
  let R := Num 6371 in
  let dLat := toRad (sub (Num lat2) (Num lat1)) in
  let dLon := toRad (sub (Num lon2) (Num lon1)) in
  let a :=
    add (mul (sin_ M (div dLat (Num 2))) (sin_ M (div dLat (Num 2))))
        (mul (mul (mul (cos_ M (toRad (Num lat1)))
                       (cos_ M (toRad (Num lat2))))
                  (sin_ M (div dLon (Num 2))))
             (sin_ M (div dLon (Num 2)))) in
  let c := mul (Num 2) (atan2_ M (Math_sqrt a) (Math_sqrt (sub (Num 1) a))) in
  mul R c.

(** Doubles that [calculateDistance] meets between the points
    (-8, -170) and (8, 10): [toRad(8)], the doubles nearest to its sine
    and to its cosine, and half of [Math.PI]. *)
Definition toRad_8 : R := 5030569068109113 / 36028797018963968.
Definition sin_toRad_8 : R := 5014239404989977 / 36028797018963968.
Definition cos_toRad_8 : R := 4459770905381437 / 4503599627370496.
Definition half_PI : R := 884279719003555 / 562949953421312.

(** The implementation that rounds the sine, the cosine and the arc
    tangent correctly. *)
Definition correctly_rounded : Math :=
  {| Math_sin := fun x => round (sin x);
     Math_cos := fun x => round (cos x);
     Math_atan2 := fun y x => round (Js.Math_atan2 y x) |}.

(** [n!] as an integer. *)
Fixpoint Zfact (n : nat) : Z :=
  match n with
  | O => 1%Z
  | S k => (Z.of_nat (S k) * Zfact k)%Z
  end.

End Binary64.

(** * Properties *)

(** ** Comparisons and the sort *)

Lemma Rleb_true (x y : R) : Js.Rleb x y = true <-> x <= y.
Proof. unfold Js.Rleb. destruct (Rle_dec x y); split; intros; try easy. Qed.

Lemma Rleb_false (x y : R) : Js.Rleb x y = false <-> y < x.
Proof.
  unfold Js.Rleb. destruct (Rle_dec x y); split; intros; try easy; lra.
Qed.

Lemma Rltb_true (x y : R) : Js.Rltb x y = true <-> x < y.
Proof. unfold Js.Rltb. destruct (Rlt_dec x y); split; intros; try easy. Qed.

Lemma Rltb_false (x y : R) : Js.Rltb x y = false <-> y <= x.
Proof.
  unfold Js.Rltb. destruct (Rlt_dec x y); split; intros; try easy; lra.
Qed.

Lemma Reqb_true (x y : R) : Js.Reqb x y = true <-> x = y.
Proof. unfold Js.Reqb. destruct (Req_dec_T x y); split; intros; try easy. Qed.

Lemma Reqb_false (x y : R) : Js.Reqb x y = false <-> x <> y.
Proof. unfold Js.Reqb. destruct (Req_dec_T x y); split; intros; try easy. Qed.

Section Sorting.

Context {A : Type} (leb : A -> A -> bool).

Lemma insert_by_perm (x : A) (l : list A) :
  Permutation (x :: l) (insert_by leb x l).
Proof.
  induction l as [| y l IH]; simpl.
  - apply Permutation_refl.
  - destruct (leb x y).
    + apply Permutation_refl.
    + apply perm_trans with (y :: x :: l).
      * apply perm_swap.
      * now apply perm_skip.
Qed.

Lemma sort_by_perm (l : list A) : Permutation l (sort_by leb l).
Proof.
  induction l as [| x l IH]; simpl.
  - apply perm_nil.
  - apply perm_trans with (x :: sort_by leb l).
    + now apply perm_skip.
    + apply insert_by_perm.
Qed.

Lemma sort_by_In (x : A) (l : list A) : In x (sort_by leb l) <-> In x l.
Proof.
  split; intro H.
  - apply Permutation_in with (sort_by leb l); [| exact H].
    apply Permutation_sym, sort_by_perm.
  - apply Permutation_in with l; [apply sort_by_perm | exact H].
Qed.

Hypothesis leb_total : forall x y, leb x y = true \/ leb y x = true.
Hypothesis leb_trans :
  forall x y z, leb x y = true -> leb y z = true -> leb x z = true.

Lemma insert_by_sorted (x : A) (l : list A) :
  StronglySorted (fun a b => leb a b = true) l ->
  StronglySorted (fun a b => leb a b = true) (insert_by leb x l).
Proof.
  induction 1 as [| y l Hs IH Hall]; simpl.
  - constructor; constructor.
  - destruct (leb x y) eqn:Hxy.
    + constructor.
      * now constructor.
      * constructor; [exact Hxy |].
        eapply Forall_impl; [| exact Hall].
        intros z Hz. now apply leb_trans with y.
    + constructor; [exact IH |].
      assert (Hyx : leb y x = true).
      { destruct (leb_total x y) as [H | H]; [congruence | exact H]. }
      apply Forall_forall. intros z Hz.
      apply (Permutation_in _ (Permutation_sym (insert_by_perm x l))) in Hz.
      destruct Hz as [<- | Hz]; [exact Hyx |].
      rewrite Forall_forall in Hall. now apply Hall.
Qed.

Lemma sort_by_sorted (l : list A) :
  StronglySorted (fun a b => leb a b = true) (sort_by leb l).
Proof.
  induction l as [| x l IH]; simpl.
  - constructor.
  - now apply insert_by_sorted.
Qed.

End Sorting.

Lemma sort_by_key_sorted {A : Type} (key : A -> R) (l : list A) :
  StronglySorted (fun a b => key a <= key b) (sort_by (by_key key) l).
Proof.
  assert (H : StronglySorted (fun a b => by_key key a b = true)
                             (sort_by (by_key key) l)).
  { apply sort_by_sorted; unfold by_key.
    - intros x y. rewrite !Rleb_true. lra.
    - intros x y z. rewrite !Rleb_true. lra. }
  induction H as [| a l' Hs IH Hall]; constructor; [exact IH |].
  eapply Forall_impl; [| exact Hall].
  intros b Hb. unfold by_key in Hb. now apply Rleb_true.
Qed.

(** A sorted list stays sorted under a map that respects the order. *)
Lemma StronglySorted_map {A B : Type} (P : A -> A -> Prop)
    (Q : B -> B -> Prop) (f : A -> B) (l : list A) :
  (forall a b, P a b -> Q (f a) (f b)) ->
  StronglySorted P l -> StronglySorted Q (map f l).
Proof.
  intros Hf. induction 1 as [| a l Hs IH Hall]; simpl; constructor.
  - exact IH.
  - apply Forall_forall. intros b Hb. apply in_map_iff in Hb.
    destruct Hb as [a' [<- Ha']]. rewrite Forall_forall in Hall.
    apply Hf. now apply Hall.
Qed.

(** ** GeoMath *)

Section GeoMathFacts.

Import GeoMath.

Lemma atan_nonneg (x : R) : 0 <= x -> 0 <= atan x.
Proof.
  intros [Hx | <-].
  - left. rewrite <- atan_0. now apply atan_increasing.
  - rewrite atan_0. lra.
Qed.

Lemma Math_atan2_nonneg (y x : R) : 0 <= y -> 0 <= x -> 0 <= Js.Math_atan2 y x.
Proof.
  intros Hy Hx. unfold Js.Math_atan2.
  destruct (Rlt_dec 0 x) as [Hpos | Hnpos].
  - apply atan_nonneg. unfold Rdiv. apply Rmult_le_pos; [assumption |].
    left. now apply Rinv_0_lt_compat.
  - destruct (Rlt_dec x 0); [lra |].
    destruct (Rlt_dec 0 y).
    + pose proof PI_RGT_0. lra.
    + destruct (Rlt_dec y 0); lra.
Qed.

Lemma haversine_a_sym lat1 lon1 lat2 lon2 :
  haversine_a lat1 lon1 lat2 lon2 = haversine_a lat2 lon2 lat1 lon1.
Proof.
  unfold haversine_a, toRad.
  replace ((lat1 - lat2) * (PI / 180) / 2)
    with (- ((lat2 - lat1) * (PI / 180) / 2)) by lra.
  replace ((lon1 - lon2) * (PI / 180) / 2)
    with (- ((lon2 - lon1) * (PI / 180) / 2)) by lra.
  rewrite !sin_neg. ring.
Qed.

Lemma haversine_a_same lat lon : haversine_a lat lon lat lon = 0.
Proof.
  unfold haversine_a, toRad.
  replace ((lat - lat) * (PI / 180) / 2) with 0 by lra.
  replace ((lon - lon) * (PI / 180) / 2) with 0 by lra.
  rewrite sin_0. ring.
Qed.

(** The term [a] is the haversine of the central angle between the two
    points. *)
Lemma haversine_a_central lat1 lon1 lat2 lon2 :
  haversine_a lat1 lon1 lat2 lon2 =
  (1 - (sin (toRad lat1) * sin (toRad lat2) +
        cos (toRad lat1) * cos (toRad lat2) * cos (toRad (lon2 - lon1)))) / 2.
Proof.
  unfold haversine_a.
  assert (Hhalf : forall x, sin (x / 2) * sin (x / 2) = (1 - cos x) / 2).
  { intro x. pose proof (cos_2a_sin (x / 2)) as H.
    replace (2 * (x / 2)) with x in H by lra. lra. }
  rewrite (Rmult_assoc _ (sin (toRad (lon2 - lon1) / 2))).
  rewrite !Hhalf.
  replace (toRad (lat2 - lat1)) with (toRad lat2 - toRad lat1)
    by (unfold toRad; lra).
  rewrite cos_minus. lra.
Qed.

(** In exact arithmetic the term [a] of [calculateDistance] lies between
    0 and 1 for all arguments. *)
Lemma haversine_a_bounds lat1 lon1 lat2 lon2 :
  0 <= haversine_a lat1 lon1 lat2 lon2 <= 1.
Proof.
  rewrite haversine_a_central.
  pose proof (sin2_cos2 (toRad lat1)) as H1.
  pose proof (sin2_cos2 (toRad lat2)) as H2.
  pose proof (COS_bound (toRad (lon2 - lon1))) as [Hk1 Hk2].
  unfold Rsqr in *.
  set (s1 := sin (toRad lat1)) in *. set (c1 := cos (toRad lat1)) in *.
  set (s2 := sin (toRad lat2)) in *. set (c2 := cos (toRad lat2)) in *.
  set (k := cos (toRad (lon2 - lon1))) in *.
  assert (Hk : k * k <= 1) by nra.
  assert (Hcs : (s1 * s2 + c1 * c2 * k) * (s1 * s2 + c1 * c2 * k) <= 1).
  { assert ((s1 * s2 + c1 * c2 * k) * (s1 * s2 + c1 * c2 * k)
            <= (s1 * s1 + c1 * c1) * (s2 * s2 + c2 * c2 * (k * k))).
    { pose proof (Rle_0_sqr (s1 * c2 * k - c1 * s2)) as Hsq. unfold Rsqr in Hsq.
      replace ((s1 * s1 + c1 * c1) * (s2 * s2 + c2 * c2 * (k * k)))
        with ((s1 * s2 + c1 * c2 * k) * (s1 * s2 + c1 * c2 * k) +
              (s1 * c2 * k - c1 * s2) * (s1 * c2 * k - c1 * s2)) by ring.
      lra. }
    assert (s2 * s2 + c2 * c2 * (k * k) <= 1).
    { pose proof (Rle_0_sqr c2) as Hc2. unfold Rsqr in Hc2.
      assert (c2 * c2 * (k * k) <= c2 * c2 * 1)
        by (apply Rmult_le_compat_l; lra).
      lra. }
    rewrite H1, Rmult_1_l in H. lra. }
  pose proof (Rle_0_sqr (s1 * s2 + c1 * c2 * k)) as Hp. unfold Rsqr in Hp.
  split; nra.
Qed.

Lemma calculateDistance_meridian lat lon d :
  0 <= d -> d < 6371 * PI ->
  calculateDistance lat lon (lat + d * 180 / (6371 * PI)) lon = d.
Proof.
  intros Hd0 Hd1. pose proof PI_RGT_0 as Hpi.
  unfold calculateDistance, haversine_a.
  replace (toRad (lat + d * 180 / (6371 * PI) - lat) / 2) with (d / 12742)
    by (unfold toRad; field; lra).
  replace (toRad (lon - lon) / 2) with 0 by (unfold toRad; lra).
  rewrite sin_0.
  set (x := d / 12742).
  assert (Hx : 0 <= x < PI / 2) by (unfold x; lra).
  replace (sin x * sin x +
           cos (toRad lat) * cos (toRad (lat + d * 180 / (6371 * PI))) * 0 * 0)
    with (sin x * sin x) by ring.
  assert (Hs : 0 <= sin x) by (apply sin_ge_0; lra).
  assert (Hc : 0 < cos x) by (apply cos_gt_0; lra).
  rewrite (sqrt_square _ Hs).
  replace (1 - sin x * sin x) with (cos x * cos x)
    by (pose proof (sin2_cos2 x) as H; unfold Rsqr in H; lra).
  rewrite sqrt_square by lra.
  unfold Js.Math_atan2. destruct (Rlt_dec 0 (cos x)); [| lra].
  change (sin x / cos x) with (tan x).
  rewrite atan_tan by lra. unfold x. lra.
Qed.

(** In exact arithmetic the distance is symmetric in its two points, it
    is 0 from a point to itself, and it is never negative (haversine
    formula with the radius 6371). *)
Theorem calculateDistance_symmetric_zero_nonnegative lat1 lon1 lat2 lon2 :
    calculateDistance lat1 lon1 lat2 lon2 = calculateDistance lat2 lon2 lat1 lon1 /\
    calculateDistance lat1 lon1 lat1 lon1 = 0 /\
    0 <= calculateDistance lat1 lon1 lat2 lon2.
Proof.
  unfold calculateDistance. repeat split.
  - now rewrite haversine_a_sym.
  - rewrite haversine_a_same, sqrt_0, Rminus_0_r, sqrt_1.
    unfold Js.Math_atan2. destruct (Rlt_dec 0 1); [| lra].
    replace (0 / 1) with 0 by lra. rewrite atan_0. lra.
  - pose proof (Math_atan2_nonneg _ _ (sqrt_pos (haversine_a lat1 lon1 lat2 lon2))
                 (sqrt_pos (1 - haversine_a lat1 lon1 lat2 lon2))). lra.
Qed.

End GeoMathFacts.

(** ** Rounding *)

Lemma toFixed2_mono (x y : R) : x <= y -> Js.toFixed2 x <= Js.toFixed2 y.
Proof.
  intro Hxy. unfold Js.toFixed2.
  assert (Hfloor : forall a b,
             a <= b -> IZR (Zfloor a) / 100 <= IZR (Zfloor b) / 100).
  { intros a b Hab. apply Zfloor_le, IZR_le in Hab. lra. }
  assert (Hpos : forall a, 0 <= a -> 0 <= IZR (Zfloor (a * 100 + / 2)) / 100).
  { intros a Ha. assert (H : (0 <= Zfloor (a * 100 + / 2))%Z)
      by (apply Zfloor_lub; simpl; lra).
    apply IZR_le in H. lra. }
  destruct (Rlt_dec x 0) as [Hx | Hx], (Rlt_dec y 0) as [Hy | Hy].
  - specialize (Hfloor (- y * 100 + / 2) (- x * 100 + / 2)). lra.
  - pose proof (Hpos y ltac:(lra)) as Hy'.
    assert (H : (0 <= Zfloor (- x * 100 + / 2))%Z)
      by (apply Zfloor_lub; simpl; lra).
    apply IZR_le in H. lra.
  - lra.
  - apply Hfloor. lra.
Qed.

(** [toFixed(2)] of a non-negative number within half a hundredth of
    [n / 100]. *)
Lemma toFixed2_near (n : Z) (x : R) :
  0 <= x -> IZR n / 100 - / 200 <= x < IZR n / 100 + / 200 ->
  Js.toFixed2 x = IZR n / 100.
Proof.
  intros Hx Hn. unfold Js.toFixed2.
  destruct (Rlt_dec x 0); [lra |].
  rewrite (Zfloor_eq n); [reflexivity | lra].
Qed.

Lemma toFixed2_close (x : R) : Rabs (Js.toFixed2 x - x) <= / 200.
Proof.
  unfold Js.toFixed2. apply Rabs_le.
  destruct (Rlt_dec x 0).
  - pose proof (Zfloor_bound (- x * 100 + / 2)). lra.
  - pose proof (Zfloor_bound (x * 100 + / 2)). lra.
Qed.

Lemma round2_close (x : R) : Rabs (Location.round2 x - x) <= / 200.
Proof.
  unfold Location.round2, Location.round_half_even. apply Rabs_le.
  pose proof (Zfloor_bound (x * 100)) as Hf.
  destruct (Rlt_dec _ _); [lra |].
  destruct (Rlt_dec _ _); [rewrite plus_IZR; lra |].
  destruct (Z.even _); [| rewrite plus_IZR]; lra.
Qed.

(** Both roundings give a number of hundredths. *)
Lemma toFixed2_hundredth (x : R) : exists n : Z, Js.toFixed2 x = IZR n / 100.
Proof.
  unfold Js.toFixed2. destruct (Rlt_dec x 0).
  - exists (- Zfloor (- x * 100 + / 2))%Z. rewrite opp_IZR. lra.
  - eexists. reflexivity.
Qed.

Lemma round2_hundredth (x : R) : exists n : Z, Location.round2 x = IZR n / 100.
Proof. eexists. reflexivity. Qed.

Section LocationFacts.

Import Js GeoMath Location.

Lemma truthy_JNumber (v : value) :
  truthy v = true -> exists x, v = JNumber x /\ x <> 0.
Proof.
  destruct v as [| | x]; simpl; try discriminate.
  intro H. exists x. split; [reflexivity |].
  apply negb_true_iff in H. now apply Reqb_false.
Qed.

(** *** [near_query] *)

Lemma near_query_In env near maxDistance collection s :
  In s (near_query env near maxDistance collection) <->
  In s collection /\ visible s = true /\
  match maxDistance with
  | Some m => geoDistance env near (coordinates s) <= m
  | None => True
  end.
Proof.
  unfold near_query. rewrite sort_by_In, filter_In, andb_true_iff.
  destruct maxDistance as [m |]; [rewrite Rleb_true |]; intuition.
Qed.

Lemma near_query_sorted env near maxDistance collection :
  StronglySorted
    (fun s t => geoDistance env near (coordinates s)
                <= geoDistance env near (coordinates t))
    (near_query env near maxDistance collection).
Proof. apply sort_by_key_sorted. Qed.

(** *** [/shops/deliverable] *)

Lemma post_shops_deliverable_success env body w count searchRadius data w' :
  post_shops_deliverable env body w
  = (aggregated_shops count searchRadius data, w') ->
  exists lat lon,
    Body.latitude body = JNumber lat /\ Body.longitude body = JNumber lon /\
    run_pipeline env (deliverable_pipeline (Num lon) (Num lat)) (shops w)
    = Async.Resolved data /\
    count = List.length data /\ searchRadius = None /\
    w' = issue (aggregate (deliverable_pipeline (Num lon) (Num lat))) w.
Proof.
  unfold post_shops_deliverable, Async.try_catch, Async.bind, Async.ret.
  destruct (truthy (Body.latitude body)) eqn:Hlat; simpl; [| discriminate].
  destruct (truthy (Body.longitude body)) eqn:Hlon; simpl; [| discriminate].
  apply truthy_JNumber in Hlat as [lat [Hlat _]].
  apply truthy_JNumber in Hlon as [lon [Hlon _]].
  rewrite Hlat, Hlon. simpl. unfold Shop_aggregate.
  fold (deliverable_pipeline (Num lon) (Num lat)).
  destruct (rejects env _); [discriminate |].
  destruct (run_pipeline env _ (shops w)) as [docs | e] eqn:Hrun;
    [| discriminate].
  intros [= <- <- <- <-]. exists lat, lon. repeat split. exact Hrun.
Qed.

Lemma deliverable_pipeline_In env lon lat collection data :
  run_pipeline env (deliverable_pipeline (Num lon) (Num lat)) collection
  = Async.Resolved data ->
  forall d, In d data <->
    exists s, In s collection /\ visible s = true /\
              distanceKm env (lon, lat) s <= deliveryRadius s /\
              d = {| doc_shop := s;
                     doc_distance := round2 (distanceKm env (lon, lat) s);
                     doc_withinDeliveryRadius := None |}.
Proof.
  simpl. intros [= <-] d.
  rewrite sort_by_In, in_map_iff. unfold geoNear_stage, distanceKm.
  split.
  - intros [d1 [<- Hd1]]. apply filter_In in Hd1 as [Hd1 Hwithin].
    apply in_map_iff in Hd1 as [d0 [<- Hd0]].
    apply in_map_iff in Hd0 as [s [<- Hs]]. simpl in *.
    apply near_query_In in Hs as (Hin & Hvis & _).
    exists s. repeat split; try assumption.
    destruct (Rleb _ _) eqn:Hle in Hwithin; [| discriminate].
    now apply Rleb_true.
  - intros (s & Hin & Hvis & Hle & ->).
    eexists. split; [| apply filter_In; split; [apply in_map, in_map |]].
    + reflexivity.
    + apply near_query_In. repeat split; eassumption.
    + simpl. apply Rleb_true in Hle. now rewrite Hle.
Qed.

Lemma deliverable_pipeline_sorted env lon lat collection data :
  run_pipeline env (deliverable_pipeline (Num lon) (Num lat)) collection
  = Async.Resolved data ->
  StronglySorted (fun a b => doc_distance a <= doc_distance b) data.
Proof. simpl. intros [= <-]. apply sort_by_key_sorted. Qed.

(** C1: when [/shops/deliverable] answers for the origin [(lat, lon)],
    every shop of the answer is an active and approved shop of the store
    whose distance from the origin, as the store's [$geoNear] measures it
    in kilometres, is at most its own [deliveryRadius]; every such shop is
    in the answer.  The [distance] of a result is that distance rounded to
    two decimals: a number of hundredths within 0.005 of it; the results
    are in ascending order of it, and [count] is their number.  For a
    store that measures the haversine distance of [calculateDistance], the
    bound and the completeness hold for that distance. *)
Theorem deliverable_shops_exactly_within_own_radius
    env lat lon body w count searchRadius data w' :
  Body.latitude body = JNumber lat ->
  Body.longitude body = JNumber lon ->
  post_shops_deliverable env body w
  = (aggregated_shops count searchRadius data, w') ->
  (forall d, In d data ->
     In (doc_shop d) (shops w) /\ visible (doc_shop d) = true /\
     distanceKm env (lon, lat) (doc_shop d) <= deliveryRadius (doc_shop d) /\
     doc_distance d = round2 (distanceKm env (lon, lat) (doc_shop d)) /\
     (exists n : Z, doc_distance d = IZR n / 100) /\
     Rabs (doc_distance d - distanceKm env (lon, lat) (doc_shop d))
     <= / 200) /\
  (forall s, In s (shops w) -> visible s = true ->
     distanceKm env (lon, lat) s <= deliveryRadius s ->
     exists d, In d data /\ doc_shop d = s) /\
  StronglySorted (fun a b => doc_distance a <= doc_distance b) data /\
  count = List.length data /\
  ((forall s, geoDistance env (lon, lat) (coordinates s)
              = haversineKm lat lon s * 1000) ->
   (forall d, In d data ->
      haversineKm lat lon (doc_shop d) <= deliveryRadius (doc_shop d)) /\
   (forall s, In s (shops w) -> visible s = true ->
      haversineKm lat lon s <= deliveryRadius s ->
      exists d, In d data /\ doc_shop d = s)).
Proof.
  intros Hlat Hlon Hrun.
  apply post_shops_deliverable_success in Hrun
    as (lat' & lon' & Hlat' & Hlon' & Hpipe & Hcount & _ & _).
  rewrite Hlat in Hlat'. rewrite Hlon in Hlon'.
  injection Hlat' as <-. injection Hlon' as <-.
  pose proof (deliverable_pipeline_In _ _ _ _ _ Hpipe) as Hin.
  assert (Hcomplete : forall s, In s (shops w) -> visible s = true ->
            distanceKm env (lon, lat) s <= deliveryRadius s ->
            exists d, In d data /\ doc_shop d = s).
  { intros s Hs Hvis Hle. eexists. split; [apply Hin; exists s |]; eauto. }
  split; [| split; [| split; [| split]]].
  - intros d Hd. apply Hin in Hd as (s & Hs & Hvis & Hle & ->).
    simpl. repeat split; try assumption.
    + apply round2_hundredth.
    + apply round2_close.
  - exact Hcomplete.
  - eapply deliverable_pipeline_sorted, Hpipe.
  - exact Hcount.
  - intro Hmetric.
    assert (Hkm : forall s, distanceKm env (lon, lat) s = haversineKm lat lon s).
    { intro s. unfold distanceKm. rewrite Hmetric. lra. }
    split.
    + intros d Hd. apply Hin in Hd as (s & _ & _ & Hle & ->).
      simpl. now rewrite <- Hkm.
    + intros s Hs Hvis Hle. apply Hcomplete; try assumption.
      now rewrite Hkm.
Qed.

(** *** [/shops/nearby] *)

Lemma withDistance_number lat lon s :
  withDistance (JNumber lat) (JNumber lon) s
  = {| shop := s;
       distance := Num (toFixed2 (haversineKm lat lon s));
       withinDeliveryRadius :=
         Rleb (haversineKm lat lon s) (deliveryRadius s) |}.
Proof. reflexivity. Qed.

Lemma post_shops_nearby_success env body w count data w' :
  post_shops_nearby env body w = (nearby_shops count data, w') ->
  exists lat lon,
    Body.latitude body = JNumber lat /\ Body.longitude body = JNumber lon /\
    data = map (withDistance (JNumber lat) (JNumber lon))
               (near_query env (lon, lat)
                  (Some (value_or (Body.maxDistance body) 10 * 1000))
                  (shops w)) /\
    count = List.length data /\
    w' = issue (find_near (JNumber lon, JNumber lat)
                          (value_or (Body.maxDistance body) 10 * 1000)) w.
Proof.
  unfold post_shops_nearby, Async.try_catch, Async.bind, Async.ret.
  destruct (truthy (Body.latitude body)) eqn:Hlat; simpl; [| discriminate].
  destruct (truthy (Body.longitude body)) eqn:Hlon; simpl; [| discriminate].
  apply truthy_JNumber in Hlat as [lat [Hlat _]].
  apply truthy_JNumber in Hlon as [lon [Hlon _]].
  rewrite Hlat, Hlon. unfold Shop_find.
  destruct (rejects env _); [discriminate |].
  intros [= <- <- <-]. exists lat, lon. repeat split.
Qed.

Lemma post_shops_nearby_answers env body w lat lon :
  Body.latitude body = JNumber lat -> Body.longitude body = JNumber lon ->
  lat <> 0 -> lon <> 0 ->
  rejects env (find_near (JNumber lon, JNumber lat)
                         (value_or (Body.maxDistance body) 10 * 1000)) = None ->
  exists data,
    post_shops_nearby env body w
    = (nearby_shops (List.length data) data,
       issue (find_near (JNumber lon, JNumber lat)
                        (value_or (Body.maxDistance body) 10 * 1000)) w).
Proof.
  intros Hlat Hlon Hlat0 Hlon0 Hok.
  unfold post_shops_nearby, Async.try_catch, Async.bind, Async.ret.
  rewrite Hlat, Hlon. simpl.
  apply Reqb_false in Hlat0, Hlon0. rewrite Hlat0, Hlon0. simpl.
  unfold Shop_find. rewrite Hok. eexists. reflexivity.
Qed.

Lemma post_shops_deliverable_answers env body w lat lon :
  Body.latitude body = JNumber lat -> Body.longitude body = JNumber lon ->
  lat <> 0 -> lon <> 0 ->
  rejects env (aggregate (deliverable_pipeline (Num lon) (Num lat))) = None ->
  exists data,
    post_shops_deliverable env body w
    = (aggregated_shops (List.length data) None data,
       issue (aggregate (deliverable_pipeline (Num lon) (Num lat))) w).
Proof.
  intros Hlat Hlon Hlat0 Hlon0 Hok.
  unfold post_shops_deliverable, Async.try_catch, Async.bind, Async.ret.
  rewrite Hlat, Hlon. simpl.
  apply Reqb_false in Hlat0, Hlon0. rewrite Hlat0, Hlon0. simpl.
  unfold Shop_aggregate. fold (deliverable_pipeline (Num lon) (Num lat)).
  rewrite Hok. simpl. eexists. reflexivity.
Qed.

Lemma haversineKm_nonneg lat lon s : 0 <= haversineKm lat lon s.
Proof.
  unfold haversineKm, calculateDistance.
  pose proof (Math_atan2_nonneg _ _
                (sqrt_pos (haversine_a lat lon (snd (coordinates s))
                                       (fst (coordinates s))))
                (sqrt_pos (1 - haversine_a lat lon (snd (coordinates s))
                                           (fst (coordinates s))))).
  lra.
Qed.

(** C3: when [/shops/nearby] answers for the origin [(lat, lon)], the
    search radius [r] is [maxDistance] when that is a number other than 0,
    and 10 when it is absent, [null] or 0.  The shops of the answer are
    exactly the active and approved shops whose distance from the origin,
    as the store's [$near] measures it, is at most [r] kilometres; they
    come in non-decreasing order of that distance, and [count] is their
    number.  The handler does not compare the distance it reports with
    [r].  For a store that measures no distance shorter than
    [calculateDistance] does, and for [r] up to 20000, every shop of the
    answer is within [r] kilometres by [calculateDistance], and the
    reported [distance] is a number of hundredths within 0.005 of that
    distance, so at most [r + 0.005]; when moreover the two distances
    order the shops alike, the reported distances are non-decreasing.
    The bound on [r] keeps the shops clear of the antipode of the origin,
    where the doubles of [calculateDistance] can give [NaN] (module
    [Binary64]). *)
Theorem nearby_shops_within_search_radius
    env lat lon body w count data w' r :
  Body.latitude body = JNumber lat ->
  Body.longitude body = JNumber lon ->
  post_shops_nearby env body w = (nearby_shops count data, w') ->
  (Body.maxDistance body = JNumber r /\ r <> 0) \/
  ((Body.maxDistance body = undefined \/ Body.maxDistance body = null \/
    Body.maxDistance body = JNumber 0) /\ r = 10) ->
  let storeDistance s := geoDistance env (lon, lat) (coordinates s) in
  (forall e, In e data ->
     In (shop e) (shops w) /\ visible (shop e) = true /\
     storeDistance (shop e) <= r * 1000) /\
  (forall s, In s (shops w) -> visible s = true ->
     storeDistance s <= r * 1000 -> exists e, In e data /\ shop e = s) /\
  StronglySorted
    (fun a b => storeDistance (shop a) <= storeDistance (shop b)) data /\
  count = List.length data /\
  ((forall s, haversineKm lat lon s * 1000 <= storeDistance s) ->
   r <= 20000 ->
   (forall e, In e data ->
      haversineKm lat lon (shop e) <= r /\
      exists n : Z,
        distance e = Num (IZR n / 100) /\
        Rabs (IZR n / 100 - haversineKm lat lon (shop e)) <= / 200 /\
        0 <= IZR n / 100 <= r + / 200) /\
   ((forall s t, storeDistance s <= storeDistance t ->
                 haversineKm lat lon s <= haversineKm lat lon t) ->
    StronglySorted
      (fun a b => number_leb (distance a) (distance b) = true) data)).
Proof.
  intros Hlat Hlon Hrun Hradius storeDistance.
  apply post_shops_nearby_success in Hrun
    as (lat' & lon' & Hlat' & Hlon' & Hdata & Hcount & _).
  rewrite Hlat in Hlat'. rewrite Hlon in Hlon'.
  injection Hlat' as <-. injection Hlon' as <-.
  assert (Hr : value_or (Body.maxDistance body) 10 = r).
  { destruct Hradius as [[-> Hr] | [[-> | [-> | ->]] ->]]; simpl;
      try reflexivity.
    - apply Reqb_false in Hr. now rewrite Hr.
    - replace (Reqb 0 0) with true by (symmetry; now apply Reqb_true).
      reflexivity. }
  rewrite Hr in Hdata.
  assert (Hin : forall e, In e data ->
            In (shop e) (shops w) /\ visible (shop e) = true /\
            storeDistance (shop e) <= r * 1000 /\
            distance e = Num (toFixed2 (haversineKm lat lon (shop e)))).
  { intros e He. rewrite Hdata in He. apply in_map_iff in He as [s [<- Hs]].
    apply near_query_In in Hs as (Hs & Hvis & Hle).
    rewrite withDistance_number. simpl. repeat split; assumption. }
  split; [| split; [| split; [| split]]].
  - intros e He. apply Hin in He. tauto.
  - intros s Hs Hvis Hle.
    exists (withDistance (JNumber lat) (JNumber lon) s).
    split; [| now rewrite withDistance_number].
    rewrite Hdata. apply in_map, near_query_In. repeat split; assumption.
  - rewrite Hdata.
    apply StronglySorted_map
      with (P := fun s t => storeDistance s <= storeDistance t).
    + intros s t Hst. now rewrite !withDistance_number.
    + apply near_query_sorted.
  - exact Hcount.
  - intros Hmetric _. split; [| intros Horder; rewrite Hdata;
      apply StronglySorted_map
        with (P := fun s t => storeDistance s <= storeDistance t);
      [intros s t Hst; rewrite !withDistance_number; simpl;
       apply Rleb_true, toFixed2_mono, Horder, Hst
      | apply near_query_sorted]].
    intros e He. apply Hin in He as (_ & _ & Hle & Hdist).
    pose proof (Hmetric (shop e)) as Hshort.
    pose proof (haversineKm_nonneg lat lon (shop e)) as Hpos.
    pose proof (toFixed2_close (haversineKm lat lon (shop e))) as Hclose.
    destruct (toFixed2_hundredth (haversineKm lat lon (shop e))) as [n Hn].
    split; [lra |]. exists n. rewrite <- Hn. split; [exact Hdist |].
    split; [exact Hclose |].
    pose proof (toFixed2_mono 0 _ Hpos) as Hmono.
    rewrite (toFixed2_near 0 0) in Hmono by (simpl; lra).
    simpl in Hmono. unfold Rabs in Hclose.
    destruct (Rcase_abs _) in Hclose; lra.
Qed.

(** C4: in the answer of [/shops/nearby], [withinDeliveryRadius] is
    [distance <= deliveryRadius] for the haversine distance, and the shops
    of the answer are exactly those that the store returns for the search
    radius, whatever the flag says.  A shop [s] within the search radius
    and farther than its own delivery radius is in the answer with the
    flag [false], and it is not in the answer of [/shops/deliverable] for
    the same origin. *)
Theorem nearby_flag_is_not_a_filter
    env lat lon body w count data w1 count' searchRadius data' w2 s :
  Body.latitude body = JNumber lat ->
  Body.longitude body = JNumber lon ->
  post_shops_nearby env body w = (nearby_shops count data, w1) ->
  post_shops_deliverable env body w
  = (aggregated_shops count' searchRadius data', w2) ->
  In s (shops w) -> visible s = true ->
  geoDistance env (lon, lat) (coordinates s)
  <= value_or (Body.maxDistance body) 10 * 1000 ->
  deliveryRadius s < haversineKm lat lon s ->
  deliveryRadius s < distanceKm env (lon, lat) s ->
  (forall e, In e data ->
     withinDeliveryRadius e
     = Rleb (haversineKm lat lon (shop e)) (deliveryRadius (shop e))) /\
  map shop data
  = near_query env (lon, lat)
      (Some (value_or (Body.maxDistance body) 10 * 1000)) (shops w) /\
  (exists e, In e data /\ shop e = s /\ withinDeliveryRadius e = false) /\
  (forall d, In d data' -> doc_shop d <> s).
Proof.
  intros Hlat Hlon Hnear Hdeliv Hs Hvis Hsearch Hlocal Hstore.
  apply post_shops_nearby_success in Hnear
    as (lat' & lon' & Hlat' & Hlon' & Hdata & _ & _).
  rewrite Hlat in Hlat'. rewrite Hlon in Hlon'.
  injection Hlat' as <-. injection Hlon' as <-.
  split; [| split; [| split]].
  - intros e He. rewrite Hdata in He. apply in_map_iff in He as [t [<- _]].
    now rewrite withDistance_number.
  - rewrite Hdata, map_map. rewrite <- (map_id (near_query _ _ _ _)) at 2.
    apply map_ext. intro t. now rewrite withDistance_number.
  - exists (withDistance (JNumber lat) (JNumber lon) s).
    rewrite Hdata, withDistance_number. simpl. repeat split.
    + rewrite <- withDistance_number. apply in_map.
      apply near_query_In. repeat split; assumption.
    + now apply Rleb_false.
  - intros d Hd Heq.
    apply post_shops_deliverable_success in Hdeliv
      as (lat' & lon' & Hlat' & Hlon' & Hpipe & _).
    rewrite Hlat in Hlat'. rewrite Hlon in Hlon'.
    injection Hlat' as <-. injection Hlon' as <-.
    apply (deliverable_pipeline_In _ _ _ _ _ Hpipe) in Hd
      as (t & _ & _ & Hle & ->).
    simpl in Heq. rewrite Heq in Hle. lra.
Qed.


(** *** The scenarios *)

Lemma PI_gt_3 : 3 < PI.
Proof. pose proof PI2_3_2. lra. Qed.

Lemma scenario_haversine id km radius :
  0 <= km < 19113 ->
  haversineKm Scenario.origin_lat Scenario.origin_lon
              (Scenario.shop_at id km radius) = km.
Proof.
  intros Hkm. unfold haversineKm. simpl.
  apply calculateDistance_meridian; pose proof PI_gt_3; lra.
Qed.

Lemma scenario_origin_nonzero :
  Scenario.origin_lat <> 0 /\ Scenario.origin_lon <> 0.
Proof. unfold Scenario.origin_lat, Scenario.origin_lon. split; lra. Qed.

(** The scenario of the specification, for C1: the answer for the origin
    holds every shop within its own radius, in ascending order. *)
Lemma deliverable_shops_witness :
  exists count data w',
    post_shops_deliverable Scenario.env (Scenario.body undefined)
      (Scenario.world [Scenario.A; Scenario.B; Scenario.C])
    = (aggregated_shops count None data, w') /\
    (forall s, In s [Scenario.A; Scenario.B; Scenario.C] ->
       visible s = true ->
       distanceKm Scenario.env
         (Scenario.origin_lon, Scenario.origin_lat) s <= deliveryRadius s ->
       exists d, In d data /\ doc_shop d = s) /\
    StronglySorted (fun a b => doc_distance a <= doc_distance b) data.
Proof.
  destruct scenario_origin_nonzero as [Hlat Hlon].
  destruct (post_shops_deliverable_answers Scenario.env
              (Scenario.body undefined)
              (Scenario.world [Scenario.A; Scenario.B; Scenario.C])
              _ _ eq_refl eq_refl Hlat Hlon eq_refl) as [data Hrun].
  do 3 eexists. split; [exact Hrun |].
  destruct (deliverable_shops_exactly_within_own_radius
              Scenario.env Scenario.origin_lat Scenario.origin_lon
              (Scenario.body undefined) _ _ _ _ _ eq_refl eq_refl Hrun)
    as (_ & Hall & Hsorted & _).
  split; [exact Hall | exact Hsorted].
Defined.

Lemma scenario_metric lat lon s :
  geoDistance Scenario.env (lon, lat) (coordinates s)
  = haversineKm lat lon s * 1000.
Proof. reflexivity. Qed.

(** Against C1 as stated: a store that measures on the sphere of radius
    6378.1 km leaves out the shop E, which is active and approved and
    9.995 km from the origin by [calculateDistance], within its delivery
    radius of 10 km: the store has it at more than 10 km. *)
Lemma deliverable_omits_a_shop_within_its_haversine_radius :
  visible MoreScenarios.E = true /\
  haversineKm Scenario.origin_lat Scenario.origin_lon MoreScenarios.E = 9.995 /\
  deliveryRadius MoreScenarios.E = 10 /\
  exists w',
    post_shops_deliverable MoreScenarios.env_6378 (Scenario.body undefined)
      (Scenario.world [MoreScenarios.E])
    = (aggregated_shops 0 None [], w').
Proof.
  destruct scenario_origin_nonzero as [Hlat Hlon].
  assert (HE : haversineKm Scenario.origin_lat Scenario.origin_lon
                           MoreScenarios.E = 9.995)
    by (apply scenario_haversine; lra).
  split; [reflexivity |]. split; [exact HE |]. split; [reflexivity |].
  destruct (post_shops_deliverable_answers MoreScenarios.env_6378
              (Scenario.body undefined) (Scenario.world [MoreScenarios.E])
              _ _ eq_refl eq_refl Hlat Hlon eq_refl) as [data Hrun].
  pose proof Hrun as Hrun'.
  apply post_shops_deliverable_success in Hrun'
    as (lat' & lon' & Hlat' & Hlon' & Hpipe & _).
  injection Hlat' as <-. injection Hlon' as <-.
  destruct data as [| d data].
  - eexists. exact Hrun.
  - exfalso.
    destruct (proj1 (deliverable_pipeline_In _ _ _ _ _ Hpipe d))
      as (s & Hs & _ & Hle & _); [now left |].
    destruct Hs as [<- | []].
    assert (Hkm : distanceKm MoreScenarios.env_6378
                    (Scenario.origin_lon, Scenario.origin_lat)
                    MoreScenarios.E
                  = haversineKm Scenario.origin_lat Scenario.origin_lon
                      MoreScenarios.E * (6378.1 / 6371)).
    { unfold distanceKm, haversineKm. simpl. lra. }
    rewrite Hkm, HE in Hle. simpl in Hle. lra.
Qed.

(** The scenario, for C3: with the default radius, the answer holds
    every shop within 10 km, each within 10 km by [calculateDistance], and
    the reported distances are non-decreasing. *)
Lemma nearby_shops_witness :
  exists count data w',
    post_shops_nearby Scenario.env (Scenario.body undefined)
      (Scenario.world [Scenario.A; Scenario.B; Scenario.C])
    = (nearby_shops count data, w') /\
    (forall s, In s [Scenario.A; Scenario.B; Scenario.C] ->
       visible s = true ->
       haversineKm Scenario.origin_lat Scenario.origin_lon s <= 10 ->
       exists e, In e data /\ shop e = s) /\
    (forall e, In e data ->
       haversineKm Scenario.origin_lat Scenario.origin_lon (shop e) <= 10) /\
    StronglySorted
      (fun a b => number_leb (distance a) (distance b) = true) data.
Proof.
  destruct scenario_origin_nonzero as [Hlat Hlon].
  destruct (post_shops_nearby_answers Scenario.env
              (Scenario.body undefined)
              (Scenario.world [Scenario.A; Scenario.B; Scenario.C])
              _ _ eq_refl eq_refl Hlat Hlon eq_refl) as [data Hrun].
  do 3 eexists. split; [exact Hrun |].
  destruct (nearby_shops_within_search_radius
              Scenario.env Scenario.origin_lat Scenario.origin_lon
              (Scenario.body undefined) _ _ _ _ 10 eq_refl eq_refl Hrun)
    as (_ & Hall & _ & _ & Hlocal).
  - right. split; [left |]; reflexivity.
  - destruct Hlocal as [Hbound Hsorted].
    + intro s. rewrite scenario_metric. lra.
    + lra.
    + split; [| split].
      * intros s Hs Hvis Hle. apply Hall; try assumption.
        rewrite scenario_metric. lra.
      * intros e He. now apply Hbound.
      * apply Hsorted. intros s t. rewrite !scenario_metric. lra.
Defined.

(** Against C3 as stated: with [maxDistance] 0 the shop B, 8 km away, is
    returned with the distance 8; and with [maxDistance] 4.996 the shop
    F, 4.996 km away, is returned with the distance 5. *)
Lemma nearby_distance_beyond_the_radius :
  (exists count data w' e,
     post_shops_nearby Scenario.env (Scenario.body (JNumber 0))
       (Scenario.world [Scenario.B])
     = (nearby_shops count data, w') /\
     In e data /\ shop e = Scenario.B /\ distance e = Num 8) /\
  (exists count data w' e,
     post_shops_nearby Scenario.env (Scenario.body (JNumber 4.996))
       (Scenario.world [MoreScenarios.F])
     = (nearby_shops count data, w') /\
     In e data /\ shop e = MoreScenarios.F /\
     haversineKm Scenario.origin_lat Scenario.origin_lon (shop e) = 4.996 /\
     distance e = Num 5).
Proof.
  destruct scenario_origin_nonzero as [Hlat Hlon].
  assert (H0 : value_or (JNumber 0) 10 = 10).
  { simpl. replace (Reqb 0 0) with true; [reflexivity |].
    symmetry. now apply Reqb_true. }
  assert (H4 : value_or (JNumber 4.996) 10 = 4.996).
  { simpl. replace (Reqb 4.996 0) with false; [reflexivity |].
    symmetry. apply Reqb_false. lra. }
  assert (HB : haversineKm Scenario.origin_lat Scenario.origin_lon
                           Scenario.B = 8)
    by (apply scenario_haversine; lra).
  assert (HF : haversineKm Scenario.origin_lat Scenario.origin_lon
                           MoreScenarios.F = 4.996)
    by (apply scenario_haversine; lra).
  split.
  - destruct (post_shops_nearby_answers Scenario.env
                (Scenario.body (JNumber 0)) (Scenario.world [Scenario.B])
                _ _ eq_refl eq_refl Hlat Hlon eq_refl) as [data Hrun].
    pose proof Hrun as Hrun'.
    apply post_shops_nearby_success in Hrun'
      as (lat' & lon' & Hlat' & Hlon' & Hdata & _ & _).
    injection Hlat' as <-. injection Hlon' as <-.
    exists (List.length data), data. eexists.
    exists (withDistance (JNumber Scenario.origin_lat)
                         (JNumber Scenario.origin_lon) Scenario.B).
    split; [exact Hrun |]. split; [| split; [reflexivity |]].
    + rewrite Hdata. apply in_map, near_query_In. repeat split.
      * simpl. auto.
      * rewrite scenario_metric, HB.
        change (Body.maxDistance (Scenario.body (JNumber 0)))
          with (JNumber 0).
        rewrite H0. lra.
    + rewrite withDistance_number. cbn [distance]. f_equal. rewrite HB.
      rewrite (toFixed2_near 800 8); simpl; lra.
  - destruct (post_shops_nearby_answers Scenario.env
                (Scenario.body (JNumber 4.996))
                (Scenario.world [MoreScenarios.F])
                _ _ eq_refl eq_refl Hlat Hlon eq_refl) as [data Hrun].
    pose proof Hrun as Hrun'.
    apply post_shops_nearby_success in Hrun'
      as (lat' & lon' & Hlat' & Hlon' & Hdata & _ & _).
    injection Hlat' as <-. injection Hlon' as <-.
    exists (List.length data), data. eexists.
    exists (withDistance (JNumber Scenario.origin_lat)
                         (JNumber Scenario.origin_lon) MoreScenarios.F).
    split; [exact Hrun |]. split; [| split; [reflexivity |]].
    + rewrite Hdata. apply in_map, near_query_In. repeat split.
      * simpl. auto.
      * rewrite scenario_metric, HF.
        change (Body.maxDistance (Scenario.body (JNumber 4.996)))
          with (JNumber 4.996).
        rewrite H4. lra.
    + rewrite withDistance_number. cbn [shop distance].
      split; [exact HF |]. f_equal. rewrite HF.
      rewrite (toFixed2_near 500 4.996); simpl; lra.
Qed.

(** The scenario, for C4: the shop C, 12 km away with the delivery radius
    10, is in the answer of [/shops/nearby] for the search radius 15 with
    the flag [false], and not in the answer of [/shops/deliverable]. *)
Lemma scenario_C_in_nearby_not_deliverable :
  exists count data w1 count' data' w2,
    post_shops_nearby Scenario.env (Scenario.body (JNumber 15))
      (Scenario.world [Scenario.A; Scenario.B; Scenario.C])
    = (nearby_shops count data, w1) /\
    post_shops_deliverable Scenario.env (Scenario.body (JNumber 15))
      (Scenario.world [Scenario.A; Scenario.B; Scenario.C])
    = (aggregated_shops count' None data', w2) /\
    haversineKm Scenario.origin_lat Scenario.origin_lon Scenario.C = 12 /\
    deliveryRadius Scenario.C = 10 /\
    (exists e, In e data /\ shop e = Scenario.C /\
               withinDeliveryRadius e = false) /\
    (forall d, In d data' -> doc_shop d <> Scenario.C).
Proof.
  destruct scenario_origin_nonzero as [Hlat Hlon].
  assert (H15 : value_or (JNumber 15) 10 = 15).
  { simpl. replace (Reqb 15 0) with false; [reflexivity |].
    symmetry. apply Reqb_false. lra. }
  destruct (post_shops_nearby_answers Scenario.env
              (Scenario.body (JNumber 15))
              (Scenario.world [Scenario.A; Scenario.B; Scenario.C])
              _ _ eq_refl eq_refl Hlat Hlon eq_refl) as [data Hnear].
  destruct (post_shops_deliverable_answers Scenario.env
              (Scenario.body (JNumber 15))
              (Scenario.world [Scenario.A; Scenario.B; Scenario.C])
              _ _ eq_refl eq_refl Hlat Hlon eq_refl) as [data' Hdeliv].
  assert (Hkm : haversineKm Scenario.origin_lat Scenario.origin_lon
                            Scenario.C = 12)
    by (apply scenario_haversine; lra).
  do 6 eexists. split; [exact Hnear |]. split; [exact Hdeliv |].
  split; [exact Hkm |]. split; [reflexivity |].
  assert (Hradius : deliveryRadius Scenario.C = 10) by reflexivity.
  destruct (nearby_flag_is_not_a_filter
              Scenario.env Scenario.origin_lat Scenario.origin_lon
              (Scenario.body (JNumber 15)) _ _ _ _ _ _ _ _ Scenario.C
              eq_refl eq_refl Hnear Hdeliv)
    as (_ & _ & Hflag & Hout).
  - simpl. auto.
  - reflexivity.
  - rewrite scenario_metric, Hkm.
    change (Body.maxDistance (Scenario.body (JNumber 15))) with (JNumber 15).
    rewrite H15. lra.
  - rewrite Hkm, Hradius. lra.
  - unfold distanceKm. rewrite scenario_metric, Hkm, Hradius. lra.
  - split; assumption.
Defined.


(** *** Presence and range checks *)

Lemma parseFloat_95 : parseFloat "95" = Num 95.
Proof. unfold parseFloat. simpl. f_equal. lra. Qed.

Lemma parseFloat_minus_200 : parseFloat "-200" = Num (-200).
Proof. unfold parseFloat. simpl. f_equal. lra. Qed.

Lemma parseFloat_0 : parseFloat "0" = Num 0.
Proof. unfold parseFloat. simpl. f_equal. lra. Qed.

Lemma parseFloat_origin_lon : parseFloat "77.5946" = Num Scenario.origin_lon.
Proof.
  unfold parseFloat, Scenario.origin_lon. simpl. f_equal. lra.
Qed.

(** Every path of the three discovery handlers. *)
Lemma post_shops_nearby_run env body w :
  post_shops_nearby env body w =
  match Body.latitude body, Body.longitude body with
  | JNumber lat, JNumber lon =>
      if (Reqb lat 0 || Reqb lon 0)%bool
      then (failure 400 "Latitude and longitude are required" None, w)
      else
        let maxDistance := value_or (Body.maxDistance body) 10 * 1000 in
        let call := find_near (JNumber lon, JNumber lat) maxDistance in
        let data := map (withDistance (JNumber lat) (JNumber lon))
                        (near_query env (lon, lat) (Some maxDistance)
                                    (shops w)) in
        (match rejects env call with
         | Some e => server_error e
         | None => nearby_shops (List.length data) data
         end, issue call w)
  | _, _ => (failure 400 "Latitude and longitude are required" None, w)
  end.
Proof.
  unfold post_shops_nearby, Async.try_catch, Async.bind, Async.ret.
  destruct (Body.latitude body) as [| | lat]; try reflexivity;
    destruct (Body.longitude body) as [| | lon]; simpl;
    try reflexivity; try (destruct (Reqb lat 0); reflexivity).
  destruct (Reqb lat 0), (Reqb lon 0); simpl; try reflexivity.
  unfold Shop_find. destruct (rejects env _); reflexivity.
Qed.

Lemma post_shops_deliverable_run env body w :
  post_shops_deliverable env body w =
  match Body.latitude body, Body.longitude body with
  | JNumber lat, JNumber lon =>
      if (Reqb lat 0 || Reqb lon 0)%bool
      then (failure 400 "Latitude and longitude are required" None, w)
      else
        let pipeline := deliverable_pipeline (Num lon) (Num lat) in
        (match rejects env (aggregate pipeline) with
         | Some e => server_error e
         | None =>
             match run_pipeline env pipeline (shops w) with
             | Async.Resolved data =>
                 aggregated_shops (List.length data) None data
             | Async.Rejected e => server_error e
             end
         end, issue (aggregate pipeline) w)
  | _, _ => (failure 400 "Latitude and longitude are required" None, w)
  end.
Proof.
  unfold post_shops_deliverable, Async.try_catch, Async.bind, Async.ret.
  destruct (Body.latitude body) as [| | lat]; try reflexivity;
    destruct (Body.longitude body) as [| | lon]; simpl;
    try reflexivity; try (destruct (Reqb lat 0); reflexivity).
  destruct (Reqb lat 0), (Reqb lon 0); simpl; try reflexivity.
  unfold Shop_aggregate. fold (deliverable_pipeline (Num lon) (Num lat)).
  destruct (rejects env _); reflexivity.
Qed.

Lemma get_shops_radius_run env query w :
  get_shops_radius env query w =
  if (truthy_string (Query.latitude query) &&
      truthy_string (Query.longitude query))%bool
  then
    let searchRadius := number_or (parseFloat_param (Query.radius query)) 5 in
    let pipeline :=
      radius_pipeline (parseFloat_param (Query.longitude query))
                      (parseFloat_param (Query.latitude query))
                      searchRadius in
    (match rejects env (aggregate pipeline) with
     | Some e => server_error e
     | None =>
         match run_pipeline env pipeline (shops w) with
         | Async.Resolved data =>
             aggregated_shops (List.length data) (Some searchRadius) data
         | Async.Rejected e => server_error e
         end
     end, issue (aggregate pipeline) w)
  else (failure 400 "Latitude and longitude are required" None, w).
Proof.
  unfold get_shops_radius, Async.try_catch, Async.bind, Async.ret.
  destruct (truthy_string (Query.latitude query)); cbn [negb orb andb];
    [| reflexivity].
  destruct (truthy_string (Query.longitude query)); cbn [negb orb andb];
    [| reflexivity].
  unfold Shop_aggregate.
  fold (radius_pipeline (parseFloat_param (Query.longitude query))
          (parseFloat_param (Query.latitude query))
          (number_or (parseFloat_param (Query.radius query)) 5)).
  destruct (rejects env _); [reflexivity |].
  destruct (run_pipeline env _ (shops w)); reflexivity.
Qed.

(** C2: for the origin with latitude 95 and longitude -200, each of the
    three discovery handlers passes its presence test and issues its store
    query with this point; when the store does not reject the query the
    handler answers with [success: true].  None of them validates the
    range, unlike [/shop/location]. *)
Theorem out_of_range_origin_reaches_the_store env w :
  let body :=
    Scenario.body_of None (JNumber 95) (JNumber (-200)) undefined undefined in
  let query := {| Query.latitude := Some "95"%string;
                  Query.longitude := Some "-200"%string;
                  Query.radius := None |} in
  let near_call := find_near (JNumber (-200), JNumber 95) (10 * 1000) in
  let deliverable_call :=
    aggregate (deliverable_pipeline (Num (-200)) (Num 95)) in
  let radius_call := aggregate (radius_pipeline (Num (-200)) (Num 95) 5) in
  (snd (post_shops_nearby env body w) = issue near_call w /\
   snd (post_shops_deliverable env body w) = issue deliverable_call w /\
   snd (get_shops_radius env query w) = issue radius_call w) /\
  (rejects env near_call = None ->
   success (fst (post_shops_nearby env body w)) = true) /\
  (rejects env deliverable_call = None ->
   success (fst (post_shops_deliverable env body w)) = true) /\
  (rejects env radius_call = None ->
   success (fst (get_shops_radius env query w)) = true).
Proof.
  intros body query near_call deliverable_call radius_call.
  assert (H95 : Reqb 95 0 = false) by (apply Reqb_false; lra).
  assert (H200 : Reqb (-200) 0 = false) by (apply Reqb_false; lra).
  rewrite post_shops_nearby_run, post_shops_deliverable_run,
    get_shops_radius_run.
  unfold body, query. simpl. rewrite H95, H200. simpl.
  rewrite parseFloat_95, parseFloat_minus_200.
  fold near_call deliverable_call radius_call.
  repeat split.
  - intros ->. reflexivity.
  - intros ->. reflexivity.
  - intros ->. reflexivity.
Qed.

(** C9: [/shops/nearby] and [/shops/deliverable] refuse a body whose
    [latitude] or [longitude] is the number 0 with the status 400 and the
    message [Latitude and longitude are required], without a store query.
    [/shops/radius] reads its coordinates from the query string: it gives
    that answer exactly when one of the two parameters is absent or empty,
    so not for the string [0]. *)
Theorem zero_coordinate_rejected_as_missing env w :
  (forall body,
     Body.latitude body = JNumber 0 \/ Body.longitude body = JNumber 0 ->
     post_shops_nearby env body w
     = (failure 400 "Latitude and longitude are required" None, w) /\
     post_shops_deliverable env body w
     = (failure 400 "Latitude and longitude are required" None, w)) /\
  (forall query,
     get_shops_radius env query w
     = (failure 400 "Latitude and longitude are required" None, w)
     <-> truthy_string (Query.latitude query) = false \/
         truthy_string (Query.longitude query) = false).
Proof.
  split.
  - intros body Hzero.
    rewrite post_shops_nearby_run, post_shops_deliverable_run.
    assert (H0 : Reqb 0 0 = true) by now apply Reqb_true.
    destruct Hzero as [-> | ->].
    + destruct (Body.longitude body); rewrite ?H0; simpl; split; reflexivity.
    + destruct (Body.latitude body); rewrite ?H0, ?orb_true_r; simpl;
        split; reflexivity.
  - intro query. rewrite get_shops_radius_run.
    destruct (truthy_string (Query.latitude query)),
             (truthy_string (Query.longitude query)); simpl;
      try (split; [intros _; auto | reflexivity]).
    split; [| intros [H | H]; discriminate].
    intros [= _ Hw]. apply (f_equal calls) in Hw.
    apply (f_equal (@List.length Call)) in Hw.
    cbn [issue calls] in Hw. rewrite length_app in Hw. simpl in Hw. lia.
Qed.

(** Against C9 as stated: [/shops/radius] with the latitude [0] in the
    query string passes the presence test, queries the store and answers
    with [success: true]. *)
Lemma radius_accepts_latitude_zero :
  get_shops_radius Scenario.env
    {| Query.latitude := Some "0"%string;
       Query.longitude := Some "77.5946"%string;
       Query.radius := None |}
    (Scenario.world [])
  = (aggregated_shops 0 (Some 5) [],
     issue (aggregate (radius_pipeline (Num Scenario.origin_lon) (Num 0) 5))
           (Scenario.world [])).
Proof.
  rewrite get_shops_radius_run. cbn [Query.latitude Query.longitude
    Query.radius truthy_string andb parseFloat_param number_or].
  rewrite parseFloat_0, parseFloat_origin_lon. reflexivity.
Qed.

(** *** [/shop/location] *)

Lemma post_shop_location_run env id lat lon km maxDistance w :
  id <> EmptyString -> lat <> 0 -> lon <> 0 -> km <> 0 ->
  post_shop_location env
    (Scenario.body_of (Some id) (JNumber lat) (JNumber lon) (JNumber km)
        maxDistance) w
  = if (Rltb lat (-90) || Rltb 90 lat || Rltb lon (-180) || Rltb 180 lon)%bool
    then (failure 400 "Invalid coordinates" None, w)
    else if (Rltb km 0 || Rltb 50 km)%bool
    then (failure 400 "Delivery radius must be between 0 and 50 km" None, w)
    else
      let call := findByIdAndUpdate (Some id) (JNumber lon, JNumber lat)
                                    (JNumber km) in
      match rejects env call with
      | Some e => (server_error e, issue call w)
      | None =>
          let (found, shops') :=
            update_by_id id (set_location lon lat km) (shops w) in
          (match found with
           | Some shop =>
               location_saved (_id shop) (coordinates shop)
                              (deliveryRadius shop)
           | None => failure 404 "Shop not found" None
           end,
           {| shops := shops'; calls := calls w ++ [call] |})
      end.
Proof.
  intros Hid Hlat Hlon Hkm.
  unfold post_shop_location, Async.try_catch, Async.bind, Async.ret,
    Scenario.body_of.
  cbn [Body.shopId Body.latitude Body.longitude Body.deliveryRadius].
  destruct id as [| c id]; [congruence |].
  apply Reqb_false in Hlat, Hlon, Hkm.
  cbn [truthy_string truthy]. rewrite Hlat, Hlon, Hkm.
  cbn [negb orb]. unfold lt, gt. cbn [ToNumber].
  destruct (Rltb lat (-90) || Rltb 90 lat || Rltb lon (-180) || Rltb 180 lon)%bool;
    [reflexivity |].
  destruct (Rltb km 0 || Rltb 50 km)%bool; [reflexivity |].
  unfold Shop_findByIdAndUpdate. destruct (rejects env _); [reflexivity |].
  cbn [issue calls]. destruct (update_by_id _ _ (shops w)) as [[shop |] shops'];
    reflexivity.
Qed.

(** The radius check itself: for a radius other than 0, with the other
    fields present and the coordinates in range, the request is refused
    for its radius exactly when the radius is below 0 or above 50. *)
Lemma post_shop_location_radius_check env id lat lon km maxDistance w :
  id <> EmptyString -> lat <> 0 -> lon <> 0 -> km <> 0 ->
  -90 <= lat <= 90 -> -180 <= lon <= 180 ->
  (post_shop_location env
     (Scenario.body_of (Some id) (JNumber lat) (JNumber lon) (JNumber km)
        maxDistance) w
   = (failure 400 "Delivery radius must be between 0 and 50 km" None, w))
  <-> km < 0 \/ 50 < km.
Proof.
  intros Hid Hlat Hlon Hkm Hlat_range Hlon_range.
  rewrite post_shop_location_run by assumption.
  replace (Rltb lat (-90)) with false by (symmetry; apply Rltb_false; lra).
  replace (Rltb 90 lat) with false by (symmetry; apply Rltb_false; lra).
  replace (Rltb lon (-180)) with false by (symmetry; apply Rltb_false; lra).
  replace (Rltb 180 lon) with false by (symmetry; apply Rltb_false; lra).
  cbn [orb].
  destruct (Rltb km 0) eqn:Hneg; [apply Rltb_true in Hneg; tauto |].
  destruct (Rltb 50 km) eqn:Hbig; [apply Rltb_true in Hbig; tauto |].
  apply Rltb_false in Hneg, Hbig. cbn [orb].
  split; [| lra].
  destruct (rejects env _); [discriminate |].
  destruct (update_by_id _ _ (shops w)) as [[shop |] shops']; discriminate.
Qed.

(** C5: a request to save a location with the delivery radius 0, and all
    other fields present and valid, is refused with the status 400 and
    the message [Missing required fields], and the store is not called.
    For every other radius, with the other fields present and the
    coordinates in range, the request is refused for its radius exactly
    when the radius is below 0 or above 50. *)
Theorem save_location_refuses_radius_zero env w :
  post_shop_location env
    (Scenario.body_of (Some "698dc943148fdab957c75f4c"%string)
       (JNumber Scenario.origin_lat) (JNumber Scenario.origin_lon)
       (JNumber 0) undefined) w
  = (failure 400 "Missing required fields" None, w) /\
  (forall id lat lon km maxDistance,
     id <> EmptyString -> lat <> 0 -> lon <> 0 -> km <> 0 ->
     -90 <= lat <= 90 -> -180 <= lon <= 180 ->
     (post_shop_location env
        (Scenario.body_of (Some id) (JNumber lat) (JNumber lon) (JNumber km)
                          maxDistance) w
      = (failure 400 "Delivery radius must be between 0 and 50 km" None, w))
     <-> km < 0 \/ 50 < km).
Proof.
  split.
  - unfold post_shop_location, Async.try_catch, Async.ret, Scenario.body_of.
    cbn [Body.shopId Body.latitude Body.longitude Body.deliveryRadius
         truthy_string truthy].
    replace (Reqb 0 0) with true by (symmetry; now apply Reqb_true).
    cbn [negb]. rewrite !orb_true_r. reflexivity.
  - intros. now apply post_shop_location_radius_check.
Qed.

End LocationFacts.

(** ** The dashboard *)

Section DashboardFacts.

Import Dashboard.

(** *** Keys *)

Lemma key_eqb_eq (a b : option string) : key_eqb a b = true <-> a = b.
Proof.
  destruct a as [x |], b as [y |]; simpl; try easy.
  rewrite String.eqb_eq. split; congruence.
Qed.

Lemma key_eqb_refl (a : option string) : key_eqb a a = true.
Proof. now apply key_eqb_eq. Qed.

Lemma key_eqb_neq (a b : option string) : key_eqb a b = false <-> a <> b.
Proof.
  rewrite <- key_eqb_eq. destruct (key_eqb a b); split; congruence.
Qed.




(** *** [$group] *)

Lemma lookup_add_same k a groups :
  match lookup k groups with
  | Some g =>
      lookup k (add_to_group k a groups)
      = Some {| _id := k; count := S (count g); sum := sum g + a |}
  | None =>
      lookup k (add_to_group k a groups)
      = Some {| _id := k; count := 1; sum := a |}
  end.
Proof.
  unfold lookup. induction groups as [| g groups IH]; simpl.
  - now rewrite key_eqb_refl.
  - destruct (key_eqb (_id g) k) eqn:Hg; simpl.
    + now rewrite key_eqb_refl.
    + rewrite Hg. exact IH.
Qed.

Lemma lookup_add_other k k' a groups :
  k' <> k -> lookup k' (add_to_group k a groups) = lookup k' groups.
Proof.
  intro Hneq. unfold lookup. induction groups as [| g groups IH]; simpl.
  - replace (key_eqb k k') with false; [reflexivity |].
    symmetry. apply key_eqb_neq. congruence.
  - destruct (key_eqb (_id g) k) eqn:Hg; simpl.
    + apply key_eqb_eq in Hg.
      replace (key_eqb k k') with false
        by (symmetry; apply key_eqb_neq; congruence).
      replace (key_eqb (_id g) k') with false
        by (symmetry; apply key_eqb_neq; congruence).
      reflexivity.
    + now rewrite IH.
Qed.

Lemma add_to_group_ids k a groups :
  map _id (add_to_group k a groups)
  = if existsb (fun g => key_eqb (_id g) k) groups
    then map _id groups else map _id groups ++ [k].
Proof.
  induction groups as [| g groups IH]; simpl; [reflexivity |].
  destruct (key_eqb (_id g) k) eqn:Hg; simpl.
  - apply key_eqb_eq in Hg. now rewrite Hg.
  - rewrite IH. now destruct (existsb _ groups).
Qed.

Lemma add_to_group_NoDup k a groups :
  NoDup (map _id groups) -> NoDup (map _id (add_to_group k a groups)).
Proof.
  intro Hnd. rewrite add_to_group_ids.
  destruct (existsb _ groups) eqn:Hex; [exact Hnd |].
  apply NoDup_app; [exact Hnd | repeat constructor; easy |].
  intros k' Hin [Heq | []]. subst k'.
  apply in_map_iff in Hin as [g [Hg Hin]].
  assert (existsb (fun g => key_eqb (_id g) k) groups = true).
  { apply existsb_exists. exists g. split; [exact Hin | now apply key_eqb_eq]. }
  congruence.
Qed.

Lemma lookup_In k groups g :
  lookup k groups = Some g -> In g groups /\ _id g = k.
Proof.
  unfold lookup. intro H. apply find_some in H as [Hin Hk].
  split; [exact Hin | now apply key_eqb_eq].
Qed.

Lemma In_lookup groups g :
  NoDup (map _id groups) -> In g groups -> lookup (_id g) groups = Some g.
Proof.
  unfold lookup. induction groups as [| h groups IH]; simpl; [easy |].
  intros Hnd [-> | Hin].
  - now rewrite key_eqb_refl.
  - inversion Hnd as [| ? ? Hnotin Hnd']; subst.
    destruct (key_eqb (_id h) (_id g)) eqn:Hh.
    + apply key_eqb_eq in Hh. exfalso. apply Hnotin. rewrite Hh.
      now apply in_map.
    + now apply IH.
Qed.

Section GroupBy.

Context {A : Type} (key : A -> option string) (amount : A -> R).

Lemma total_app (l1 l2 : list R) : total (l1 ++ l2) = total l1 + total l2.
Proof.
  unfold total. induction l1 as [| x l1 IH]; simpl; [lra |]. rewrite IH. lra.
Qed.

Lemma groups_of_step groups seen d :
  groups_of key amount groups seen ->
  groups_of key amount (add_to_group (key d) (amount d) groups) (seen ++ [d]).
Proof.
  intros [Hnd Hall]. split; [now apply add_to_group_NoDup |].
  intro k. rewrite filter_app. cbn [filter].
  change (has_key key k d) with (key_eqb (key d) k).
  destruct (key_eqb (key d) k) eqn:Hk.
  - apply key_eqb_eq in Hk. subst k.
    pose proof (lookup_add_same (key d) (amount d) groups) as Hsame.
    specialize (Hall (key d)).
    destruct (lookup (key d) groups) as [g |]; rewrite Hsame; simpl.
    + destruct Hall as (_ & Hcount & Hsum).
      rewrite length_app, map_app, total_app. simpl.
      repeat split; [lia | lia |].
      unfold total; simpl.
      fold (total (map amount (filter (has_key key (key d)) seen))). lra.
    + rewrite Hall. simpl. repeat split; [lia | unfold total; simpl; lra].
  - apply key_eqb_neq in Hk.
    rewrite lookup_add_other by congruence.
    rewrite app_nil_r. apply Hall.
Qed.

Lemma fold_groups_of docs groups seen :
  groups_of key amount groups seen ->
  groups_of key amount
    (fold_left (fun groups d => add_to_group (key d) (amount d) groups)
               docs groups)
    (seen ++ docs).
Proof.
  revert groups seen. induction docs as [| d docs IH]; intros groups seen H.
  - now rewrite app_nil_r.
  - simpl. replace (seen ++ d :: docs) with ((seen ++ [d]) ++ docs)
      by now rewrite <- app_assoc.
    apply IH. now apply groups_of_step.
Qed.

Lemma group_by_groups_of docs : groups_of key amount (group_by key amount docs) docs.
Proof.
  unfold group_by. apply (fold_groups_of docs [] []).
  split; [constructor | reflexivity].
Qed.

(** Every group is the group of its key: it counts and sums the documents
    with this key, and there is one. *)
Lemma group_by_In docs g :
  In g (group_by key amount docs) ->
  filter (has_key key (_id g)) docs <> [] /\
  count g = List.length (filter (has_key key (_id g)) docs) /\
  sum g = total (map amount (filter (has_key key (_id g)) docs)).
Proof.
  intro Hin. destruct (group_by_groups_of docs) as [Hnd Hall].
  specialize (Hall (_id g)). rewrite (In_lookup _ _ Hnd Hin) in Hall.
  destruct Hall as (Hpos & Hcount & Hsum). repeat split; try assumption.
  intro Hnil. rewrite Hnil in Hcount. simpl in Hcount. lia.
Qed.

(** Every document is in a group. *)
Lemma group_by_covers docs d :
  In d docs -> exists g, In g (group_by key amount docs) /\ _id g = key d.
Proof.
  intro Hin. destruct (group_by_groups_of docs) as [_ Hall].
  specialize (Hall (key d)).
  destruct (lookup (key d) (group_by key amount docs)) as [g |] eqn:Hl.
  - exists g. now apply lookup_In.
  - assert (Hd : In d (filter (has_key key (key d)) docs)).
    { apply filter_In. split; [exact Hin | apply key_eqb_refl]. }
    rewrite Hall in Hd. destruct Hd.
Qed.


End GroupBy.





(** *** [/stats/:shopId] *)


Lemma get_stats_answers env shopId days n w :
  match days with Some d => Js.parseInt d | None => Some 7%Z end = Some n ->
  let pipeline := daily_pipeline shopId (Some (now env - n * day_ms)%Z) in
  rejects env (Order_aggregate_call pipeline) = None ->
  rejects env (Product_aggregate_call shopId) = None ->
  get_stats env shopId days w
  = (stats
       (run_order_pipeline env pipeline (orders w))
       (group_by (fun p => Some (Product.category p)) (fun _ => 0)
          (filter (matches_product
                     {| product_shopId := shopId;
                        product_isAvailable := None |})
                  (products w))),
     issue (Product_aggregate_call shopId)
           (issue (Order_aggregate_call pipeline) w)).
Proof.
  intros Hdays pipeline Horders Hproducts.
  unfold get_stats, Async.try_catch, Async.bind, Async.both, Async.ret.
  rewrite Hdays. cbn [setDate_minus].
  unfold pipeline, daily_pipeline in *.
  unfold Order_aggregate, Product_aggregate, read.
  rewrite Horders, Hproducts. reflexivity.
Qed.


(** *** [/summary/:ownerId] *)

Lemma both_read {A B : Type} env c (answer : World -> Async.outcome A)
    (m2 : Async.t World B) w :
  Async.both (read env c answer) m2 w
  = (match rejects env c with
     | Some e => Async.Rejected e
     | None =>
         match answer w, fst (m2 (issue c w)) with
         | Async.Resolved a, Async.Resolved b => Async.Resolved (a, b)
         | Async.Rejected e, _ => Async.Rejected e
         | Async.Resolved _, Async.Rejected e => Async.Rejected e
         end
     end, snd (m2 (issue c w))).
Proof.
  unfold Async.both, read.
  destruct (rejects env c); destruct (m2 (issue c w)) as [r2 w2]; simpl;
    [reflexivity |].
  destruct (answer w); destruct r2; reflexivity.
Qed.

Lemma read_run {A : Type} env c (answer : World -> Async.outcome A) w :
  read env c answer w
  = (match rejects env c with
     | Some e => Async.Rejected e
     | None => answer w
     end, issue c w).
Proof. unfold read. destruct (rejects env c); reflexivity. Qed.

Lemma get_summary_run env ownerId shop w :
  ownerId <> EmptyString ->
  find (fun s => String.eqb (Shop.ownerId s) ownerId) (shops w) = Some shop ->
  rejects env (Shop_findOne_call ownerId) = None ->
  let queries := summary_queries env (Shop._id shop) in
  get_summary env (Some ownerId) w
  = (match first_rejection env queries with
     | Some e => failure 500 "Failed to load dashboard summary" (Some e)
     | None => summary (summary_of env shop w)
     end,
     {| shops := shops w; products := products w; orders := orders w;
        calls := calls w ++ Shop_findOne_call ownerId :: queries |}).
Proof.
  intros Hid Hfind Hok queries.
  unfold get_summary, Async.try_catch, Async.bind.
  destruct ownerId as [| ch rest]; [congruence |].
  unfold Shop_findOne at 1. rewrite read_run, Hok. cbn [issue shops].
  rewrite Hfind.
  unfold Product_countDocuments, Order_countDocuments, Order_aggregate.
  rewrite !both_read, !read_run. cbn [fst snd].
  unfold queries, summary_queries, first_rejection.
  unfold issue, summary_of.
  cbn [calls shops products orders order_match order_createdAt_gte].
  rewrite <- !app_assoc. cbn [app].
  let rec in_order l :=
    lazymatch l with
    | ?c :: ?rest => destruct (rejects env c); [reflexivity | in_order rest]
    | _ => reflexivity
    end in
  let l := eval cbv [queries summary_queries] in queries in
  in_order l.
Qed.

Lemma first_rejection_some env queries :
  (exists c, In c queries /\ rejects env c <> None) ->
  exists c e, In c queries /\ rejects env c = Some e /\
              first_rejection env queries = Some e.
Proof.
  induction queries as [| q queries IH]; intros [c [Hin Hrej]];
    [destruct Hin |].
  simpl. destruct (rejects env q) as [e |] eqn:Hq.
  - exists q, e. auto.
  - destruct Hin as [-> | Hin]; [congruence |].
    destruct IH as (c' & e & Hin' & Hc' & Hfirst); [now exists c |].
    exists c', e. auto.
Qed.

Lemma first_rejection_none env queries :
  (forall c, In c queries -> rejects env c = None) ->
  first_rejection env queries = None.
Proof.
  induction queries as [| q queries IH]; intro Hall; [reflexivity |].
  simpl. rewrite (Hall q) by now left.
  apply IH. intros c Hc. apply Hall. now right.
Qed.

Lemma no_order_matches shopId status since (l : list Order.t) :
  (forall o, In o l -> Order.shopId o <> shopId) ->
  filter (matches_order {| order_shopId := shopId; order_status := status;
                           order_createdAt_gte := since |}) l = [].
Proof.
  intro Hall. induction l as [| o l IH]; [reflexivity |].
  simpl. unfold matches_order at 1. simpl.
  replace (String.eqb (Order.shopId o) shopId) with false.
  - simpl. apply IH. intros o' Ho'. apply Hall. now right.
  - symmetry. apply String.eqb_neq. apply Hall. now left.
Qed.

(** C7: the summary of the shop of an owner issues all eight queries of
    its [Promise.all].  When the store rejects one of them, the answer is
    the failure 500 [Failed to load dashboard summary] with the error
    message of a rejected query, and no data.  When it rejects none, the
    answer is the summary; for a shop with no order, every order count is
    0 and the revenue of today is 0. *)
Theorem summary_all_or_nothing env ownerId shop w :
  ownerId <> EmptyString ->
  find (fun s => String.eqb (Shop.ownerId s) ownerId) (shops w) = Some shop ->
  rejects env (Shop_findOne_call ownerId) = None ->
  let queries := summary_queries env (Shop._id shop) in
  let run := get_summary env (Some ownerId) w in
  calls (snd run) = calls w ++ Shop_findOne_call ownerId :: queries /\
  ((exists c, In c queries /\ rejects env c <> None) ->
   exists c e,
     In c queries /\ rejects env c = Some e /\
     fst run = failure 500 "Failed to load dashboard summary" (Some e)) /\
  ((forall c, In c queries -> rejects env c = None) ->
   exists data,
     fst run = summary data /\
     ((forall o, In o (orders w) -> Order.shopId o <> Shop._id shop) ->
      orders_total data = 0%nat /\ orders_pending data = 0%nat /\
      orders_accepted data = 0%nat /\ orders_completed data = 0%nat /\
      today_orders data = 0%nat /\ today_revenue data = 0 /\
      revenue_today data = 0)).
Proof.
  intros Hid Hfind Hok queries run. unfold run.
  rewrite (get_summary_run _ _ _ _ Hid Hfind Hok). fold queries.
  split; [reflexivity |]. split.
  - intro Hsome.
    destruct (first_rejection_some _ _ Hsome) as (c & e & Hin & Hc & Hfirst).
    exists c, e. rewrite Hfirst. auto.
  - intro Hnone. rewrite (first_rejection_none _ _ Hnone).
    eexists. split; [reflexivity |].
    intro Hempty. unfold summary_of, run_order_pipeline. simpl.
    rewrite !(no_order_matches _ _ _ _ Hempty). simpl. repeat split; reflexivity.
Qed.

(** For C7: the summary of a shop with no order. *)
Lemma summary_without_orders_witness :
  exists data,
    fst (get_summary DashboardScenario.env (Some "owner1"%string)
           DashboardScenario.world_without_orders) = summary data /\
    orders_total data = 0%nat /\ orders_pending data = 0%nat /\
    orders_accepted data = 0%nat /\ orders_completed data = 0%nat /\
    today_orders data = 0%nat /\ today_revenue data = 0.
Proof.
  destruct (summary_all_or_nothing DashboardScenario.env "owner1"
              DashboardScenario.the_shop
              DashboardScenario.world_without_orders)
    as (_ & _ & Hok); [discriminate | reflexivity | reflexivity |].
  destruct Hok as (data & Hrun & Hzero); [reflexivity |].
  exists data. split; [exact Hrun |].
  destruct Hzero as (H1 & H2 & H3 & H4 & H5 & H6 & _);
    [intros o [] | repeat split; assumption].
Defined.

(** Against C7 as stated: when the store fails the count of the pending
    orders, and when it fails the count of the accepted orders instead,
    with the same error, the answer is the same: it does not tell which
    of the two failed. *)
Lemma summary_failure_names_no_facet :
  let count_of status :=
    Order_countDocuments_call
      {| order_shopId := "shop1"; order_status := Some status;
         order_createdAt_gte := None |} in
  let failed := failure 500 "Failed to load dashboard summary"
                        (Some DashboardScenario.timed_out) in
  fst (get_summary (DashboardScenario.env_failing "Pending")
         (Some "owner1"%string) DashboardScenario.world) = failed /\
  fst (get_summary (DashboardScenario.env_failing "Accepted")
         (Some "owner1"%string) DashboardScenario.world) = failed /\
  rejects (DashboardScenario.env_failing "Pending") (count_of "Pending"%string)
  = Some DashboardScenario.timed_out /\
  rejects (DashboardScenario.env_failing "Pending") (count_of "Accepted"%string)
  = None /\
  rejects (DashboardScenario.env_failing "Accepted") (count_of "Accepted"%string)
  = Some DashboardScenario.timed_out /\
  rejects (DashboardScenario.env_failing "Accepted") (count_of "Pending"%string)
  = None.
Proof.
  cbv zeta. split; [| split; [| repeat split]].
  - rewrite (get_summary_run _ "owner1" DashboardScenario.the_shop);
      [reflexivity | discriminate | reflexivity | reflexivity].
  - rewrite (get_summary_run _ "owner1" DashboardScenario.the_shop);
      [reflexivity | discriminate | reflexivity | reflexivity].
Qed.


End DashboardFacts.

(** * Further properties *)

(** ** GeoMath, further *)

Section MoreGeoMath.

Import GeoMath.

Lemma Math_atan2_le_PI2 (y x : R) :
  0 <= y -> 0 <= x -> Js.Math_atan2 y x <= PI / 2.
Proof.
  intros Hy Hx. unfold Js.Math_atan2. pose proof PI_RGT_0 as Hpi.
  destruct (Rlt_dec 0 x).
  - pose proof (atan_bound (y / x)). lra.
  - destruct (Rlt_dec x 0); [lra |].
    destruct (Rlt_dec 0 y); [lra |].
    destruct (Rlt_dec y 0); lra.
Qed.

(** X2: [calculateDistance] never exceeds half the circumference of the
    sphere, 6371 * PI kilometres, whatever its four arguments are. *)
Theorem calculateDistance_at_most_half_way_round lat1 lon1 lat2 lon2 :
  calculateDistance lat1 lon1 lat2 lon2 <= 6371 * PI.
Proof.
  unfold calculateDistance.
  pose proof (Math_atan2_le_PI2 _ _
                (sqrt_pos (haversine_a lat1 lon1 lat2 lon2))
                (sqrt_pos (1 - haversine_a lat1 lon1 lat2 lon2))).
  lra.
Qed.

Lemma calculateDistance_same lat lon : calculateDistance lat lon lat lon = 0.
Proof.
  unfold calculateDistance.
  rewrite haversine_a_same, sqrt_0, Rminus_0_r, sqrt_1.
  unfold Js.Math_atan2. destruct (Rlt_dec 0 1); [| lra].
  replace (0 / 1) with 0 by lra. rewrite atan_0. lra.
Qed.

End MoreGeoMath.

(** ** [routes/location.js], further *)

Section MoreLocationFacts.

Import Js GeoMath Location LocationCalls.

Lemma issue_shops c w : shops (issue c w) = shops w.
Proof. reflexivity. Qed.

(** X6: [/shops/nearby], [/shops/deliverable] and [/shops/radius] leave
    the shops of the store as they are, and each issues at most one store
    call, whatever the request and whatever the store answers. *)
Theorem discovery_handlers_only_read env body query w :
  let after_nearby := snd (post_shops_nearby env body w) in
  let after_deliverable := snd (post_shops_deliverable env body w) in
  let after_radius := snd (get_shops_radius env query w) in
  (shops after_nearby = shops w /\
   shops after_deliverable = shops w /\
   shops after_radius = shops w) /\
  (exists l, calls after_nearby = calls w ++ l /\ (List.length l <= 1)%nat) /\
  (exists l, calls after_deliverable = calls w ++ l /\
             (List.length l <= 1)%nat) /\
  (exists l, calls after_radius = calls w ++ l /\ (List.length l <= 1)%nat).
Proof.
  cbv zeta.
  rewrite post_shops_nearby_run, post_shops_deliverable_run,
    get_shops_radius_run.
  assert (Hnone : exists l, calls w = calls w ++ l /\ (List.length l <= 1)%nat).
  { exists []. rewrite app_nil_r. simpl. split; [reflexivity | lia]. }
  assert (Hone : forall c, exists l,
             calls (issue c w) = calls w ++ l /\ (List.length l <= 1)%nat).
  { intro c. exists [c]. simpl. split; [reflexivity | lia]. }
  destruct (Body.latitude body) as [| | lat],
           (Body.longitude body) as [| | lon]; simpl;
    try destruct (Reqb lat 0); try destruct (Reqb lon 0); simpl;
    destruct (truthy_string (Query.latitude query)),
             (truthy_string (Query.longitude query)); simpl;
    repeat split;
    first [ exact Hnone
          | eexists; split; [reflexivity | simpl; lia] ].
Qed.

(** X7: when both coordinates of the request are present and the store
    rejects the query of [/shops/nearby], of [/shops/deliverable] or of
    [/shops/radius], the answer is the failure 500 [Server error] with the
    message of the store. *)
Theorem discovery_reports_a_store_failure env body query w lat lon e :
  Body.latitude body = JNumber lat -> Body.longitude body = JNumber lon ->
  lat <> 0 -> lon <> 0 ->
  truthy_string (Query.latitude query) = true ->
  truthy_string (Query.longitude query) = true ->
  (rejects env (find_near (JNumber lon, JNumber lat)
                          (value_or (Body.maxDistance body) 10 * 1000))
   = Some e ->
   fst (post_shops_nearby env body w) = failure 500 "Server error" (Some e)) /\
  (rejects env (aggregate (deliverable_pipeline (Num lon) (Num lat)))
   = Some e ->
   fst (post_shops_deliverable env body w)
   = failure 500 "Server error" (Some e)) /\
  (rejects env
     (aggregate
        (radius_pipeline (parseFloat_param (Query.longitude query))
           (parseFloat_param (Query.latitude query))
           (number_or (parseFloat_param (Query.radius query)) 5)))
   = Some e ->
   fst (get_shops_radius env query w) = failure 500 "Server error" (Some e)).
Proof.
  intros Hlat Hlon Hlat0 Hlon0 Hqlat Hqlon.
  rewrite post_shops_nearby_run, post_shops_deliverable_run,
    get_shops_radius_run.
  rewrite Hlat, Hlon, Hqlat, Hqlon.
  apply Reqb_false in Hlat0, Hlon0. rewrite Hlat0, Hlon0. simpl.
  repeat split; intros ->; reflexivity.
Qed.

(** For X7: the three handlers when the store fails every call. *)
Lemma discovery_store_down_witness :
  fst (post_shops_nearby MoreScenarios.env_down (Scenario.body undefined)
         (Scenario.world [Scenario.A]))
  = failure 500 "Server error" (Some MoreScenarios.unreachable) /\
  fst (post_shops_deliverable MoreScenarios.env_down (Scenario.body undefined)
         (Scenario.world [Scenario.A]))
  = failure 500 "Server error" (Some MoreScenarios.unreachable) /\
  fst (get_shops_radius MoreScenarios.env_down
         (MoreScenarios.query "12.9716" "77.5946" None)
         (Scenario.world [Scenario.A]))
  = failure 500 "Server error" (Some MoreScenarios.unreachable).
Proof.
  destruct scenario_origin_nonzero as [Hlat Hlon].
  destruct (discovery_reports_a_store_failure MoreScenarios.env_down
              (Scenario.body undefined)
              (MoreScenarios.query "12.9716" "77.5946" None)
              (Scenario.world [Scenario.A])
              Scenario.origin_lat Scenario.origin_lon MoreScenarios.unreachable
              eq_refl eq_refl Hlat Hlon eq_refl eq_refl)
    as (Hnear & Hdeliv & Hradius).
  split; [now apply Hnear | split; [now apply Hdeliv | now apply Hradius]].
Defined.

(** *** Saving a location *)

Lemma update_by_id_found id f l s :
  (forall t, _id (f t) = _id t) ->
  find (has_id id) l = Some s ->
  exists l',
    update_by_id id f l = (Some (f s), l') /\
    find (has_id id) l' = Some (f s) /\
    In (f s) l' /\
    List.length l' = List.length l /\
    (forall t, _id t <> id -> (In t l' <-> In t l)).
Proof.
  intros Hf. unfold has_id. induction l as [| t l IH]; simpl; [discriminate |].
  destruct (String.eqb (_id t) id) eqn:Ht.
  - intros [= ->]. exists (f s :: l). simpl. rewrite Hf, Ht.
    repeat split; auto.
    + intros [<- | Hin]; [| now right].
      apply String.eqb_eq in Ht. rewrite Hf in H. congruence.
    + intros [<- | Hin]; [| now right].
      apply String.eqb_eq in Ht. congruence.
  - intro Hfind. destruct (IH Hfind) as (l' & Hup & Hfind' & Hin & Hlen & Hrest).
    exists (t :: l'). rewrite Hup. simpl. rewrite Ht.
    repeat split; auto.
    + intros [<- | Hin']; [now left | right; now apply Hrest].
    + intros [<- | Hin']; [now left | right; now apply Hrest].
Qed.

Lemma update_by_id_missing id f l :
  find (has_id id) l = None -> update_by_id id f l = (None, l).
Proof.
  unfold has_id. induction l as [| t l IH]; simpl; [reflexivity |].
  destruct (String.eqb (_id t) id); [discriminate |].
  intro Hfind. now rewrite (IH Hfind).
Qed.

Lemma find_has_id id l s : find (has_id id) l = Some s -> _id s = id.
Proof.
  intro H. apply find_some in H as [_ H]. now apply String.eqb_eq.
Qed.

(** X8: with all four fields present, [/shop/location] refuses a latitude
    outside [-90, 90] or a longitude outside [-180, 180] with the failure
    400 [Invalid coordinates], and issues no store call. *)
Theorem save_location_refuses_a_point_out_of_range
    env id lat lon km maxDistance w :
  id <> EmptyString -> lat <> 0 -> lon <> 0 -> km <> 0 ->
  lat < -90 \/ 90 < lat \/ lon < -180 \/ 180 < lon ->
  post_shop_location env
    (Scenario.body_of (Some id) (JNumber lat) (JNumber lon) (JNumber km)
        maxDistance) w
  = (Location.failure 400 "Invalid coordinates" None, w).
Proof.
  intros Hid Hlat Hlon Hkm Hrange.
  rewrite post_shop_location_run by assumption.
  replace (Rltb lat (-90) || Rltb 90 lat || Rltb lon (-180) || Rltb 180 lon)%bool
    with true; [reflexivity |].
  symmetry. rewrite !orb_true_iff, !Rltb_true. tauto.
Qed.

(** For X8: the latitude 95 and the longitude -200. *)
Lemma save_location_out_of_range_witness :
  post_shop_location Scenario.env
    (Scenario.body_of (Some "shop1"%string) (JNumber 95) (JNumber (-200))
        (JNumber 5) undefined) (Scenario.world [Scenario.A])
  = (Location.failure 400 "Invalid coordinates" None,
     Scenario.world [Scenario.A]).
Proof.
  apply save_location_refuses_a_point_out_of_range;
    [discriminate | intro; lra | intro; lra | intro; lra | right; left; lra].
Defined.

Lemma post_shop_location_accepted env id lat lon km maxDistance w :
  id <> EmptyString -> lat <> 0 -> lon <> 0 ->
  -90 <= lat <= 90 -> -180 <= lon <= 180 -> 0 < km <= 50 ->
  rejects env (save_call id lat lon km) = None ->
  post_shop_location env
    (Scenario.body_of (Some id) (JNumber lat) (JNumber lon) (JNumber km)
        maxDistance) w
  = let (found, shops') :=
      update_by_id id (set_location lon lat km) (shops w) in
    (match found with
     | Some shop =>
         location_saved (_id shop) (coordinates shop) (deliveryRadius shop)
     | None => Location.failure 404 "Shop not found" None
     end,
     {| shops := shops'; calls := calls w ++ [save_call id lat lon km] |}).
Proof.
  intros Hid Hlat Hlon Hlat_range Hlon_range Hkm Hok.
  assert (Hkm0 : km <> 0) by (intro; lra).
  rewrite post_shop_location_run by assumption.
  replace (Rltb lat (-90)) with false by (symmetry; apply Rltb_false; lra).
  replace (Rltb 90 lat) with false by (symmetry; apply Rltb_false; lra).
  replace (Rltb lon (-180)) with false by (symmetry; apply Rltb_false; lra).
  replace (Rltb 180 lon) with false by (symmetry; apply Rltb_false; lra).
  replace (Rltb km 0) with false by (symmetry; apply Rltb_false; lra).
  replace (Rltb 50 km) with false by (symmetry; apply Rltb_false; lra).
  cbn [orb]. fold (save_call id lat lon km). rewrite Hok. reflexivity.
Qed.

(** X9: an accepted request to [/shop/location] for a shop of the store
    answers with the identifier, the coordinates in the order longitude,
    latitude, and the radius of the request; afterwards the store holds
    that shop with the new location, it holds as many shops as before, the
    shops with another identifier are the same, and the one call issued is
    the update. *)
Theorem save_location_updates_that_shop_only
    env id lat lon km maxDistance w s :
  id <> EmptyString -> lat <> 0 -> lon <> 0 ->
  -90 <= lat <= 90 -> -180 <= lon <= 180 -> 0 < km <= 50 ->
  rejects env (save_call id lat lon km) = None ->
  find (has_id id) (shops w) = Some s ->
  let run :=
    post_shop_location env
      (Scenario.body_of (Some id) (JNumber lat) (JNumber lon) (JNumber km)
          maxDistance) w in
  fst run = location_saved id (lon, lat) km /\
  In (set_location lon lat km s) (shops (snd run)) /\
  List.length (shops (snd run)) = List.length (shops w) /\
  (forall t, _id t <> id -> (In t (shops (snd run)) <-> In t (shops w))) /\
  calls (snd run) = calls w ++ [save_call id lat lon km].
Proof.
  intros Hid Hlat Hlon Hlat_range Hlon_range Hkm Hok Hfind run. unfold run.
  rewrite post_shop_location_accepted by assumption.
  destruct (update_by_id_found id (set_location lon lat km) (shops w) s)
    as (l' & Hup & _ & Hin & Hlen & Hrest); [reflexivity | exact Hfind |].
  rewrite Hup. simpl. rewrite (find_has_id _ _ _ Hfind). auto.
Qed.

(** For X9: a new location for the shop B. *)
Lemma save_location_witness :
  fst (post_shop_location Scenario.env
         (Scenario.body_of (Some "B"%string) (JNumber 13) (JNumber 77.5)
             (JNumber 7) undefined)
         (Scenario.world [Scenario.A; Scenario.B]))
  = location_saved "B" (77.5, 13) 7.
Proof.
  apply (save_location_updates_that_shop_only Scenario.env "B" 13 77.5 7
           undefined (Scenario.world [Scenario.A; Scenario.B]) Scenario.B);
    try lra; try reflexivity; try discriminate; intro; lra.
Defined.

(** X10: an accepted request to [/shop/location] for an identifier that no
    shop of the store has is answered with the failure 404
    [Shop not found], and the shops stay as they are. *)
Theorem save_location_of_an_unknown_shop env id lat lon km maxDistance w :
  id <> EmptyString -> lat <> 0 -> lon <> 0 ->
  -90 <= lat <= 90 -> -180 <= lon <= 180 -> 0 < km <= 50 ->
  rejects env (save_call id lat lon km) = None ->
  (forall s, In s (shops w) -> _id s <> id) ->
  let run :=
    post_shop_location env
      (Scenario.body_of (Some id) (JNumber lat) (JNumber lon) (JNumber km)
          maxDistance) w in
  fst run = Location.failure 404 "Shop not found" None /\
  shops (snd run) = shops w.
Proof.
  intros Hid Hlat Hlon Hlat_range Hlon_range Hkm Hok Hnone run. unfold run.
  rewrite post_shop_location_accepted by assumption.
  rewrite update_by_id_missing; [split; reflexivity |].
  destruct (find (has_id id) (shops w)) as [s |] eqn:Hfind; [| reflexivity].
  pose proof (find_has_id _ _ _ Hfind) as Hs.
  apply find_some in Hfind as [Hin _]. now apply Hnone in Hin.
Qed.

(** For X10: a location for the identifier Z, which no shop has. *)
Lemma save_location_unknown_shop_witness :
  fst (post_shop_location Scenario.env
         (Scenario.body_of (Some "Z"%string) (JNumber 13) (JNumber 77.5)
             (JNumber 7) undefined)
         (Scenario.world [Scenario.A; Scenario.B]))
  = Location.failure 404 "Shop not found" None.
Proof.
  apply (save_location_of_an_unknown_shop Scenario.env "Z" 13 77.5 7
           undefined (Scenario.world [Scenario.A; Scenario.B]));
    try lra; try reflexivity; try discriminate; try (intro; lra).
  intros s [<- | [<- | []]]; discriminate.
Defined.

(** *** [/shops/radius] *)










(** *** Saving, then reading *)

Lemma round2_0 : round2 0 = 0.
Proof.
  unfold round2, round_half_even.
  replace (0 * 100) with (IZR 0) by (simpl; lra).
  rewrite ZfloorZ. destruct (Rlt_dec (IZR 0 - IZR 0) (/ 2)); simpl; lra.
Qed.

(** X11: after [/shop/location] has saved a location for a shop that is
    active and approved, [/shops/deliverable] asked at that very point
    returns the shop with its new location at distance 0, provided the
    store measures the distance 0 from a point to itself and answers both
    calls. *)
Theorem saved_shop_is_deliverable_at_its_own_point
    env id lat lon km maxDistance w s :
  id <> EmptyString -> lat <> 0 -> lon <> 0 ->
  -90 <= lat <= 90 -> -180 <= lon <= 180 -> 0 < km <= 50 ->
  rejects env (save_call id lat lon km) = None ->
  rejects env (aggregate (deliverable_pipeline (Num lon) (Num lat))) = None ->
  find (has_id id) (shops w) = Some s -> visible s = true ->
  geoDistance env (lon, lat) (lon, lat) = 0 ->
  let body :=
    Scenario.body_of (Some id) (JNumber lat) (JNumber lon) (JNumber km)
      maxDistance in
  let saved := snd (post_shop_location env body w) in
  exists count data w',
    post_shops_deliverable env body saved
    = (aggregated_shops count None data, w') /\
    In {| doc_shop := set_location lon lat km s;
          doc_distance := 0;
          doc_withinDeliveryRadius := None |} data.
Proof.
  intros Hid Hlat Hlon Hlat_range Hlon_range Hkm Hsave Hquery Hfind Hvis
         Hzero body saved.
  destruct (post_shops_deliverable_answers env body saved lat lon
              eq_refl eq_refl Hlat Hlon Hquery) as [data Hrun].
  do 3 eexists. split; [exact Hrun |].
  pose proof Hrun as Hrun'.
  apply post_shops_deliverable_success in Hrun'
    as (lat' & lon' & Hlat' & Hlon' & Hpipe & _).
  injection Hlat' as <-. injection Hlon' as <-.
  apply (deliverable_pipeline_In _ _ _ _ _ Hpipe).
  exists (set_location lon lat km s).
  assert (Hin : In (set_location lon lat km s) (shops saved)).
  { unfold saved, body.
    rewrite post_shop_location_accepted by assumption.
    destruct (update_by_id_found id (set_location lon lat km) (shops w) s)
      as (l' & Hup & _ & Hin & _); [reflexivity | exact Hfind |].
    now rewrite Hup. }
  assert (Hkm0 : distanceKm env (lon, lat) (set_location lon lat km s) = 0).
  { unfold distanceKm. simpl. rewrite Hzero. lra. }
  repeat split; [exact Hin | exact Hvis | rewrite Hkm0; simpl; lra |].
  now rewrite Hkm0, round2_0.
Qed.

(** For X11: the shop B, saved at (13, 77.5) and asked for there. *)
Lemma saved_shop_is_deliverable_witness :
  exists count data w',
    post_shops_deliverable Scenario.env
      (Scenario.body_of (Some "B"%string) (JNumber 13) (JNumber 77.5)
          (JNumber 7) undefined)
      (snd (post_shop_location Scenario.env
              (Scenario.body_of (Some "B"%string) (JNumber 13) (JNumber 77.5)
                  (JNumber 7) undefined)
              (Scenario.world [Scenario.A; Scenario.B])))
    = (aggregated_shops count None data, w') /\
    In {| doc_shop := set_location 77.5 13 7 Scenario.B;
          doc_distance := 0;
          doc_withinDeliveryRadius := None |} data.
Proof.
  apply (saved_shop_is_deliverable_at_its_own_point Scenario.env "B" 13 77.5
           7 undefined (Scenario.world [Scenario.A; Scenario.B]) Scenario.B);
    try lra; try reflexivity; try discriminate; try (intro; lra).
  simpl. rewrite calculateDistance_same. lra.
Defined.

(** X15: after [/shop/location] has saved a location for a shop,
    [/shop/:shopId/status] reports for it [locationSet] true,
    [hasCoordinates] true and the saved radius. *)
Theorem status_after_saving_a_location env id lat lon km maxDistance w s :
  id <> EmptyString -> lat <> 0 -> lon <> 0 ->
  -90 <= lat <= 90 -> -180 <= lon <= 180 -> 0 < km <= 50 ->
  rejects env (save_call id lat lon km) = None ->
  find (has_id id) (shops w) = Some s ->
  let saved :=
    snd (post_shop_location env
           (Scenario.body_of (Some id) (JNumber lat) (JNumber lon)
              (JNumber km) maxDistance) w) in
  fst (LocationStatus.get_shop_status None id saved)
  = LocationStatus.shop_status
      {| LocationStatus.status_locationSet := true;
         LocationStatus.hasCoordinates := true;
         LocationStatus.status_deliveryRadius := km |}.
Proof.
  intros Hid Hlat Hlon Hlat_range Hlon_range Hkm Hsave Hfind saved.
  assert (Hfound : find (has_id id) (shops saved)
                   = Some (set_location lon lat km s)).
  { unfold saved. rewrite post_shop_location_accepted by assumption.
    destruct (update_by_id_found id (set_location lon lat km) (shops w) s)
      as (l' & Hup & Hfind' & _); [reflexivity | exact Hfind |].
    now rewrite Hup. }
  unfold LocationStatus.get_shop_status, LocationStatus.Shop_findById,
    Async.try_catch, Async.bind, Async.ret.
  fold (has_id id). rewrite Hfound. simpl.
  apply Reqb_false in Hlon. rewrite Hlon. reflexivity.
Qed.

(** For X15: the status of the shop B after its location is saved. *)
Lemma status_after_saving_witness :
  fst (LocationStatus.get_shop_status None "B"
         (snd (post_shop_location Scenario.env
                 (Scenario.body_of (Some "B"%string) (JNumber 13)
                    (JNumber 77.5) (JNumber 7) undefined)
                 (Scenario.world [Scenario.A; Scenario.B]))))
  = LocationStatus.shop_status
      {| LocationStatus.status_locationSet := true;
         LocationStatus.hasCoordinates := true;
         LocationStatus.status_deliveryRadius := 7 |}.
Proof.
  apply (status_after_saving_a_location Scenario.env "B" 13 77.5 7 undefined
           (Scenario.world [Scenario.A; Scenario.B]) Scenario.B);
    try lra; try reflexivity; try discriminate; intro; lra.
Defined.

(** X16: [/shop/:shopId/status] answers 500 [Server error] with the
    message of the store when the lookup fails and 404 [Shop not found]
    when no shop has the identifier; for a shop it reports the
    [locationSet] and the [deliveryRadius] of the shop, and
    [hasCoordinates] is false exactly when the coordinates are (0, 0).
    The world is left as it is in every case. *)
Theorem status_of_a_shop rejected id w :
  let response := fst (LocationStatus.get_shop_status rejected id w) in
  (forall e, rejected = Some e ->
     response = LocationStatus.failure 500 "Server error" (Some e)) /\
  (rejected = None -> find (has_id id) (shops w) = None ->
     response = LocationStatus.failure 404 "Shop not found" None) /\
  (forall s, rejected = None -> find (has_id id) (shops w) = Some s ->
     exists data,
       response = LocationStatus.shop_status data /\
       LocationStatus.status_locationSet data = locationSet s /\
       LocationStatus.status_deliveryRadius data = deliveryRadius s /\
       (LocationStatus.hasCoordinates data = false
        <-> coordinates s = (0, 0))) /\
  snd (LocationStatus.get_shop_status rejected id w) = w.
Proof.
  unfold LocationStatus.get_shop_status, LocationStatus.Shop_findById,
    Async.try_catch, Async.bind, Async.ret.
  fold (has_id id). cbv zeta.
  split; [| split; [| split]].
  - intros e ->. reflexivity.
  - intros -> ->. reflexivity.
  - intros s -> ->. simpl. eexists. split; [reflexivity |]. simpl.
    split; [apply orb_false_r |]. split; [reflexivity |].
    destruct (coordinates s) as [x y]. simpl.
    rewrite orb_false_iff, !negb_false_iff, !Reqb_true.
    split; [intros [-> ->]; reflexivity | intros [= -> ->]; auto].
  - destruct rejected; [reflexivity |].
    destruct (find (has_id id) (shops w)); reflexivity.
Qed.

End MoreLocationFacts.

(** ** [routes/dashboard.js], further *)

Section MoreDashboardFacts.

Import Dashboard DashboardCounts.

(** *** The counts of the summary *)

Lemma filter_length_le2 {A : Type} (p q : A -> bool) (l : list A) :
  (forall x, p x = true -> q x = true) ->
  (List.length (filter p l) <= List.length (filter q l))%nat.
Proof.
  intro Himp. induction l as [| x l IH]; simpl; [lia |].
  destruct (p x) eqn:Hp.
  - rewrite (Himp x Hp). simpl. lia.
  - destruct (q x); simpl; lia.
Qed.

Lemma filter_length_split {A : Type} (p q r : A -> bool) (l : list A) :
  (forall x, p x = (q x || r x)%bool) ->
  (forall x, q x = true -> r x = false) ->
  List.length (filter p l)
  = (List.length (filter q l) + List.length (filter r l))%nat.
Proof.
  intros Hor Hdisjoint. induction l as [| x l IH]; simpl; [lia |].
  rewrite Hor. destruct (q x) eqn:Hq.
  - rewrite (Hdisjoint x Hq). simpl. lia.
  - destruct (r x); simpl; lia.
Qed.

Lemma filter_length_three {A : Type} (p q r t : A -> bool) (l : list A) :
  (forall x, p x = true -> t x = true /\ q x = false /\ r x = false) ->
  (forall x, q x = true -> t x = true /\ r x = false) ->
  (forall x, r x = true -> t x = true) ->
  (List.length (filter p l) + List.length (filter q l)
   + List.length (filter r l) <= List.length (filter t l))%nat.
Proof.
  intros Hp Hq Hr. induction l as [| x l IH]; simpl; [lia |].
  destruct (p x) eqn:Epx.
  - destruct (Hp x Epx) as (-> & -> & ->). simpl. lia.
  - destruct (q x) eqn:Eqx.
    + destruct (Hq x Eqx) as (-> & ->). simpl. lia.
    + destruct (r x) eqn:Erx.
      * rewrite (Hr x Erx). simpl. lia.
      * destruct (t x); simpl; lia.
Qed.

Lemma summary_answers env ownerId shop w :
  ownerId <> EmptyString ->
  find (fun s => String.eqb (Shop.ownerId s) ownerId) (shops w) = Some shop ->
  rejects env (Shop_findOne_call ownerId) = None ->
  (forall c, In c (summary_queries env (Shop._id shop)) ->
     rejects env c = None) ->
  fst (get_summary env (Some ownerId) w) = summary (summary_of env shop w).
Proof.
  intros Hid Hfind Hok Hnone.
  rewrite (get_summary_run _ _ _ _ Hid Hfind Hok).
  now rewrite (first_rejection_none _ _ Hnone).
Qed.

(** X17: in a summary, [products.unavailable] is the number of products of
    the shop that are not available (so it is not negative),
    [products.available] is at most [products.total], the orders pending,
    accepted and completed together are at most [orders.total], and so
    are the orders of today. *)
Theorem summary_counts_are_consistent env ownerId shop w :
  ownerId <> EmptyString ->
  find (fun s => String.eqb (Shop.ownerId s) ownerId) (shops w) = Some shop ->
  rejects env (Shop_findOne_call ownerId) = None ->
  (forall c, In c (summary_queries env (Shop._id shop)) ->
     rejects env c = None) ->
  exists data,
    fst (get_summary env (Some ownerId) w) = summary data /\
    products_unavailable data
    = Z.of_nat (List.length
                  (filter (unavailable_in (Shop._id shop)) (products w))) /\
    (products_available data <= products_total data)%nat /\
    (orders_pending data + orders_accepted data + orders_completed data
     <= orders_total data)%nat /\
    (today_orders data <= orders_total data)%nat.
Proof.
  intros Hid Hfind Hok Hnone.
  rewrite (summary_answers _ _ _ _ Hid Hfind Hok Hnone).
  eexists. split; [reflexivity |]. unfold summary_of. cbn -[filter].
  split; [| split; [| split]].
  - rewrite (filter_length_split
               (matches_product {| product_shopId := Shop._id shop;
                                   product_isAvailable := None |})
               (matches_product {| product_shopId := Shop._id shop;
                                   product_isAvailable := Some true |})
               (unavailable_in (Shop._id shop))).
    + lia.
    + intro p. unfold matches_product, unavailable_in. simpl.
      destruct (String.eqb _ _), (Product.isAvailable p); reflexivity.
    + intro p. unfold matches_product, unavailable_in. simpl.
      destruct (String.eqb _ _), (Product.isAvailable p); easy.
  - apply filter_length_le2. intro p. unfold matches_product. simpl.
    destruct (String.eqb _ _); easy.
  - apply filter_length_three; intro o; unfold matches_order; simpl;
      rewrite !andb_true_r;
      destruct (String.eqb (Order.shopId o) (Shop._id shop)); simpl;
        try easy.
    + intro H. apply String.eqb_eq in H. rewrite H. auto.
    + intro H. apply String.eqb_eq in H. rewrite H. auto.
  - apply filter_length_le2. intro o. unfold matches_order. simpl.
    destruct (String.eqb _ _); easy.
Qed.

(** For X17: the summary of the shop of the scenario. *)
Lemma summary_counts_witness :
  exists data,
    fst (get_summary DashboardScenario.env (Some "owner1"%string)
           DashboardScenario.world) = summary data /\
    products_unavailable data
    = Z.of_nat (List.length
                  (filter (unavailable_in "shop1")
                          (products DashboardScenario.world))) /\
    (products_available data <= products_total data)%nat /\
    (orders_pending data + orders_accepted data + orders_completed data
     <= orders_total data)%nat /\
    (today_orders data <= orders_total data)%nat.
Proof.
  apply (summary_counts_are_consistent DashboardScenario.env "owner1"
           DashboardScenario.the_shop DashboardScenario.world);
    [discriminate | reflexivity | reflexivity | reflexivity].
Defined.

(** *** The revenue of today *)

Lemma group_all_total {A : Type} (amount : A -> R) (docs : list A) :
  match group_by (fun _ => None) amount docs with
  | [] => docs = []
  | g :: _ => sum g = total (map amount docs)
  end.
Proof.
  destruct (group_by (fun _ => None) amount docs) as [| g rest] eqn:Hg.
  - destruct docs as [| d docs]; [reflexivity |].
    destruct (group_by_covers (fun _ => None) amount (d :: docs) d)
      as [g [Hin _]]; [now left |].
    rewrite Hg in Hin. destruct Hin.
  - destruct (group_by_In (fun _ : A => None) amount docs g)
      as (Hne & _ & Hsum); [rewrite Hg; now left |].
    assert (Hid : _id g = None).
    { destruct (filter (has_key (fun _ : A => None) (_id g)) docs)
        as [| d rest'] eqn:Hf; [congruence |].
      assert (Hd : In d (filter (has_key (fun _ : A => None) (_id g)) docs))
        by (rewrite Hf; now left).
      apply filter_In in Hd as [_ Hd]. unfold has_key in Hd.
      apply key_eqb_eq in Hd. congruence. }
    rewrite Hid in Hsum. rewrite Hsum. f_equal. f_equal.
    clear. induction docs as [| d docs IH]; simpl; [reflexivity |].
    now rewrite IH.
Qed.

Lemma first_total_or_0_group_all {A : Type} (amount : A -> R) docs :
  first_total_or_0 (group_by (fun _ => None) amount docs)
  = total (map amount docs).
Proof.
  pose proof (group_all_total amount docs) as H.
  destruct (group_by (fun _ => None) amount docs) as [| g rest]; simpl.
  - now subst docs.
  - rewrite <- H. unfold Js.Reqb.
    destruct (Req_dec_T (sum g) 0) as [-> |]; reflexivity.
Qed.

(** X18: in a summary, [revenue.today] is the sum of the amounts of the
    completed orders of the shop created since the midnight before now (0
    when there is none), [today.revenue] is the same number, and
    [revenue.total] is the [totalRevenue] of the shop document, 0 when
    that is missing or zero. *)
Theorem summary_revenue_of_today env ownerId shop w :
  ownerId <> EmptyString ->
  find (fun s => String.eqb (Shop.ownerId s) ownerId) (shops w) = Some shop ->
  rejects env (Shop_findOne_call ownerId) = None ->
  (forall c, In c (summary_queries env (Shop._id shop)) ->
     rejects env c = None) ->
  exists data,
    fst (get_summary env (Some ownerId) w) = summary data /\
    revenue_today data
    = total (map Order.totalAmount
               (filter (completed_since (Shop._id shop)
                          (setHours0 env (now env)))
                       (orders w))) /\
    today_revenue data = revenue_today data /\
    revenue_total data = Js.value_or (Shop.totalRevenue shop) 0.
Proof.
  intros Hid Hfind Hok Hnone.
  rewrite (summary_answers _ _ _ _ Hid Hfind Hok Hnone).
  eexists. split; [reflexivity |]. unfold summary_of. cbn -[filter].
  split; [| split; reflexivity].
  unfold run_order_pipeline. cbn -[filter].
  rewrite first_total_or_0_group_all. reflexivity.
Qed.

(** For X18: the revenue of the shop of the scenario. *)
Lemma summary_revenue_witness :
  exists data,
    fst (get_summary DashboardScenario.env (Some "owner1"%string)
           DashboardScenario.world) = summary data /\
    revenue_today data
    = total (map Order.totalAmount
               (filter (completed_since "shop1"
                          (setHours0 DashboardScenario.env
                             (now DashboardScenario.env)))
                       (orders DashboardScenario.world))) /\
    today_revenue data = revenue_today data /\
    revenue_total data = 0.
Proof.
  apply (summary_revenue_of_today DashboardScenario.env "owner1"
           DashboardScenario.the_shop DashboardScenario.world);
    [discriminate | reflexivity | reflexivity | reflexivity].
Defined.

(** *** The refusals of the summary *)

Lemma get_summary_not_found env ownerId w :
  ownerId <> EmptyString ->
  rejects env (Shop_findOne_call ownerId) = None ->
  find (fun s => String.eqb (Shop.ownerId s) ownerId) (shops w) = None ->
  get_summary env (Some ownerId) w
  = (failure 404 "Shop not found for this owner" None,
     issue (Shop_findOne_call ownerId) w).
Proof.
  intros Hid Hok Hfind.
  unfold get_summary, Async.try_catch, Async.bind.
  destruct ownerId as [| ch rest]; [congruence |].
  unfold Shop_findOne. rewrite read_run, Hok. cbn [issue shops].
  rewrite Hfind. reflexivity.
Qed.

Lemma get_summary_lookup_rejected env ownerId e w :
  ownerId <> EmptyString ->
  rejects env (Shop_findOne_call ownerId) = Some e ->
  get_summary env (Some ownerId) w
  = (failure 500 "Failed to load dashboard summary" (Some e),
     issue (Shop_findOne_call ownerId) w).
Proof.
  intros Hid Hrej.
  unfold get_summary, Async.try_catch, Async.bind.
  destruct ownerId as [| ch rest]; [congruence |].
  unfold Shop_findOne. rewrite read_run, Hrej. reflexivity.
Qed.

(** X19: [/summary/:ownerId] answers 400 [ownerId is required] to a
    missing or empty owner without a store call; after the one lookup of
    the shop it answers 404 [Shop not found for this owner] when there is
    no such shop, and 500 [Failed to load dashboard summary] with the
    message of the store when the lookup fails.  None of the eight
    queries is issued in these cases. *)
Theorem summary_refusals env w :
  get_summary env None w = (failure 400 "ownerId is required" None, w) /\
  get_summary env (Some EmptyString) w
  = (failure 400 "ownerId is required" None, w) /\
  (forall ownerId,
     ownerId <> EmptyString ->
     rejects env (Shop_findOne_call ownerId) = None ->
     find (fun s => String.eqb (Shop.ownerId s) ownerId) (shops w) = None ->
     get_summary env (Some ownerId) w
     = (failure 404 "Shop not found for this owner" None,
        issue (Shop_findOne_call ownerId) w)) /\
  (forall ownerId e,
     ownerId <> EmptyString ->
     rejects env (Shop_findOne_call ownerId) = Some e ->
     get_summary env (Some ownerId) w
     = (failure 500 "Failed to load dashboard summary" (Some e),
        issue (Shop_findOne_call ownerId) w)).
Proof.
  split; [reflexivity |]. split; [reflexivity |]. split.
  - intros ownerId. apply get_summary_not_found.
  - intros ownerId e. apply get_summary_lookup_rejected.
Qed.

(** *** The groups of the statistics add up *)









(** *** What the handlers leave alone *)

Lemma get_stats_run env shopId days w :
  exists response,
    get_stats env shopId days w
    = (response,
       issue (Product_aggregate_call shopId)
         (issue (Order_aggregate_call
                   (daily_pipeline shopId
                      (setDate_minus (now env)
                         match days with
                         | Some d => Js.parseInt d
                         | None => Some 7%Z
                         end))) w)).
Proof.
  unfold get_stats, Async.try_catch, Async.bind.
  unfold Order_aggregate, Product_aggregate.
  rewrite both_read, read_run. cbn [fst snd]. unfold daily_pipeline.
  destruct (rejects env (Order_aggregate_call _));
    [eexists; reflexivity |].
  cbn [order_match order_createdAt_gte].
  destruct (setDate_minus _ _);
    destruct (rejects env (Product_aggregate_call shopId));
    eexists; reflexivity.
Qed.

(** X21: [/summary/:ownerId] and [/stats/:shopId] leave the shops, the
    products and the orders as they are.  The summary issues no call, the
    lookup alone, or the lookup and the eight queries; the statistics
    always issue their two aggregations, in the order of the array. *)
Theorem dashboard_handlers_only_read env ownerId shopId days w :
  let after_summary := snd (get_summary env ownerId w) in
  let after_stats := snd (get_stats env shopId days w) in
  (shops after_summary = shops w /\ products after_summary = products w /\
   orders after_summary = orders w /\
   exists issued,
     calls after_summary = calls w ++ issued /\
     (List.length issued = 0 \/ List.length issued = 1
      \/ List.length issued = 9)%nat) /\
  (shops after_stats = shops w /\ products after_stats = products w /\
   orders after_stats = orders w /\
   exists daily,
     calls after_stats
     = calls w ++ [Order_aggregate_call daily;
                   Product_aggregate_call shopId]).
Proof.
  cbv zeta. split.
  - destruct ownerId as [[| ch rest] |].
    + repeat split; try reflexivity. exists []. rewrite app_nil_r. auto.
    + set (ownerId := String ch rest).
      destruct (rejects env (Shop_findOne_call ownerId)) as [e |] eqn:Hrej.
      * rewrite (get_summary_lookup_rejected env ownerId e w) by easy.
        repeat split; try reflexivity.
        eexists. split; [reflexivity | auto].
      * destruct (find (fun s => String.eqb (Shop.ownerId s) ownerId)
                       (shops w)) as [shop |] eqn:Hfind.
        -- rewrite (get_summary_run env ownerId shop w) by easy.
           repeat split; try reflexivity.
           eexists. split; [reflexivity | auto].
        -- rewrite (get_summary_not_found env ownerId w) by easy.
           repeat split; try reflexivity.
           eexists. split; [reflexivity | auto].
    + repeat split; try reflexivity. exists []. rewrite app_nil_r. auto.
  - destruct (get_stats_run env shopId days w) as [response ->].
    repeat split; try reflexivity.
    eexists. unfold issue. cbn [calls snd].
    rewrite <- app_assoc. reflexivity.
Qed.

(** X22: [/stats/:shopId] does not look the shop up: for an identifier
    that no order and no product carries the answer is a success with two
    empty lists. *)
Theorem stats_of_a_shop_without_documents env shopId days n w :
  match days with Some d => Js.parseInt d | None => Some 7%Z end = Some n ->
  rejects env (Order_aggregate_call
                 (daily_pipeline shopId (Some (now env - n * day_ms)%Z)))
  = None ->
  rejects env (Product_aggregate_call shopId) = None ->
  (forall o, In o (orders w) -> Order.shopId o <> shopId) ->
  (forall p, In p (products w) -> Product.shopId p <> shopId) ->
  fst (get_stats env shopId days w) = stats [] [].
Proof.
  intros Hdays Horders Hproducts Hno_order Hno_product.
  rewrite (get_stats_answers _ _ _ _ _ Hdays Horders Hproducts).
  unfold run_order_pipeline, daily_pipeline.
  cbn [fst order_match order_group order_sort_id].
  rewrite (no_order_matches _ _ _ _ Hno_order).
  replace (filter _ (products w)) with (@nil Product.t); [reflexivity |].
  symmetry. clear - Hno_product.
  induction (products w) as [| p l IH]; [reflexivity |].
  simpl. unfold matches_product at 1. simpl.
  replace (String.eqb (Product.shopId p) shopId) with false.
  - simpl. apply IH. intros q Hq. apply Hno_product. now right.
  - symmetry. apply String.eqb_neq. apply Hno_product. now left.
Qed.

(** For X22: the statistics of an identifier that nothing carries. *)
Lemma stats_of_an_unknown_shop_witness :
  fst (get_stats DashboardScenario.env "shop2" None DashboardScenario.world)
  = stats [] [].
Proof.
  apply (stats_of_a_shop_without_documents DashboardScenario.env "shop2"
           None 7 DashboardScenario.world eq_refl eq_refl eq_refl).
  - intros o Ho. simpl in Ho.
    repeat (destruct Ho as [<- | Ho]; [discriminate |]). destruct Ho.
  - intros p Hp. simpl in Hp.
    repeat (destruct Hp as [<- | Hp]; [discriminate |]). destruct Hp.
Defined.

End MoreDashboardFacts.

(** ** The lists of [routes/dashboard.js] *)

Section ListFacts.

Import Dashboard DashboardLists.

(** *** Windows of a sorted list *)

Lemma In_firstn {A : Type} n (l : list A) x : In x (firstn n l) -> In x l.
Proof.
  intro H. rewrite <- (firstn_skipn n l). apply in_or_app. now left.
Qed.

Lemma In_skipn {A : Type} n (l : list A) x : In x (skipn n l) -> In x l.
Proof.
  intro H. rewrite <- (firstn_skipn n l). apply in_or_app. now right.
Qed.

Lemma StronglySorted_skipn {A : Type} (P : A -> A -> Prop) n (l : list A) :
  StronglySorted P l -> StronglySorted P (skipn n l).
Proof.
  revert l. induction n as [| n IH]; intros l Hs; [exact Hs |].
  destruct l as [| x l]; [constructor |].
  simpl. apply IH. now inversion Hs.
Qed.

Lemma StronglySorted_firstn {A : Type} (P : A -> A -> Prop) n (l : list A) :
  StronglySorted P l -> StronglySorted P (firstn n l).
Proof.
  revert l. induction n as [| n IH]; intros l Hs; [constructor |].
  destruct l as [| x l]; [constructor |].
  simpl. inversion Hs as [| ? ? Hs' Hall]; subst.
  constructor; [now apply IH |].
  apply Forall_forall. intros y Hy. rewrite Forall_forall in Hall.
  apply Hall. eapply In_firstn. exact Hy.
Qed.


Lemma newest_first_sorted {A : Type} (createdAt : A -> Z) (l : list A) :
  StronglySorted (fun x y => (createdAt y <= createdAt x)%Z)
                 (newest_first createdAt l).
Proof.
  assert (H : StronglySorted
                (fun x y => Z.leb (createdAt y) (createdAt x) = true)
                (newest_first createdAt l)).
  { apply (sort_by_sorted (fun x y => Z.leb (createdAt y) (createdAt x))).
    - intros x y. rewrite !Z.leb_le. lia.
    - intros x y z. rewrite !Z.leb_le. lia. }
  induction H as [| a l' Hs IH Hall]; constructor; [exact IH |].
  eapply Forall_impl; [| exact Hall].
  intros b Hb. now apply Z.leb_le.
Qed.

Lemma newest_first_In {A : Type} (createdAt : A -> Z) (l : list A) x :
  In x (newest_first createdAt l) <-> In x l.
Proof. apply sort_by_In. Qed.

Lemma newest_first_length {A : Type} (createdAt : A -> Z) (l : list A) :
  List.length (newest_first createdAt l) = List.length l.
Proof.
  symmetry. apply Permutation_length, sort_by_perm.
Qed.

Lemma page_of_sorted {A : Type} (createdAt : A -> Z) p n (l : list A) :
  StronglySorted (fun x y => (createdAt y <= createdAt x)%Z)
                 (page_of p n (newest_first createdAt l)).
Proof.
  apply StronglySorted_firstn, StronglySorted_skipn, newest_first_sorted.
Qed.

Lemma page_of_In {A : Type} (createdAt : A -> Z) p n (l : list A) x :
  In x (page_of p n (newest_first createdAt l)) -> In x l.
Proof.
  intro H. apply In_firstn, In_skipn in H. now apply newest_first_In in H.
Qed.

Lemma page_of_length {A : Type} p n (l : list A) :
  (1 <= p)%Z -> (1 <= n)%Z ->
  Z.of_nat (List.length (page_of p n l))
  = Z.max 0 (Z.min n (Z.of_nat (List.length l) - (p - 1) * n)).
Proof.
  intros Hp Hn. unfold page_of. rewrite length_firstn, length_skipn. nia.
Qed.

(** *** The page arithmetic *)

Lemma count_of_IZR (k : Z) :
  (0 <= k)%Z -> count_of (IZR k) = Some (Z.to_nat k).
Proof.
  intro Hk. unfold count_of. rewrite ZfloorZ.
  replace (Js.Rleb 0 (IZR k)) with true
    by (symmetry; apply Rleb_true; now apply IZR_le).
  replace (Js.Reqb (IZR k) (IZR k)) with true
    by (symmetry; now apply Reqb_true).
  reflexivity.
Qed.

Lemma skip_of_page p n :
  times (minus_one (Num (IZR p))) (Num (IZR n)) = Num (IZR ((p - 1) * n)).
Proof.
  simpl. now rewrite mult_IZR, minus_IZR.
Qed.

Lemma window_of_page env p n :
  (1 <= p)%Z -> (1 <= n)%Z ->
  window env (Some (Num (IZR ((p - 1) * n)))) (Some n)
  = Async.Resolved (Z.to_nat ((p - 1) * n), Some (Z.to_nat n)).
Proof.
  intros Hp Hn. unfold window. rewrite count_of_IZR by nia.
  replace (0 <? n)%Z with true by (symmetry; apply Z.ltb_lt; lia).
  reflexivity.
Qed.

Lemma window_of_limit env n :
  (1 <= n)%Z ->
  window env None (Some n) = Async.Resolved (O, Some (Z.to_nat n)).
Proof.
  intro Hn. unfold window.
  replace (0 <? n)%Z with true by (symmetry; apply Z.ltb_lt; lia).
  reflexivity.
Qed.

Lemma found_page {A : Type} env p n (createdAt : A -> Z) matched :
  (1 <= p)%Z -> (1 <= n)%Z ->
  found env (Some (Num (IZR ((p - 1) * n)))) (Some n) createdAt matched
  = Async.Resolved (page_of p n (newest_first createdAt matched)).
Proof.
  intros Hp Hn. unfold found. now rewrite window_of_page.
Qed.

Lemma ceil_of_ratio_bounds total n :
  (1 <= n)%Z ->
  exists k,
    ceil_of_ratio total (Num (IZR n)) = Some k /\
    ((k - 1) * n < Z.of_nat total <= k * n)%Z.
Proof.
  intro Hn. unfold ceil_of_ratio.
  assert (Hpos : 0 < IZR n) by (apply IZR_lt; lia).
  replace (Js.Reqb (IZR n) 0) with false
    by (symmetry; apply Reqb_false; lra).
  eexists. split; [reflexivity |].
  set (t := Z.of_nat total).
  pose proof (Zceil_bound (IZR t / IZR n)) as [Hlo Hhi].
  set (k := Zceil (IZR t / IZR n)) in *.
  assert (Hq : IZR t = IZR t / IZR n * IZR n) by (field; lra).
  split.
  - apply lt_IZR. rewrite mult_IZR, minus_IZR. rewrite Hq.
    apply Rmult_lt_compat_r; assumption.
  - apply le_IZR. rewrite mult_IZR. rewrite Hq.
    apply Rmult_le_compat_r; lra.
Qed.

Lemma plus_less_page p n returned total :
  plus_less (Num (IZR ((p - 1) * n))) returned total = true
  <-> ((p - 1) * n + Z.of_nat returned < Z.of_nat total)%Z.
Proof.
  unfold plus_less. rewrite Rltb_true, <- plus_IZR.
  split; [apply lt_IZR | apply IZR_lt].
Qed.

(** *** [/orders/:shopId] *)

Lemma get_orders_run env shopId page limit status p n w :
  reads_as 1 p page -> reads_as 10 n limit -> (1 <= p)%Z -> (1 <= n)%Z ->
  let query := orders_query shopId status in
  let skip := Num (IZR ((p - 1) * n)) in
  rejects env (Order_find_call query (Some skip) (Some n)) = None ->
  rejects env (Order_countDocuments_call query) = None ->
  let matched := filter (matches_order query) (orders w) in
  let data := page_of p n (newest_first Order.createdAt matched) in
  get_orders env shopId page limit status w
  = (orders_page data
       {| page := Some p; limit := Some n;
          total := List.length matched;
          pages := ceil_of_ratio (List.length matched) (Num (IZR n));
          hasMore := plus_less skip (List.length data) (List.length matched) |},
     issue (Order_countDocuments_call query)
       (issue (Order_find_call query (Some skip) (Some n)) w)).
Proof.
  intros [Hpage Hpage'] [Hlimit Hlimit'] Hp Hn query skip Hfind Hcount
         matched data.
  unfold get_orders, pagination_of.
  rewrite Hpage, Hpage', Hlimit, Hlimit', skip_of_page.
  fold (orders_query shopId status). fold query. fold skip.
  unfold Async.try_catch, Async.bind, Async.both, Async.ret.
  unfold Order_find, Order_countDocuments, read.
  rewrite Hfind, Hcount. unfold skip. rewrite found_page by assumption.
  reflexivity.
Qed.

Lemma matches_orders_query shopId status o :
  matches_order (orders_query shopId status) o = true
  <-> Order.shopId o = shopId /\
      forall s, status = Some s -> s <> EmptyString -> Order.status o = s.
Proof.
  unfold matches_order, orders_query. cbn -[String.eqb].
  rewrite andb_true_r, andb_true_iff, String.eqb_eq.
  destruct status as [[| c s] |]; cbn -[String.eqb].
  - split; [intros [H _]; split; [exact H | intros s [= <-]; congruence]
           | intros [H _]; auto].
  - rewrite String.eqb_eq.
    split; [intros [H H']; split; [exact H | intros s' [= <-] _; exact H']
           | intros [H H']; split; [exact H | apply H'; easy]].
  - split; [intros [H _]; split; [exact H | discriminate]
           | intros [H _]; auto].
Qed.

Lemma digits_read_as_2 : reads_as 1 2 (Some "2"%string).
Proof.
  split; [| reflexivity].
  unfold to_number, StringToNumber, StrDecimalLiteral. simpl. f_equal. lra.
Qed.

Lemma absent_reads_as default : reads_as default default None.
Proof. split; reflexivity. Qed.

(** X23: when [page] reads as the integer [p >= 1] and [limit] as the
    integer [n >= 1] (1 and 10 when absent) and the store answers,
    [/orders/:shopId] returns the page [p] of pages of [n] of the matching
    orders, newest first: at most [n] orders, each an order of the shop
    with the status asked for when one is given and not empty, in
    descending order of [createdAt]; [pagination] repeats [p] and [n],
    and [total] counts all matching orders. *)
Theorem orders_page_is_a_window env shopId page limit status p n w :
  reads_as 1 p page -> reads_as 10 n limit -> (1 <= p)%Z -> (1 <= n)%Z ->
  let query := orders_query shopId status in
  rejects env (Order_find_call query (Some (Num (IZR ((p - 1) * n))))
                 (Some n)) = None ->
  rejects env (Order_countDocuments_call query) = None ->
  exists data pagination,
    fst (get_orders env shopId page limit status w)
    = orders_page data pagination /\
    data = page_of p n
             (newest_first Order.createdAt
                (filter (matches_order query) (orders w))) /\
    (List.length data <= Z.to_nat n)%nat /\
    (forall o, In o data ->
       In o (orders w) /\ Order.shopId o = shopId /\
       forall s, status = Some s -> s <> EmptyString -> Order.status o = s) /\
    StronglySorted
      (fun x y => (Order.createdAt y <= Order.createdAt x)%Z) data /\
    DashboardLists.page pagination = Some p /\ DashboardLists.limit pagination = Some n /\
    total pagination
    = List.length (filter (matches_order query) (orders w)).
Proof.
  intros Hpage Hlimit Hp Hn query Hfind Hcount.
  rewrite (get_orders_run env shopId page limit status p n w)
    by assumption.
  do 2 eexists. split; [reflexivity |]. split; [reflexivity |].
  split; [unfold page_of; rewrite length_firstn; lia |].
  split; [| split; [apply page_of_sorted | repeat split]].
  intros o Ho. apply page_of_In, filter_In in Ho as [Hin Hm].
  apply matches_orders_query in Hm. tauto.
Qed.

(** For X23: the second page of pages of two of the five orders. *)
Lemma orders_page_witness :
  exists data pagination,
    fst (get_orders ListScenario.env "shop1" (Some "2"%string)
           (Some "2"%string) None ListScenario.world)
    = orders_page data pagination /\
    data = [ DashboardScenario.order "Completed" 120 50;
             DashboardScenario.order "Completed" 60 30 ] /\
    DashboardLists.page pagination = Some 2%Z /\ DashboardLists.limit pagination = Some 2%Z /\
    total pagination = 5%nat.
Proof.
  destruct (orders_page_is_a_window ListScenario.env "shop1"
              (Some "2"%string) (Some "2"%string) None 2 2
              ListScenario.world digits_read_as_2)
    as (data & pagination & Hrun & Hdata & _ & _ & _ & Hp & Hl & Ht);
    [| lia | lia | reflexivity | reflexivity |].
  - split; [| reflexivity].
    unfold to_number, StringToNumber, StrDecimalLiteral. simpl. f_equal. lra.
  - exists data, pagination. repeat split; assumption.
Defined.

(** X24: under the same conditions, [pages] is the least [k] with
    [total <= k * n]; [hasMore] is true exactly when [p < k]; a page
    before the last one is full, a page up to the last one is not empty,
    and a page after the last one is empty. *)
Theorem orders_page_arithmetic env shopId page limit status p n w :
  reads_as 1 p page -> reads_as 10 n limit -> (1 <= p)%Z -> (1 <= n)%Z ->
  let query := orders_query shopId status in
  rejects env (Order_find_call query (Some (Num (IZR ((p - 1) * n))))
                 (Some n)) = None ->
  rejects env (Order_countDocuments_call query) = None ->
  exists data pagination k,
    fst (get_orders env shopId page limit status w)
    = orders_page data pagination /\
    pages pagination = Some k /\
    ((k - 1) * n < Z.of_nat (total pagination) <= k * n)%Z /\
    (hasMore pagination = true <-> (p < k)%Z) /\
    ((p < k)%Z -> List.length data = Z.to_nat n) /\
    ((p <= k)%Z -> data <> []) /\
    ((k < p)%Z -> data = []).
Proof.
  intros Hpage Hlimit Hp Hn query Hfind Hcount.
  rewrite (get_orders_run env shopId page limit status p n w)
    by assumption.
  fold query.
  set (matched := filter (matches_order query) (orders w)).
  set (sorted := newest_first Order.createdAt matched).
  destruct (ceil_of_ratio_bounds (List.length matched) n Hn)
    as (k & Hk & Hlo & Hhi).
  pose proof (page_of_length p n sorted Hp Hn) as Hlen.
  unfold sorted at 2 in Hlen. rewrite newest_first_length in Hlen.
  eexists (page_of p n sorted), _, k.
  split; [reflexivity |]. cbn [pages total hasMore].
  split; [exact Hk |]. split; [lia |].
  split; [| split; [| split]].
  - rewrite plus_less_page. nia.
  - intro Hlt. nia.
  - intros Hle Hnil. rewrite Hnil in Hlen. simpl in Hlen. nia.
  - intro Hlt. apply length_zero_iff_nil. nia.
Qed.

(** For X24: five orders in pages of two make three pages, and the
    second page has more after it. *)
Lemma orders_page_arithmetic_witness :
  exists data pagination,
    fst (get_orders ListScenario.env "shop1" (Some "2"%string)
           (Some "2"%string) None ListScenario.world)
    = orders_page data pagination /\
    pages pagination = Some 3%Z /\ hasMore pagination = true.
Proof.
  destruct (orders_page_arithmetic ListScenario.env "shop1"
              (Some "2"%string) (Some "2"%string) None 2 2
              ListScenario.world digits_read_as_2 digits_read_as_2)
    as (data & pagination & k & Hrun & Hk & Hbounds & Hmore & _);
    [lia | lia | reflexivity | reflexivity |].
  assert (Htotal : total pagination = 5%nat).
  { rewrite (get_orders_run ListScenario.env "shop1" (Some "2"%string)
               (Some "2"%string) None 2 2 ListScenario.world) in Hrun;
      [| exact digits_read_as_2 | exact digits_read_as_2
       | lia | lia | reflexivity | reflexivity ].
    injection Hrun as _ <-. reflexivity. }
  rewrite Htotal in Hbounds.
  assert (k = 3%Z) by lia. subst k.
  exists data, pagination. split; [exact Hrun |]. split; [exact Hk |].
  apply Hmore. lia.
Defined.

(** *** [/products/:shopId] *)

Lemma get_products_run env shopId page limit isAvailable p n w :
  reads_as 1 p page -> reads_as 10 n limit -> (1 <= p)%Z -> (1 <= n)%Z ->
  let query := products_query shopId isAvailable in
  let skip := Num (IZR ((p - 1) * n)) in
  rejects env (Product_find_call query skip (Some n)) = None ->
  rejects env (Product_countDocuments_call query) = None ->
  let matched := filter (matches_listed query) (products w) in
  let data := page_of p n (newest_first product_createdAt matched) in
  get_products env shopId page limit isAvailable w
  = (products_page data
       {| page := Some p; limit := Some n;
          total := List.length matched;
          pages := ceil_of_ratio (List.length matched) (Num (IZR n));
          hasMore := plus_less skip (List.length data) (List.length matched) |},
     issue (Product_countDocuments_call query)
       (issue (Product_find_call query skip (Some n)) w)).
Proof.
  intros [Hpage Hpage'] [Hlimit Hlimit'] Hp Hn query skip Hfind Hcount
         matched data.
  unfold get_products, pagination_of.
  rewrite Hpage, Hpage', Hlimit, Hlimit', skip_of_page.
  fold (products_query shopId isAvailable). fold query. fold skip.
  unfold Async.try_catch, Async.bind, Async.both, Async.ret.
  unfold Product_find, Product_countDocuments, read.
  rewrite Hfind, Hcount. unfold skip. rewrite found_page by assumption.
  reflexivity.
Qed.

Lemma matches_products_query shopId isAvailable d :
  matches_listed (products_query shopId isAvailable) d = true
  <-> Product.shopId (product d) = shopId /\
      forall s, isAvailable = Some s ->
        Product.isAvailable (product d) = String.eqb s "true".
Proof.
  unfold matches_listed, matches_product, products_query.
  cbn -[String.eqb]. rewrite andb_true_iff, String.eqb_eq.
  destruct isAvailable as [s |].
  - rewrite Bool.eqb_true_iff.
    split; [intros [H H']; split; [exact H | intros s' [= <-]; exact H']
           | intros [H H']; split; [exact H | now apply H']].
  - split; [intros [H _]; split; [exact H | discriminate]
           | intros [H _]; auto].
Qed.

(** X25: under the same conditions on [page] and [limit],
    [/products/:shopId] returns that page of the products of the shop,
    newest first; when [isAvailable] is given, a product is listed exactly
    when its availability equals whether the parameter is the string
    [true], so every other value lists the unavailable products.  [total],
    [pages] and [hasMore] are as for the orders. *)
Theorem products_page_is_a_window env shopId page limit isAvailable p n w :
  reads_as 1 p page -> reads_as 10 n limit -> (1 <= p)%Z -> (1 <= n)%Z ->
  let query := products_query shopId isAvailable in
  rejects env (Product_find_call query (Num (IZR ((p - 1) * n))) (Some n))
  = None ->
  rejects env (Product_countDocuments_call query) = None ->
  exists data pagination k,
    fst (get_products env shopId page limit isAvailable w)
    = products_page data pagination /\
    data = page_of p n
             (newest_first product_createdAt
                (filter (matches_listed query) (products w))) /\
    (forall d, In d data ->
       In d (products w) /\ Product.shopId (product d) = shopId /\
       forall s, isAvailable = Some s ->
         Product.isAvailable (product d) = String.eqb s "true") /\
    StronglySorted
      (fun x y => (product_createdAt y <= product_createdAt x)%Z) data /\
    total pagination
    = List.length (filter (matches_listed query) (products w)) /\
    pages pagination = Some k /\
    ((k - 1) * n < Z.of_nat (total pagination) <= k * n)%Z /\
    (hasMore pagination = true <-> (p < k)%Z).
Proof.
  intros Hpage Hlimit Hp Hn query Hfind Hcount.
  rewrite (get_products_run env shopId page limit isAvailable p n w)
    by assumption.
  fold query.
  set (matched := filter (matches_listed query) (products w)).
  set (sorted := newest_first product_createdAt matched).
  destruct (ceil_of_ratio_bounds (List.length matched) n Hn)
    as (k & Hk & Hlo & Hhi).
  pose proof (page_of_length p n sorted Hp Hn) as Hlen.
  unfold sorted at 2 in Hlen. rewrite newest_first_length in Hlen.
  eexists (page_of p n sorted), _, k.
  split; [reflexivity |]. cbn [pages total hasMore].
  split; [reflexivity |].
  split; [| split; [apply page_of_sorted | split; [reflexivity |]]].
  - intros d Hd. apply page_of_In, filter_In in Hd as [Hin Hm].
    apply matches_products_query in Hm. tauto.
  - split; [exact Hk |]. split; [lia |].
    rewrite plus_less_page. nia.
Qed.

(** For X25: the value [no] of [isAvailable] lists the two
    unavailable products, newest first. *)
Lemma unavailable_products_witness :
  exists data pagination,
    fst (get_products ListScenario.env "shop1" None (Some "2"%string)
           (Some "no"%string) ListScenario.world)
    = products_page data pagination /\
    data = [ ListScenario.listed "dairy" false 30;
             ListScenario.listed "fruit" false 20 ] /\
    hasMore pagination = false.
Proof.
  destruct (products_page_is_a_window ListScenario.env "shop1" None
              (Some "2"%string) (Some "no"%string) 1 2 ListScenario.world
              (absent_reads_as 1) digits_read_as_2)
    as (data & pagination & k & Hrun & Hdata & _ & _ & Ht & Hk & Hbounds
        & Hmore);
    [lia | lia | reflexivity | reflexivity |].
  exists data, pagination. split; [exact Hrun |]. split; [exact Hdata |].
  rewrite Ht in Hbounds. simpl in Hbounds.
  destruct (hasMore pagination); [| reflexivity].
  assert (1 < k)%Z by now apply Hmore. lia.
Defined.

(** *** [/recent-activity/:shopId] *)

Lemma get_recent_activity_run env shopId limit n w :
  to_int 5 limit = Some n -> (1 <= n)%Z ->
  let query := orders_query shopId None in
  rejects env (Order_find_call query None (Some n)) = None ->
  get_recent_activity env shopId limit w
  = (recent_activity
       (firstn (Z.to_nat n)
          (newest_first Order.createdAt
             (filter (matches_order query) (orders w)))),
     issue (Order_find_call query None (Some n)) w).
Proof.
  intros Hlimit Hn query Hfind.
  unfold get_recent_activity, Async.try_catch, Async.bind, Async.ret.
  unfold Order_find, read. rewrite Hlimit.
  change {| order_shopId := shopId; order_status := None;
            order_createdAt_gte := None |} with query.
  rewrite Hfind. unfold found. rewrite window_of_limit by assumption.
  reflexivity.
Qed.

Lemma sorted_app_le {A : Type} (P : A -> A -> Prop) (l1 l2 : list A) :
  StronglySorted P (l1 ++ l2) ->
  forall x y, In x l1 -> In y l2 -> P x y.
Proof.
  induction l1 as [| a l1 IH]; intros Hs x y Hx Hy; [destruct Hx |].
  simpl in Hs. inversion Hs as [| ? ? Hs' Hall]; subst.
  destruct Hx as [<- | Hx].
  - rewrite Forall_forall in Hall. apply Hall, in_or_app. now right.
  - now apply IH.
Qed.

(** X26: when [limit] reads as the integer [n >= 1] through [parseInt] (5
    when absent) and the store answers, [/recent-activity/:shopId] returns
    [n] orders of the shop, or all of them when there are fewer, in
    descending order of [createdAt]; an order of the shop that is newer
    than a returned one is returned too. *)
Theorem recent_activity_is_the_newest_orders env shopId limit n w :
  to_int 5 limit = Some n -> (1 <= n)%Z ->
  rejects env (Order_find_call (orders_query shopId None) None (Some n))
  = None ->
  let of_shop o := String.eqb (Order.shopId o) shopId in
  exists data,
    fst (get_recent_activity env shopId limit w) = recent_activity data /\
    List.length data
    = Nat.min (Z.to_nat n) (List.length (filter of_shop (orders w))) /\
    (forall o, In o data -> In o (orders w) /\ Order.shopId o = shopId) /\
    StronglySorted
      (fun x y => (Order.createdAt y <= Order.createdAt x)%Z) data /\
    (forall o o', In o data -> In o' (orders w) -> Order.shopId o' = shopId ->
       (Order.createdAt o < Order.createdAt o')%Z -> In o' data).
Proof.
  intros Hlimit Hn Hfind of_shop.
  rewrite (get_recent_activity_run env shopId limit n w) by assumption.
  set (query := orders_query shopId None).
  assert (Hsame : filter (matches_order query) (orders w)
                  = filter of_shop (orders w)).
  { apply filter_ext. intro o. unfold matches_order, of_shop. simpl.
    now rewrite !andb_true_r. }
  rewrite Hsame.
  set (sorted := newest_first Order.createdAt (filter of_shop (orders w))).
  eexists. split; [reflexivity |].
  split; [| split; [| split]].
  - rewrite length_firstn. unfold sorted. now rewrite newest_first_length.
  - intros o Ho. apply In_firstn in Ho. apply newest_first_In in Ho.
    apply filter_In in Ho as [Hin Ho]. split; [exact Hin |].
    now apply String.eqb_eq.
  - apply StronglySorted_firstn, newest_first_sorted.
  - intros o o' Ho Hin' Hshop' Hnewer.
    assert (Hsorted' : In o' sorted).
    { apply newest_first_In, filter_In. split; [exact Hin' |].
      now apply String.eqb_eq. }
    rewrite <- (firstn_skipn (Z.to_nat n) sorted) in Hsorted'.
    apply in_app_or in Hsorted' as [H | H]; [exact H |].
    exfalso.
    pose proof (newest_first_sorted Order.createdAt
                  (filter of_shop (orders w))) as Hs.
    fold sorted in Hs. rewrite <- (firstn_skipn (Z.to_nat n) sorted) in Hs.
    pose proof (sorted_app_le _ _ _ Hs o o' Ho H) as Hle.
    simpl in Hle. lia.
Qed.

(** For X26: the recent activity with the default limit. *)
Lemma recent_activity_witness :
  exists data,
    fst (get_recent_activity ListScenario.env "shop1" None
           ListScenario.world) = recent_activity data /\
    List.length data = 5%nat.
Proof.
  destruct (recent_activity_is_the_newest_orders ListScenario.env "shop1"
              None 5 ListScenario.world)
    as (data & Hrun & Hlen & _); [reflexivity | lia | reflexivity |].
  exists data. split; [exact Hrun | exact Hlen].
Defined.

(** *** Failures, and what the lists leave alone *)

(** X27: the two lists and the recent activity leave the products and the
    orders as they are and issue their calls whatever the parameters are:
    the [find] with [(page - 1) * limit] as [skip] and [parseInt(limit)]
    as limit, then the count, for the lists; the one [find] for the recent
    activity. *)
Theorem lists_only_read env shopId page limit status isAvailable w :
  let skip := skip_of page limit in
  let orders_of := orders_query shopId status in
  let products_of := products_query shopId isAvailable in
  snd (get_orders env shopId page limit status w)
  = issue (Order_countDocuments_call orders_of)
      (issue (Order_find_call orders_of (Some skip) (to_int 10 limit)) w) /\
  snd (get_products env shopId page limit isAvailable w)
  = issue (Product_countDocuments_call products_of)
      (issue (Product_find_call products_of skip (to_int 10 limit)) w) /\
  snd (get_recent_activity env shopId limit w)
  = issue (Order_find_call (orders_query shopId None) None (to_int 5 limit))
      w.
Proof.
  cbv zeta. split; [| split].
  - unfold get_orders, Async.try_catch, Async.bind, Async.both, Async.ret,
      Order_find, Order_countDocuments, read.
    fold (orders_query shopId status). fold (skip_of page limit).
    destruct (rejects env (Order_find_call _ _ _)),
      (rejects env (Order_countDocuments_call _)); try reflexivity;
      destruct (found env _ _ _ _); reflexivity.
  - unfold get_products, Async.try_catch, Async.bind, Async.both, Async.ret,
      Product_find, Product_countDocuments, read.
    fold (products_query shopId isAvailable). fold (skip_of page limit).
    destruct (rejects env (Product_find_call _ _ _)),
      (rejects env (Product_countDocuments_call _)); try reflexivity;
      destruct (found env _ _ _ _); reflexivity.
  - unfold get_recent_activity, Async.try_catch, Async.bind, Async.ret,
      Order_find, read.
    change {| order_shopId := shopId; order_status := None;
              order_createdAt_gte := None |} with (orders_query shopId None).
    destruct (rejects env (Order_find_call _ _ _)); try reflexivity;
      destruct (found env _ _ _ _); reflexivity.
Qed.

(** X28: when the store rejects the [find] of [/orders/:shopId], of
    [/products/:shopId] or of [/recent-activity/:shopId], or refuses the
    window of the orders, the answer is the failure 500 with the message
    of the handler ([Failed to load orders], [Failed to load products],
    [Failed to load recent activity]) and the error of the store. *)
Theorem lists_report_a_store_failure env shopId page limit status isAvailable
    w e :
  let skip := skip_of page limit in
  let orders_of := orders_query shopId status in
  let products_of := products_query shopId isAvailable in
  (rejects env (Order_find_call orders_of (Some skip) (to_int 10 limit))
   = Some e ->
   fst (get_orders env shopId page limit status w)
   = failure 500 "Failed to load orders" (Some e)) /\
  (rejects env (Product_find_call products_of skip (to_int 10 limit))
   = Some e ->
   fst (get_products env shopId page limit isAvailable w)
   = failure 500 "Failed to load products" (Some e)) /\
  (rejects env (Order_find_call (orders_query shopId None) None
                  (to_int 5 limit)) = Some e ->
   fst (get_recent_activity env shopId limit w)
   = failure 500 "Failed to load recent activity" (Some e)) /\
  (window env (Some skip) (to_int 10 limit) = Async.Rejected e ->
   rejects env (Order_find_call orders_of (Some skip) (to_int 10 limit))
   = None ->
   fst (get_orders env shopId page limit status w)
   = failure 500 "Failed to load orders" (Some e)).
Proof.
  cbv zeta. split; [| split; [| split]].
  - intro Hrej.
    unfold get_orders, Async.try_catch, Async.bind, Async.both, Async.ret,
      Order_find, Order_countDocuments, read.
    fold (orders_query shopId status). fold (skip_of page limit).
    rewrite Hrej.
    destruct (rejects env (Order_countDocuments_call _)); reflexivity.
  - intro Hrej.
    unfold get_products, Async.try_catch, Async.bind, Async.both, Async.ret,
      Product_find, Product_countDocuments, read.
    fold (products_query shopId isAvailable). fold (skip_of page limit).
    rewrite Hrej.
    destruct (rejects env (Product_countDocuments_call _)); reflexivity.
  - intro Hrej.
    unfold get_recent_activity, Async.try_catch, Async.bind, Async.ret,
      Order_find, read.
    change {| order_shopId := shopId; order_status := None;
              order_createdAt_gte := None |} with (orders_query shopId None).
    now rewrite Hrej.
  - intros Hwindow Hok.
    unfold get_orders, Async.try_catch, Async.bind, Async.both, Async.ret,
      Order_find, Order_countDocuments, read, found.
    fold (orders_query shopId status). fold (skip_of page limit).
    rewrite Hok, Hwindow.
    destruct (rejects env (Order_countDocuments_call _)); reflexivity.
Qed.

(** *** Parameters given in decimal digits *)

Lemma digit_of_cases c d :
  Js.digit_of c = Some d ->
  In c ["0"; "1"; "2"; "3"; "4"; "5"; "6"; "7"; "8"; "9"]%char.
Proof.
  destruct c as [[] [] [] [] [] [] [] []]; intro H;
    try discriminate H; simpl; tauto.
Qed.

Lemma digit_of_range c d : Js.digit_of c = Some d -> (0 <= d <= 9)%Z.
Proof.
  intro H. pose proof (digit_of_cases c d H) as Hin. simpl in Hin.
  repeat (destruct Hin as [<- | Hin];
          [injection H as <-; vm_compute; split; discriminate |]).
  destruct Hin.
Qed.

Lemma read_digits_all s acc count :
  all_digits s = true -> (0 <= acc)%Z ->
  exists v,
    (0 <= v)%Z /\
    Js.read_digits acc count s = (v, (count + String.length s)%nat, EmptyString).
Proof.
  revert acc count. induction s as [| c s IH]; intros acc count Hall Hacc.
  - exists acc. split; [exact Hacc |]. simpl. now rewrite Nat.add_0_r.
  - simpl in Hall. simpl. destruct (Js.digit_of c) as [d |] eqn:Hd;
      [| discriminate].
    pose proof (digit_of_range c d Hd).
    destruct (IH (acc * 10 + d)%Z (S count) Hall) as (v & Hv & Hread);
      [lia |].
    exists v. split; [exact Hv |]. rewrite Hread. f_equal. f_equal. lia.
Qed.

Lemma digit_is_no_radix c d : Js.digit_of c = Some d -> radix_of c = None.
Proof.
  intro H. pose proof (digit_of_cases c d H) as Hin. simpl in Hin.
  repeat (destruct Hin as [<- | Hin]; [reflexivity |]). destruct Hin.
Qed.

Lemma digit_is_no_x c d :
  Js.digit_of c = Some d -> (Ascii.eqb c "x" || Ascii.eqb c "X")%bool = false.
Proof.
  intro H. pose proof (digit_of_cases c d H) as Hin. simpl in Hin.
  repeat (destruct Hin as [<- | Hin]; [reflexivity |]). destruct Hin.
Qed.

Lemma StrDecimalLiteral_digits c d rest :
  Js.digit_of c = Some d -> all_digits rest = true ->
  exists v,
    (0 <= v)%Z /\
    Js.read_digits 0 0 (String c rest)
    = (v, S (String.length rest), EmptyString) /\
    StrDecimalLiteral (String c rest) = Num (IZR v).
Proof.
  intros Hd Hrest.
  destruct (read_digits_all (String c rest) 0 0) as (v & Hv & Hread);
    [simpl; now rewrite Hd | lia |].
  exists v. split; [exact Hv |]. split; [exact Hread |].
  pose proof (digit_of_cases c d Hd) as Hin. simpl in Hin.
  unfold StrDecimalLiteral.
  repeat (destruct Hin as [<- | Hin];
          [cbn [Js.read_sign after_prefix Ascii.eqb Bool.eqb];
           rewrite Hread; cbn; f_equal; lra |]).
  destruct Hin.
Qed.

(** X29: a parameter that is a non-empty string of decimal digits reads as
    the same natural number through [ToNumber] and through [parseInt], so
    that the skip and the limit of a list agree on it. *)
Theorem digits_read_the_same_both_ways default s :
  s <> EmptyString -> all_digits s = true ->
  exists n, (0 <= n)%Z /\ reads_as default n (Some s).
Proof.
  intros Hne Hall. destruct s as [| c rest]; [congruence |].
  simpl in Hall. destruct (Js.digit_of c) as [d |] eqn:Hd; [| discriminate].
  destruct (StrDecimalLiteral_digits c d rest Hd Hall)
    as (v & Hv & Hread & Hliteral).
  exists v. split; [exact Hv |].
  assert (Hskip : Js.skip_white_space (String c rest) = String c rest).
  { pose proof (digit_of_cases c d Hd) as Hin. simpl in Hin.
    repeat (destruct Hin as [<- | Hin]; [reflexivity |]). destruct Hin. }
  assert (Hsign : Js.read_sign (String c rest) = (false, String c rest)).
  { pose proof (digit_of_cases c d Hd) as Hin. simpl in Hin.
    repeat (destruct Hin as [<- | Hin]; [reflexivity |]). destruct Hin. }
  unfold reads_as, to_number, to_int, StringToNumber, Js.parseInt.
  rewrite Hskip, Hsign.
  destruct rest as [| c' rest'].
  - split.
    + destruct c as [[] [] [] [] [] [] [] []]; exact Hliteral.
    + rewrite Hread. destruct c as [[] [] [] [] [] [] [] []]; reflexivity.
  - simpl in Hall.
    destruct (Js.digit_of c') as [d' |] eqn:Hd'; [| discriminate].
    split.
    + rewrite (digit_is_no_radix c' d' Hd').
      destruct c as [[] [] [] [] [] [] [] []]; exact Hliteral.
    + rewrite (digit_is_no_x c' d' Hd'), Hread.
      destruct c as [[] [] [] [] [] [] [] []]; reflexivity.
Qed.

(** For X29: the string 025. *)
Lemma digits_read_witness :
  exists n, (0 <= n)%Z /\ reads_as 10 n (Some "025"%string).
Proof.
  apply (digits_read_the_same_both_ways 10 "025");
    [discriminate | reflexivity].
Defined.

End ListFacts.

(** ** [calculateDistance] in doubles *)

Section Binary64Facts.

Import Js Binary64.

Lemma ln_powerRZ_2 (e : Z) : ln (powerRZ 2 e) = IZR e * ln 2.
Proof.
  rewrite powerRZ_Rpower by lra. unfold Rpower. apply ln_exp.
Qed.

Lemma ln_2_pos : 0 < ln 2.
Proof. pose proof ln_lt_2. lra. Qed.

Lemma floor_log2 (x : R) (e : Z) :
  powerRZ 2 e <= x < powerRZ 2 (e + 1) -> Zfloor (ln x / ln 2) = e.
Proof.
  intros [Hlo Hhi]. pose proof ln_2_pos as H2.
  assert (Hpos : 0 < powerRZ 2 e) by (apply powerRZ_lt; lra).
  assert (Hx : 0 < x) by lra.
  apply Zfloor_eq. split.
  - apply Rmult_le_reg_r with (ln 2); [exact H2 |].
    replace (ln x / ln 2 * ln 2) with (ln x) by (field; lra).
    rewrite <- ln_powerRZ_2.
    destruct Hlo as [Hlo | <-]; [left; now apply ln_increasing | right; reflexivity].
  - apply Rmult_lt_reg_r with (ln 2); [exact H2 |].
    replace (ln x / ln 2 * ln 2) with (ln x) by (field; lra).
    replace ((IZR e + 1) * ln 2) with (ln (powerRZ 2 (e + 1)))
      by (rewrite ln_powerRZ_2, plus_IZR; ring).
    now apply ln_increasing.
Qed.

Lemma round_half_even_near (y : R) (m : Z) :
  IZR m - / 2 < y < IZR m + / 2 -> Location.round_half_even y = m.
Proof.
  intros [Hlo Hhi]. unfold Location.round_half_even.
  pose proof (Zfloor_bound y) as [Hf1 Hf2].
  destruct (Rlt_dec (y - IZR (Zfloor y)) (/ 2)) as [Hlt | Hge].
  - apply Zfloor_eq. split.
    + assert (H : (m - 1 < Zfloor y + 1)%Z).
      { apply lt_IZR. rewrite minus_IZR, plus_IZR. lra. }
      assert (H' : (Zfloor y < m + 1)%Z).
      { apply lt_IZR. rewrite plus_IZR. lra. }
      assert (Zfloor y = m \/ Zfloor y = (m - 1)%Z) as [Hz | Hz] by lia.
      * rewrite <- Hz. exact Hf1.
      * exfalso. rewrite Hz, minus_IZR in Hlt. lra.
    + assert (H' : (Zfloor y < m + 1)%Z).
      { apply lt_IZR. rewrite plus_IZR. lra. }
      assert (H : (m - 2 < Zfloor y)%Z).
      { apply lt_IZR. rewrite minus_IZR. lra. }
      assert (Zfloor y = m \/ Zfloor y = (m - 1)%Z) as [Hz | Hz] by lia.
      * rewrite Hz in Hf2. exact Hf2.
      * exfalso. rewrite Hz, minus_IZR in Hlt. lra.
  - assert (H' : (Zfloor y < m + 1)%Z).
    { apply lt_IZR. rewrite plus_IZR. lra. }
    assert (H : (m - 2 < Zfloor y)%Z).
    { apply lt_IZR. rewrite minus_IZR. lra. }
    assert (Zfloor y = m \/ Zfloor y = (m - 1)%Z) as [Hz | Hz] by lia.
    + exfalso. rewrite Hz in Hge. lra.
    + destruct (Rlt_dec (/ 2) (y - IZR (Zfloor y))) as [Hgt | Hngt];
        [lia |].
      exfalso. rewrite Hz, minus_IZR in Hge, Hngt. lra.
Qed.

(** The double nearest a positive real [x] of the binade [2^e, 2^(e+1)),
    when [x] is nearer to the multiple [m] of the unit in the last place
    than to any other. *)
Lemma round_near (x : R) (e m : Z) :
  (-1022 <= e)%Z ->
  powerRZ 2 e <= x < powerRZ 2 (e + 1) ->
  IZR m - / 2 < x * powerRZ 2 (52 - e) < IZR m + / 2 ->
  round x = IZR m * powerRZ 2 (e - 52).
Proof.
  intros He Hx Hm.
  assert (Hpos : 0 < powerRZ 2 e) by (apply powerRZ_lt; lra).
  unfold round. destruct (Req_dec_T x 0) as [H0 | _]; [lra |].
  unfold ulp_exponent. rewrite Rabs_pos_eq by lra.
  rewrite (floor_log2 x e Hx).
  replace (Z.max (e - 52) (-1074)) with (e - 52)%Z by lia.
  replace (- (e - 52))%Z with (52 - e)%Z by lia.
  now rewrite (round_half_even_near _ m Hm).
Qed.


Lemma round_near_neg (x : R) (e m : Z) :
  (-1022 <= e)%Z ->
  powerRZ 2 e <= - x < powerRZ 2 (e + 1) ->
  IZR m - / 2 < x * powerRZ 2 (52 - e) < IZR m + / 2 ->
  round x = IZR m * powerRZ 2 (e - 52).
Proof.
  intros He Hx Hm.
  assert (Hpos : 0 < powerRZ 2 e) by (apply powerRZ_lt; lra).
  unfold round. destruct (Req_dec_T x 0) as [H0 | _]; [lra |].
  unfold ulp_exponent. rewrite Rabs_left by lra.
  rewrite (floor_log2 (- x) e Hx).
  replace (Z.max (e - 52) (-1074)) with (e - 52)%Z by lia.
  replace (- (e - 52))%Z with (52 - e)%Z by lia.
  now rewrite (round_half_even_near _ m Hm).
Qed.

Lemma finite_below (x : R) : Rabs x <= 256 -> finite x = Num x.
Proof.
  intro H. unfold finite.
  destruct (Rlt_dec (Rabs x) (powerRZ 2 1024)) as [_ | Hbig];
    [reflexivity |].
  exfalso. apply Hbig. apply Rle_lt_trans with (2 ^ 8); [simpl; lra |].
  change 1024%Z with (Z.of_nat 1024). rewrite <- pow_powerRZ.
  apply Rlt_pow; [lra | lia].
Qed.

Ltac by_rounding e m :=
  rewrite (round_near _ e m); [| lia | simpl; lra | simpl; lra];
  rewrite finite_below by (rewrite Rabs_pos_eq; simpl; lra);
  f_equal; simpl; lra.

Ltac by_rounding_neg e m :=
  rewrite (round_near_neg _ e m); [| lia | simpl; lra | simpl; lra];
  rewrite finite_below by (rewrite Rabs_left; simpl; lra);
  f_equal; simpl; lra.

(** *** The steps of [calculateDistance] between (-8, -170) and (8, 10) *)

Lemma dLat_degrees : sub (Num 8) (Num (-8)) = Num 16.
Proof. unfold sub, rounded. by_rounding 4%Z 4503599627370496%Z. Qed.

Lemma dLon_degrees : sub (Num 10) (Num (-170)) = Num 180.
Proof. unfold sub, rounded. by_rounding 7%Z 6333186975989760%Z. Qed.

Lemma degree :
  div (Num Math_PI) (Num 180)
  = Num (5030569068109113 / 288230376151711744).
Proof.
  unfold div, Math_PI. destruct (Req_dec_T 180 0) as [H | _]; [lra |].
  by_rounding (-6)%Z 5030569068109113%Z.
Qed.

Lemma toRad_16 :
  mul (Num 16) (Num (5030569068109113 / 288230376151711744))
  = Num (5030569068109113 / 18014398509481984).
Proof. unfold mul, rounded. by_rounding (-2)%Z 5030569068109113%Z. Qed.

Lemma half_dLat :
  div (Num (5030569068109113 / 18014398509481984)) (Num 2) = Num toRad_8.
Proof.
  unfold div, toRad_8. destruct (Req_dec_T 2 0) as [H | _]; [lra |].
  by_rounding (-3)%Z 5030569068109113%Z.
Qed.

Lemma toRad_180 :
  mul (Num 180) (Num (5030569068109113 / 288230376151711744)) = Num Math_PI.
Proof.
  unfold mul, rounded, Math_PI. by_rounding 1%Z 7074237752028440%Z.
Qed.

Lemma half_dLon : div (Num Math_PI) (Num 2) = Num half_PI.
Proof.
  unfold div, Math_PI, half_PI. destruct (Req_dec_T 2 0) as [H | _]; [lra |].
  by_rounding 0%Z 7074237752028440%Z.
Qed.

Lemma toRad_lat1 :
  mul (Num (-8)) (Num (5030569068109113 / 288230376151711744))
  = Num (- toRad_8).
Proof.
  unfold mul, rounded, toRad_8. by_rounding_neg (-3)%Z (-5030569068109113)%Z.
Qed.

Lemma toRad_lat2 :
  mul (Num 8) (Num (5030569068109113 / 288230376151711744)) = Num toRad_8.
Proof.
  unfold mul, rounded, toRad_8. by_rounding (-3)%Z 5030569068109113%Z.
Qed.

Lemma sin_squared :
  mul (Num sin_toRad_8) (Num sin_toRad_8)
  = Num (1395694493897217 / 72057594037927936).
Proof.
  unfold mul, rounded, sin_toRad_8. by_rounding (-6)%Z 5582777975588868%Z.
Qed.

Lemma cos_squared :
  mul (Num cos_toRad_8) (Num cos_toRad_8)
  = Num (8832737443003841 / 9007199254740992).
Proof.
  unfold mul, rounded, cos_toRad_8. by_rounding (-1)%Z 8832737443003841%Z.
Qed.

Lemma times_one :
  mul (Num (8832737443003841 / 9007199254740992)) (Num 1)
  = Num (8832737443003841 / 9007199254740992).
Proof. unfold mul, rounded. by_rounding (-1)%Z 8832737443003841%Z. Qed.

Lemma haversine_term :
  add (Num (1395694493897217 / 72057594037927936))
      (Num (8832737443003841 / 9007199254740992))
  = Num (4503599627370497 / 4503599627370496).
Proof. unfold add, rounded. by_rounding 0%Z 4503599627370497%Z. Qed.

Lemma one_minus_a :
  sub (Num 1) (Num (4503599627370497 / 4503599627370496))
  = Num (- / 4503599627370496).
Proof.
  unfold sub, rounded. by_rounding_neg (-52)%Z (-4503599627370496)%Z.
Qed.

(** C6: between the points (-8, -170) and (8, 10), which are almost
    opposite on the sphere, [calculateDistance] is [NaN] for every
    implementation of [Math.sin] and [Math.cos] that gives the doubles
    nearest to the sine and the cosine of [toRad(8)] and 1 for the sine of
    half of [Math.PI]: the term [a] rounds to the double after 1, and
    [Math.sqrt(1 - a)] is taken of a negative number. *)
Theorem calculateDistance_NaN_near_the_antipode (M : Math) :
  Math_sin M toRad_8 = sin_toRad_8 ->
  Math_cos M (- toRad_8) = cos_toRad_8 ->
  Math_cos M toRad_8 = cos_toRad_8 ->
  Math_sin M half_PI = 1 ->
  calculateDistance M (-8) (-170) 8 10 = NaN.
Proof.
  intros Hsin Hcos1 Hcos2 Hsin2.
  unfold calculateDistance, toRad.
  rewrite dLat_degrees, dLon_degrees, degree, toRad_16, half_dLat, toRad_180,
    half_dLon, toRad_lat1, toRad_lat2.
  cbn [sin_ cos_]. rewrite Hsin, Hcos1, Hcos2, Hsin2.
  rewrite sin_squared, cos_squared, !times_one, haversine_term, one_minus_a.
  unfold Math_sqrt at 2.
  destruct (Rlt_dec (- / 4503599627370496) 0) as [_ | H]; [| exfalso; lra].
  destruct (Math_sqrt _); reflexivity.
Qed.

(** *** The correctly rounded sine and cosine at these arguments *)

Lemma INR_fact (n : nat) : INR (fact n) = IZR (Zfact n).
Proof.
  induction n as [| n IH]; [reflexivity |].
  change (fact (S n)) with (S n * fact n)%nat.
  rewrite mult_INR, IH. cbn [Zfact]. rewrite mult_IZR, <- INR_IZR_INZ.
  reflexivity.
Qed.

Lemma INR_fact_eq (n : nat) (z : Z) : Zfact n = z -> INR (fact n) = IZR z.
Proof. intros <-. apply INR_fact. Qed.

Ltac taylor H :=
  unfold sin_approx, cos_approx in H; cbn [Nat.mul Nat.add sum_f_R0] in H;
  unfold sin_term, cos_term in H; cbn [Nat.mul Nat.add] in H.

Lemma sin_toRad_8_bounds :
  5014239404989977 - / 2 < sin toRad_8 * 36028797018963968
  < 5014239404989977 + / 2.
Proof.
  pose proof (pre_sin_bound toRad_8 2) as [Hlo Hhi];
    [unfold toRad_8; lra | unfold toRad_8; lra |].
  taylor Hlo. taylor Hhi.
  rewrite ?(INR_fact_eq 1 1 eq_refl), ?(INR_fact_eq 3 6 eq_refl), ?(INR_fact_eq 5 120 eq_refl), ?(INR_fact_eq 7 5040 eq_refl), ?(INR_fact_eq 9 362880 eq_refl), ?(INR_fact_eq 11 39916800 eq_refl), ?(INR_fact_eq 13 6227020800 eq_refl) in Hlo.
  rewrite ?(INR_fact_eq 1 1 eq_refl), ?(INR_fact_eq 3 6 eq_refl), ?(INR_fact_eq 5 120 eq_refl), ?(INR_fact_eq 7 5040 eq_refl), ?(INR_fact_eq 9 362880 eq_refl), ?(INR_fact_eq 11 39916800 eq_refl), ?(INR_fact_eq 13 6227020800 eq_refl) in Hhi.
  unfold toRad_8 in *. split; lra.
Qed.

Lemma cos_toRad_8_bounds :
  8919541810762874 - / 2 < cos toRad_8 * 9007199254740992
  < 8919541810762874 + / 2.
Proof.
  pose proof (pre_cos_bound toRad_8 3) as [Hlo Hhi];
    [unfold toRad_8; lra | unfold toRad_8; lra |].
  taylor Hlo. taylor Hhi.
  rewrite ?(INR_fact_eq 0 1 eq_refl), ?(INR_fact_eq 2 2 eq_refl), ?(INR_fact_eq 4 24 eq_refl), ?(INR_fact_eq 6 720 eq_refl), ?(INR_fact_eq 8 40320 eq_refl), ?(INR_fact_eq 10 3628800 eq_refl), ?(INR_fact_eq 12 479001600 eq_refl), ?(INR_fact_eq 14 87178291200 eq_refl), ?(INR_fact_eq 16 20922789888000 eq_refl) in Hlo.
  rewrite ?(INR_fact_eq 0 1 eq_refl), ?(INR_fact_eq 2 2 eq_refl), ?(INR_fact_eq 4 24 eq_refl), ?(INR_fact_eq 6 720 eq_refl), ?(INR_fact_eq 8 40320 eq_refl), ?(INR_fact_eq 10 3628800 eq_refl), ?(INR_fact_eq 12 479001600 eq_refl), ?(INR_fact_eq 14 87178291200 eq_refl), ?(INR_fact_eq 16 20922789888000 eq_refl) in Hhi.
  unfold toRad_8 in *. split; lra.
Qed.

Lemma sin_half_PI_bounds :
  9007199254740992 - / 2 < sin half_PI * 9007199254740992.
Proof.
  pose proof (pre_sin_bound half_PI 5) as [Hlo _];
    [unfold half_PI; lra | unfold half_PI; lra |].
  taylor Hlo.
  rewrite ?(INR_fact_eq 1 1 eq_refl), ?(INR_fact_eq 3 6 eq_refl), ?(INR_fact_eq 5 120 eq_refl), ?(INR_fact_eq 7 5040 eq_refl), ?(INR_fact_eq 9 362880 eq_refl), ?(INR_fact_eq 11 39916800 eq_refl), ?(INR_fact_eq 13 6227020800 eq_refl), ?(INR_fact_eq 15 1307674368000 eq_refl), ?(INR_fact_eq 17 355687428096000 eq_refl), ?(INR_fact_eq 19 121645100408832000 eq_refl), ?(INR_fact_eq 21 51090942171709440000 eq_refl), ?(INR_fact_eq 23 25852016738884976640000 eq_refl) in Hlo.
  unfold half_PI in *. lra.
Qed.

Lemma sin_toRad_8_rounded : round (sin toRad_8) = sin_toRad_8.
Proof.
  pose proof sin_toRad_8_bounds as H.
  rewrite (round_near _ (-3) 5014239404989977);
    [unfold sin_toRad_8; simpl; lra | lia | simpl; lra | simpl; lra].
Qed.

Lemma cos_toRad_8_rounded : round (cos toRad_8) = cos_toRad_8.
Proof.
  pose proof cos_toRad_8_bounds as H.
  rewrite (round_near _ (-1) 8919541810762874);
    [unfold cos_toRad_8; simpl; lra | lia | simpl; lra | simpl; lra].
Qed.

Lemma sin_half_PI_rounded : round (sin half_PI) = 1.
Proof.
  pose proof sin_half_PI_bounds as H.
  pose proof (SIN_bound half_PI) as [_ [Hlt | Heq]].
  - rewrite (round_near _ (-1) 9007199254740992);
      [simpl; lra | lia | simpl; lra | simpl; lra].
  - rewrite Heq.
    rewrite (round_near _ 0 4503599627370496);
      [simpl; lra | lia | simpl; lra | simpl; lra].
Qed.

(** For C6: the implementation that rounds correctly. *)
Lemma calculateDistance_NaN_witness :
  calculateDistance correctly_rounded (-8) (-170) 8 10 = NaN.
Proof.
  apply calculateDistance_NaN_near_the_antipode; cbn [correctly_rounded
    Math_sin Math_cos].
  - exact sin_toRad_8_rounded.
  - rewrite cos_neg. exact cos_toRad_8_rounded.
  - exact cos_toRad_8_rounded.
  - exact sin_half_PI_rounded.
Defined.

(** *** Rounding *)

Lemma powerRZ_2_le (m n : Z) : (m <= n)%Z -> powerRZ 2 m <= powerRZ 2 n.
Proof.
  intro H. rewrite !powerRZ_Rpower by lra.
  apply Rle_Rpower; [lra | now apply IZR_le].
Qed.

Lemma powerRZ_2_IZR (k : Z) : (0 <= k)%Z -> powerRZ 2 k = IZR (2 ^ k).
Proof.
  intro H. rewrite <- (Z2Nat.id k H), <- pow_powerRZ. apply pow_IZR.
Qed.

Lemma powerRZ_2_cancel (e : Z) : powerRZ 2 (- e) * powerRZ 2 e = 1.
Proof.
  rewrite <- powerRZ_add by lra. now replace (- e + e)%Z with 0%Z by lia.
Qed.

(** The binade of a real other than zero. *)
Lemma binade (x : R) :
  x <> 0 ->
  powerRZ 2 (Zfloor (ln (Rabs x) / ln 2)) <= Rabs x
  < powerRZ 2 (Zfloor (ln (Rabs x) / ln 2) + 1).
Proof.
  intro Hx. pose proof ln_2_pos as H2.
  assert (Hpos : 0 < Rabs x) by now apply Rabs_pos_lt.
  pose proof (Zfloor_bound (ln (Rabs x) / ln 2)) as [Hlo Hhi].
  set (f := Zfloor (ln (Rabs x) / ln 2)) in *.
  rewrite !powerRZ_Rpower by lra. unfold Rpower.
  pose proof (exp_ln (Rabs x) Hpos) as Hexp.
  assert (Hl : IZR f * ln 2 <= ln (Rabs x)).
  { apply Rmult_le_compat_r with (r := ln 2) in Hlo; [| lra].
    replace (ln (Rabs x) / ln 2 * ln 2) with (ln (Rabs x)) in Hlo
      by (field; lra).
    exact Hlo. }
  assert (Hh : ln (Rabs x) < IZR (f + 1) * ln 2).
  { apply Rmult_lt_compat_r with (r := ln 2) in Hhi; [| lra].
    replace (ln (Rabs x) / ln 2 * ln 2) with (ln (Rabs x)) in Hhi
      by (field; lra).
    rewrite plus_IZR. exact Hhi. }
  split; rewrite <- Hexp.
  - destruct Hl as [Hl | <-]; [left; now apply exp_increasing | right; reflexivity].
  - now apply exp_increasing.
Qed.

Lemma round_half_even_close (y : R) :
  Rabs (IZR (Location.round_half_even y) - y) <= / 2.
Proof.
  unfold Location.round_half_even. pose proof (Zfloor_bound y) as [Hlo Hhi].
  apply Rabs_le.
  destruct (Rlt_dec _ _); [lra |].
  destruct (Rlt_dec _ _); [rewrite plus_IZR; lra |].
  destruct (Z.even _); [lra | rewrite plus_IZR; lra].
Qed.

Lemma round_half_even_opp (y : R) :
  Location.round_half_even (- y) = (- Location.round_half_even y)%Z.
Proof.
  unfold Location.round_half_even.
  pose proof (Zfloor_bound y) as [Hlo Hhi].
  destruct Hlo as [Hlo | Hint].
  - assert (Hf : Zfloor (- y) = (- Zfloor y - 1)%Z).
    { apply Zfloor_eq. rewrite minus_IZR, opp_IZR. lra. }
    rewrite Hf, minus_IZR, opp_IZR.
    assert (Heven : Z.even (- Zfloor y - 1) = negb (Z.even (Zfloor y))).
    { rewrite Z.even_sub, Z.even_opp. now destruct (Z.even (Zfloor y)). }
    rewrite Heven.
    destruct (Rlt_dec (y - IZR (Zfloor y)) (/ 2));
      destruct (Rlt_dec (- y - (- IZR (Zfloor y) - 1)) (/ 2)); try lra;
      destruct (Rlt_dec (/ 2) (- y - (- IZR (Zfloor y) - 1))); try lra;
      try lia;
      destruct (Rlt_dec (/ 2) (y - IZR (Zfloor y))); try lra; try lia.
    destruct (Z.even (Zfloor y)); simpl; lia.
  - assert (Hf : Zfloor (- y) = (- Zfloor y)%Z).
    { apply Zfloor_eq. rewrite opp_IZR. lra. }
    rewrite Hf, opp_IZR.
    destruct (Rlt_dec (y - IZR (Zfloor y)) (/ 2)); [| lra].
    destruct (Rlt_dec (- y - - IZR (Zfloor y)) (/ 2)); [| lra].
    reflexivity.
Qed.

Lemma round_half_even_nonneg (y : R) :
  0 <= y -> (0 <= Location.round_half_even y)%Z.
Proof.
  intro Hy. unfold Location.round_half_even.
  assert (Hf : (0 <= Zfloor y)%Z) by now apply Zfloor_lub.
  destruct (Rlt_dec _ _); [lia |].
  destruct (Rlt_dec _ _); [lia |].
  destruct (Z.even _); lia.
Qed.

Lemma round_half_even_below (y : R) (n : Z) :
  y <= IZR n -> (Location.round_half_even y <= n)%Z.
Proof.
  intro Hy. unfold Location.round_half_even.
  pose proof (Zfloor_bound y) as [Hlo Hhi].
  assert (Hf : (Zfloor y <= n)%Z) by (apply le_IZR; lra).
  destruct (Rlt_dec _ _) as [| Hhalf]; [lia |].
  assert (Zfloor y <> n).
  { intro E. rewrite E in Hhalf. lra. }
  destruct (Rlt_dec _ _); [lia |].
  destruct (Z.even _); lia.
Qed.

Lemma round_0 : round 0 = 0.
Proof. unfold round. destruct (Req_dec_T 0 0); [reflexivity | lra]. Qed.

Lemma round_opp (x : R) : round (- x) = - round x.
Proof.
  unfold round.
  destruct (Req_dec_T (- x) 0), (Req_dec_T x 0); try lra.
  unfold ulp_exponent. rewrite Rabs_Ropp.
  replace (- x * powerRZ 2 (- Z.max (Zfloor (ln (Rabs x) / ln 2) - 52) (-1074)))
    with (- (x * powerRZ 2 (- Z.max (Zfloor (ln (Rabs x) / ln 2) - 52) (-1074))))
    by ring.
  rewrite round_half_even_opp, opp_IZR. ring.
Qed.

Lemma round_nonneg (x : R) : 0 <= x -> 0 <= round x.
Proof.
  intro Hx. unfold round. destruct (Req_dec_T x 0); [lra |].
  apply Rmult_le_pos; [| apply powerRZ_le; lra].
  apply IZR_le, round_half_even_nonneg.
  apply Rmult_le_pos; [exact Hx | apply powerRZ_le; lra].
Qed.

(** Rounding moves a real by half a unit in the last place at most. *)
Lemma round_close (x : R) :
  x <> 0 -> Rabs (round x - x) <= powerRZ 2 (ulp_exponent x) / 2.
Proof.
  intro Hx. unfold round. destruct (Req_dec_T x 0); [lra |].
  set (e := ulp_exponent x).
  assert (Hp : 0 < powerRZ 2 e) by (apply powerRZ_lt; lra).
  pose proof (round_half_even_close (x * powerRZ 2 (- e))) as H.
  pose proof (powerRZ_2_cancel e) as Hc.
  replace (IZR (Location.round_half_even (x * powerRZ 2 (- e))) * powerRZ 2 e - x)
    with ((IZR (Location.round_half_even (x * powerRZ 2 (- e)))
           - x * powerRZ 2 (- e)) * powerRZ 2 e)
    by (rewrite Rmult_minus_distr_r, Rmult_assoc, Hc; ring).
  rewrite Rabs_mult, (Rabs_pos_eq (powerRZ 2 e)) by lra.
  apply Rmult_le_compat_r with (r := powerRZ 2 e) in H; lra.
Qed.

Lemma ulp_small (x : R) : x <> 0 -> powerRZ 2 (ulp_exponent x) <= Rabs x + 1.
Proof.
  intro Hx. pose proof (binade x Hx) as [Hlo _].
  pose proof (Rabs_pos x) as Hpos.
  unfold ulp_exponent.
  destruct (Z.max_spec (Zfloor (ln (Rabs x) / ln 2) - 52) (-1074))
    as [[_ ->] | [_ ->]].
  - pose proof (powerRZ_2_le (-1074) 0 ltac:(lia)) as H.
    change (powerRZ 2 0) with 1 in H. lra.
  - pose proof (powerRZ_2_le (Zfloor (ln (Rabs x) / ln 2) - 52)
                  (Zfloor (ln (Rabs x) / ln 2)) ltac:(lia)). lra.
Qed.

Lemma round_bound (x : R) : Rabs (round x) <= 2 * Rabs x + 1.
Proof.
  destruct (Req_dec_T x 0) as [-> | Hx].
  - rewrite round_0, Rabs_R0. lra.
  - pose proof (round_close x Hx) as Hc. pose proof (ulp_small x Hx) as Hu.
    pose proof (Rabs_triang (round x - x) x) as Ht.
    replace (round x - x + x) with (round x) in Ht by ring.
    pose proof (Rabs_pos x). lra.
Qed.

Lemma finite_small (x : R) : Rabs x <= 256 -> finite (round x) = Num (round x).
Proof.
  intro H. unfold finite.
  destruct (Rlt_dec _ _) as [_ | Hbig]; [reflexivity |].
  exfalso. apply Hbig. pose proof (round_bound x).
  apply Rle_lt_trans with (2 ^ 10); [simpl; lra |].
  change 1024%Z with (Z.of_nat 1024). rewrite <- pow_powerRZ.
  apply Rlt_pow; [lra | lia].
Qed.

Lemma finite_opp (x : R) : finite (- x) = neg (finite x).
Proof.
  unfold finite. rewrite Rabs_Ropp. now destruct (Rlt_dec _ _).
Qed.

Lemma round_1 : round 1 = 1.
Proof.
  rewrite (round_near 1 0 4503599627370496); [simpl; lra | lia | simpl; lra | simpl; lra].
Qed.

Lemma round_within_1 (x : R) : Rabs x <= 1 -> Rabs (round x) <= 1.
Proof.
  assert (Hpos : forall y, 0 < y <= 1 -> 0 <= round y <= 1).
  { intros y [Hy0 Hy1]. split; [apply round_nonneg; lra |].
    destruct Hy1 as [Hy1 | ->]; [| rewrite round_1; lra].
    assert (Hy : y <> 0) by lra.
    pose proof (binade y Hy) as [Hlo _]. rewrite Rabs_pos_eq in Hlo by lra.
    unfold round. destruct (Req_dec_T y 0); [lra |].
    set (e := ulp_exponent y).
    assert (He : (e <= -53)%Z).
    { unfold e, ulp_exponent. rewrite Rabs_pos_eq by lra.
      destruct (Z_lt_le_dec (Zfloor (ln y / ln 2)) 0) as [Hneg | Hge]; [lia |].
      pose proof (powerRZ_2_le 0 _ Hge) as H. change (powerRZ 2 0) with 1 in H.
      lra. }
    assert (Hp : 0 < powerRZ 2 e) by (apply powerRZ_lt; lra).
    assert (Hq : 0 < powerRZ 2 (- e)) by (apply powerRZ_lt; lra).
    pose proof (powerRZ_2_cancel e) as Hc.
    assert (Hn : (Location.round_half_even (y * powerRZ 2 (- e)) <= 2 ^ (- e))%Z).
    { apply round_half_even_below. rewrite <- powerRZ_2_IZR by lia.
      rewrite <- (Rmult_1_l (powerRZ 2 (- e))) at 2.
      apply Rmult_le_compat_r; lra. }
    apply IZR_le in Hn. rewrite <- powerRZ_2_IZR in Hn by lia.
    apply Rmult_le_compat_r with (r := powerRZ 2 e) in Hn; lra. }
  intro Hx. destruct (Req_dec_T x 0) as [-> | Hx0].
  - rewrite round_0, Rabs_R0. lra.
  - destruct (Rlt_dec 0 x) as [Hp | Hn].
    + rewrite Rabs_pos_eq in Hx by lra.
      rewrite Rabs_pos_eq; apply Hpos; lra.
    + assert (Hneg : x < 0) by lra. rewrite Rabs_left in Hx by lra.
      replace x with (- (- x)) by ring. rewrite round_opp, Rabs_Ropp.
      rewrite Rabs_pos_eq; apply Hpos; lra.
Qed.


(** *** The arithmetic of doubles *)

Lemma finite_0 : finite 0 = Num 0.
Proof. apply finite_below. rewrite Rabs_R0. lra. Qed.

Lemma finite_1 : finite 1 = Num 1.
Proof. apply finite_below. rewrite Rabs_pos_eq; lra. Qed.

Lemma sub_same (x : R) : sub (Num x) (Num x) = Num 0.
Proof.
  unfold sub, rounded. replace (x - x) with 0 by ring.
  rewrite round_0. exact finite_0.
Qed.

Lemma mul_0_l (y : R) : mul (Num 0) (Num y) = Num 0.
Proof.
  unfold mul, rounded. rewrite Rmult_0_l, round_0. exact finite_0.
Qed.

Lemma mul_0_r (x : R) : mul (Num x) (Num 0) = Num 0.
Proof.
  unfold mul, rounded. rewrite Rmult_0_r, round_0. exact finite_0.
Qed.

Lemma half_of_0 : div (Num 0) (Num 2) = Num 0.
Proof.
  unfold div. destruct (Req_dec_T 2 0); [lra |].
  replace (0 / 2) with 0 by lra. rewrite round_0. exact finite_0.
Qed.

Lemma neg_involutive (a : number) : neg (neg a) = a.
Proof. destruct a; simpl; [reflexivity | now rewrite Ropp_involutive]. Qed.

Lemma sub_swap (a b : R) : sub (Num a) (Num b) = neg (sub (Num b) (Num a)).
Proof.
  unfold sub, rounded. replace (a - b) with (- (b - a)) by ring.
  now rewrite round_opp, finite_opp.
Qed.

Lemma mul_comm (a b : number) : mul a b = mul b a.
Proof.
  destruct a, b; try reflexivity. unfold mul, rounded.
  now rewrite Rmult_comm.
Qed.

Lemma mul_neg_l (a b : number) : mul (neg a) b = neg (mul a b).
Proof.
  destruct a as [| x], b as [| y]; try reflexivity. unfold mul, rounded, neg at 1.
  replace (- x * y) with (- (x * y)) by ring.
  now rewrite round_opp, finite_opp.
Qed.

Lemma mul_neg_r (a b : number) : mul a (neg b) = neg (mul a b).
Proof. now rewrite mul_comm, mul_neg_l, mul_comm. Qed.

Lemma div_neg_l (a b : number) : div (neg a) b = neg (div a b).
Proof.
  destruct a as [| x], b as [| y]; try reflexivity. unfold div, neg at 1.
  destruct (Req_dec_T y 0); [reflexivity |].
  replace (- x / y) with (- (x / y)) by (field; assumption).
  now rewrite round_opp, finite_opp.
Qed.

Lemma toRad_neg (a : number) : toRad (neg a) = neg (toRad a).
Proof. unfold toRad. apply mul_neg_l. Qed.

Lemma sin_neg_ (M : Math) (a : number) :
  (forall x, Math_sin M (- x) = - Math_sin M x) ->
  sin_ M (neg a) = neg (sin_ M a).
Proof. intro Hodd. destruct a as [| x]; simpl; [reflexivity | now rewrite Hodd]. Qed.

Lemma Math_sqrt_nonneg (a : number) :
  match Math_sqrt a with NaN => True | Num d => 0 <= d end.
Proof.
  destruct a as [| x]; simpl; [exact I |].
  destruct (Rlt_dec x 0); [exact I |]. apply round_nonneg, sqrt_pos.
Qed.

Lemma mul_nonneg (x y : R) :
  0 <= x -> 0 <= y ->
  match mul (Num x) (Num y) with NaN => True | Num d => 0 <= d end.
Proof.
  intros Hx Hy. unfold mul, rounded, finite.
  destruct (Rlt_dec _ _); [| exact I].
  apply round_nonneg. now apply Rmult_le_pos.
Qed.

(** *** What holds of [calculateDistance] in doubles *)

(** X30: in doubles the distance from a point to itself is 0, for every
    latitude of the range and every longitude, when [Math.sin(0)] and
    [Math.atan2(0, 1)] are 0 and [Math.cos] stays between -1 and 1. *)
Theorem calculateDistance_of_a_point_to_itself (M : Math) (lat lon : R) :
  Math_sin M 0 = 0 ->
  Math_atan2 M 0 1 = 0 ->
  (forall x, Rabs (Math_cos M x) <= 1) ->
  -90 <= lat <= 90 ->
  calculateDistance M lat lon lat lon = Num 0.
Proof.
  intros Hsin Hatan Hcos Hlat.
  unfold calculateDistance, toRad.
  rewrite !sub_same, degree, !mul_0_l, half_of_0.
  assert (Hrad : mul (Num lat) (Num (5030569068109113 / 288230376151711744))
                 = Num (round (lat * (5030569068109113 / 288230376151711744)))).
  { unfold mul, rounded. apply finite_small. apply Rabs_le. lra. }
  rewrite Hrad. cbn [sin_ cos_]. rewrite Hsin.
  set (c := Math_cos M _).
  assert (Hc : mul (Num c) (Num c) = Num (round (c * c))).
  { unfold mul, rounded. apply finite_small. rewrite Rabs_mult.
    pose proof (Hcos (round (lat * (5030569068109113 / 288230376151711744)))) as H.
    fold c in H. pose proof (Rabs_pos c). nra. }
  rewrite Hc, !mul_0_r.
  assert (Ha : add (Num 0) (Num 0) = Num 0).
  { unfold add, rounded. rewrite Rplus_0_l, round_0. exact finite_0. }
  rewrite Ha.
  assert (H1 : sub (Num 1) (Num 0) = Num 1).
  { unfold sub, rounded. rewrite Rminus_0_r, round_1. exact finite_1. }
  rewrite H1. unfold Math_sqrt.
  destruct (Rlt_dec 0 0) as [H | _]; [lra |].
  destruct (Rlt_dec 1 0) as [H | _]; [lra |].
  rewrite sqrt_0, sqrt_1, round_0, round_1. cbn [atan2_]. rewrite Hatan.
  now rewrite !mul_0_r.
Qed.

(** X31: in doubles the distance is the same in both directions, [NaN]
    included, when [Math.sin] is odd. *)
Theorem calculateDistance_symmetric_in_doubles
    (M : Math) (lat1 lon1 lat2 lon2 : R) :
  (forall x, Math_sin M (- x) = - Math_sin M x) ->
  calculateDistance M lat1 lon1 lat2 lon2
  = calculateDistance M lat2 lon2 lat1 lon1.
Proof.
  intro Hodd. unfold calculateDistance.
  rewrite (sub_swap lat1 lat2), (sub_swap lon1 lon2).
  rewrite !toRad_neg, !div_neg_l, !(sin_neg_ M _ Hodd).
  repeat first [rewrite mul_neg_l | rewrite mul_neg_r | rewrite neg_involutive].
  now rewrite (mul_comm (cos_ M (toRad (Num lat2)))).
Qed.

(** X32: in doubles the distance is never negative: it is [NaN] or a
    number that is at least 0, when [Math.atan2] is not negative on
    arguments that are not negative. *)
Theorem calculateDistance_NaN_or_nonnegative
    (M : Math) (lat1 lon1 lat2 lon2 : R) :
  (forall y x, 0 <= y -> 0 <= x -> 0 <= Math_atan2 M y x) ->
  match calculateDistance M lat1 lon1 lat2 lon2 with
  | NaN => True
  | Num d => 0 <= d
  end.
Proof.
  intro Hatan. unfold calculateDistance.
  set (a := add _ _).
  pose proof (Math_sqrt_nonneg a) as Hy.
  pose proof (Math_sqrt_nonneg (sub (Num 1) a)) as Hx.
  destruct (Math_sqrt a) as [| y]; [exact I |].
  destruct (Math_sqrt (sub (Num 1) a)) as [| x]; [exact I |].
  cbn [atan2_].
  pose proof (mul_nonneg 2 (Math_atan2 M y x) ltac:(lra) (Hatan y x Hy Hx)) as Hc.
  destruct (mul (Num 2) (Num (Math_atan2 M y x))) as [| c]; [exact I |].
  apply mul_nonneg; lra.
Qed.

Lemma Math_atan2_0_1 : Js.Math_atan2 0 1 = 0.
Proof.
  unfold Js.Math_atan2. destruct (Rlt_dec 0 1); [| lra].
  replace (0 / 1) with 0 by lra. exact atan_0.
Qed.

(** For X30: the point (8, 10) with the implementation that rounds
    correctly. *)
Lemma calculateDistance_of_a_point_witness :
  calculateDistance correctly_rounded 8 10 8 10 = Num 0.
Proof.
  apply calculateDistance_of_a_point_to_itself;
    cbn [correctly_rounded Math_sin Math_cos Math_atan2].
  - rewrite sin_0. exact round_0.
  - rewrite Math_atan2_0_1. exact round_0.
  - intro x. apply round_within_1. apply Rabs_le. apply COS_bound.
  - lra.
Defined.

(** For X31: the points (8, 10) and (12, 77). *)
Lemma calculateDistance_symmetric_witness :
  calculateDistance correctly_rounded 8 10 12 77
  = calculateDistance correctly_rounded 12 77 8 10.
Proof.
  apply calculateDistance_symmetric_in_doubles.
  intro x. cbn [correctly_rounded Math_sin]. rewrite sin_neg. apply round_opp.
Defined.

(** For X32: the points (8, 10) and (12, 77). *)
Lemma calculateDistance_nonnegative_witness :
  match calculateDistance correctly_rounded 8 10 12 77 with
  | NaN => True
  | Num d => 0 <= d
  end.
Proof.
  apply calculateDistance_NaN_or_nonnegative.
  intros y x Hy Hx. cbn [correctly_rounded Math_atan2].
  apply round_nonneg. now apply Math_atan2_nonneg.
Defined.

End Binary64Facts.
